(** * dendromatics: tree individualization ([individualize.py])

    A shallow embedding of [compute_axes_exact], [compute_axes_approximate]
    and [compute_heights].

    - A numpy [float64] is a primitive binary64 [float]; a 1-D array is a
      list, a 2-D array a list of rows.
    - A Python exception is a value of [PyExc], carried by [Result]; an
      expression of the source that can raise is a [bind].
    - The collaborators the module imports (libm's [hypot] and [arctan],
      sklearn's [PCA] and [DBSCAN], scipy's [KDTree], the package's own
      [voxelate]) are the fields of the class [Collaborators].
    - The progress hook is a function on a state of its own, threaded
      through the loops in call order: a hook that returns normally and keeps
      no reference to the arrays. *)

From Stdlib Require Import List ZArith Bool Floats Lia Permutation.
Import ListNotations.

Set Implicit Arguments.

(** ** Exceptions *)

Inductive PyExc : Set :=
| IndexError
| ValueError
| RuntimeError
| OverflowError.

Inductive Result (A : Type) : Type :=
| Ok (a : A)
| Raise (e : PyExc).

Arguments Ok {A} a.
Arguments Raise {A} e.

Definition bind {A B : Type} (r : Result A) (k : A -> Result B) : Result B :=
  match r with
  | Ok a => k a
  | Raise e => Raise e
  end.

Declare Scope py_scope.
Delimit Scope py_scope with py.
Notation "x <- e ;; k" := (bind e (fun x => k))
  (at level 61, e at next level, right associativity) : py_scope.
Notation "' pat <- e ;; k" := (bind e (fun x => match x with pat => k end))
  (at level 61, pat pattern, e at next level, right associativity) : py_scope.
Open Scope py_scope.

Fixpoint mapM {A B : Type} (f : A -> Result B) (l : list A) : Result (list B) :=
  match l with
  | [] => Ok []
  | a :: l' =>
      b <- f a ;;
      bs <- mapM f l' ;;
      Ok (b :: bs)
  end.

Definition raises {A : Type} (r : Result A) : Prop :=
  exists e, r = Raise e.

(** ** Arrays *)

Definition Vec := list float.
Definition Matrix := list Vec.

(** [a[i]] on a sequence of length [n]: [i] counts from the end when it is
    negative, and is an [IndexError] outside [-n .. n-1]. *)
Definition norm_index (n : nat) (i : Z) : Result nat :=
  if ((0 <=? i) && (i <? Z.of_nat n))%Z then Ok (Z.to_nat i)
  else if ((i <? 0) && (- Z.of_nat n <=? i))%Z then Ok (Z.to_nat (Z.of_nat n + i))
  else Raise IndexError.

Definition item {A : Type} (v : list A) (i : Z) : Result A :=
  k <- norm_index (length v) i ;;
  match nth_error v k with
  | Some x => Ok x
  | None => Raise IndexError
  end.

(** [m[:, f]] and [m[:, [f1, f2, ...]]].  A matrix without rows is taken
    to have the columns asked for. *)
Definition column (m : Matrix) (f : Z) : Result Vec :=
  mapM (fun row => item row f) m.

Definition columns (m : Matrix) (fs : list Z) : Result Matrix :=
  mapM (fun row => mapM (item row) fs) m.

(** [a[mask]]: the mask must have the array's length. *)
Fixpoint boolean_index {A : Type} (a : list A) (mask : list bool) : Result (list A) :=
  match a, mask with
  | [], [] => Ok []
  | x :: a', b :: mask' =>
      r <- boolean_index a' mask' ;;
      Ok (if b then x :: r else r)
  | _, _ => Raise IndexError
  end.

(** [a[mask] = v] and [a[mask] = b[mask]], for a mask computed from arrays of
    the same shape. *)
Fixpoint mask_fill (a : Vec) (mask : list bool) (v : float) : Vec :=
  match a, mask with
  | x :: a', b :: mask' => (if b then v else x) :: mask_fill a' mask' v
  | _, _ => a
  end.

Fixpoint mask_copy (a : Vec) (mask : list bool) (src : Vec) : Vec :=
  match a, mask, src with
  | x :: a', b :: mask', s :: src' => (if b then s else x) :: mask_copy a' mask' src'
  | _, _, _ => a
  end.

(** [a[lo:hi] = v]: a slice is clipped to the array, never an error. *)
Fixpoint slice_fill (a : Vec) (lo hi : nat) (v : float) : Vec :=
  match a with
  | [] => []
  | x :: a' =>
      match lo, hi with
      | _, O => a
      | O, S hi' => v :: slice_fill a' O hi' v
      | S lo', S hi' => x :: slice_fill a' lo' hi' v
      end
  end.

(** [a[indexes]] with an integer index array. *)
Definition take {A : Type} (a : list A) (indexes : list nat) : Result (list A) :=
  mapM (fun k => match nth_error a k with
                 | Some x => Ok x
                 | None => Raise IndexError
                 end) indexes.

(** [m[k, :] = row] on an existing row. *)
Fixpoint set_row (m : Matrix) (k : nat) (row : Vec) : Matrix :=
  match m, k with
  | [], _ => []
  | _ :: m', O => row :: m'
  | r :: m', S k' => r :: set_row m' k' row
  end.

(** Two arrays combined entry by entry. *)
Fixpoint zip_with {A B C : Type} (f : A -> B -> C) (l : list A) (l' : list B) : list C :=
  match l, l' with
  | a :: t, b :: t' => f a b :: zip_with f t t'
  | _, _ => []
  end.

(** ** Numbers *)

Definition float_of_Z (z : Z) : float :=
  SF2Prim (binary_normalize prec emax z 0 false).

Definition float_of_nat (n : nat) : float := float_of_Z (Z.of_nat n).

(** [int(x)]: truncation toward zero. *)
Definition py_int (x : float) : Result Z :=
  match Prim2SF x with
  | S754_nan => Raise ValueError
  | S754_infinity _ => Raise OverflowError
  | S754_zero _ => Ok 0%Z
  | S754_finite s m e =>
      let a := Z.shiftl (Z.pos m) e in
      Ok (if s then (- a)%Z else a)
  end.

Definition NO_ID : float := 100000%float.

Definition np_minimum (a b : float) : float :=
  if is_nan a then a else if is_nan b then b else if (b <? a)%float then b else a.

Definition np_maximum (a b : float) : float :=
  if is_nan a then a else if is_nan b then b else if (a <? b)%float then b else a.

(** The sum numpy's [add.reduce] computes along a contiguous axis (pairwise
    summation): fewer than 8 numbers are added from left to right; up to 128
    numbers are added in eight interleaved lanes, the lanes then pairwise,
    the numbers left over one by one; more are split in two parts, the first
    a multiple of 8 long, and the two sums added.  The fuel bounds the depth
    of the splitting, and the length of the array is more than enough. *)
Definition sum_in_order (v : Vec) : float :=
  match v with
  | [] => 0%float
  | x :: v' => fold_left PrimFloat.add v' x
  end.

Fixpoint add_lanes (fuel : nat) (r rest : Vec) : Vec * Vec :=
  match fuel with
  | O => (r, rest)
  | S fuel' =>
      if (8 <=? length rest)%nat
      then add_lanes fuel' (zip_with PrimFloat.add r (firstn 8 rest)) (skipn 8 rest)
      else (r, rest)
  end.

Definition sum_block (v : Vec) : float :=
  let '(r, rest) := add_lanes (length v) (firstn 8 v) (skipn 8 v) in
  let l (j : nat) := nth j r 0%float in
  fold_left PrimFloat.add rest
    (((l 0%nat + l 1%nat) + (l 2%nat + l 3%nat))
     + ((l 4%nat + l 5%nat) + (l 6%nat + l 7%nat)))%float.

Fixpoint sum_pairwise (fuel : nat) (v : Vec) : float :=
  let n := length v in
  if (n <? 8)%nat then sum_in_order v
  else if (n <=? 128)%nat then sum_block v
  else
    match fuel with
    | O => sum_block v
    | S fuel' =>
        let n2 := (n / 2 - (n / 2) mod 8)%nat in
        (sum_pairwise fuel' (firstn n2 v) + sum_pairwise fuel' (skipn n2 v))%float
    end.

Definition np_sum (v : Vec) : float := sum_pairwise (length v) v.

Definition np_min (v : Vec) : Result float :=
  match v with
  | [] => Raise ValueError
  | x :: v' => Ok (fold_left np_minimum v' x)
  end.

Definition np_max (v : Vec) : Result float :=
  match v with
  | [] => Raise ValueError
  | x :: v' => Ok (fold_left np_maximum v' x)
  end.

(** [np.ptp(v)]: maximum minus minimum. *)
Definition np_ptp (v : Vec) : Result float :=
  hi <- np_max v ;;
  lo <- np_min v ;;
  Ok (hi - lo)%float.

(** Column [j] of a matrix whose rows have at least [j+1] entries. *)
Definition col_nth (m : Matrix) (j : nat) : Vec :=
  map (fun row => nth j row 0%float) m.

(** [np.mean(m, axis=0)] of a matrix with [k] columns. *)
Definition np_mean0 (k : nat) (m : Matrix) : Vec :=
  map (fun j => (np_sum (col_nth m j) / float_of_nat (length m))%float) (seq 0 k).

(** [np.min(m, axis=0)], [np.max(m, axis=0)] of a matrix with [k] columns. *)
Definition np_min0 (k : nat) (m : Matrix) : Result Vec :=
  mapM (fun j => np_min (col_nth m j)) (seq 0 k).

Definition np_max0 (k : nat) (m : Matrix) : Result Vec :=
  mapM (fun j => np_max (col_nth m j)) (seq 0 k).

(** [np.unique(v, return_counts=True)]: the sorted distinct values, each with
    its number of occurrences.  NaNs sort last and count as one value. *)
Fixpoint insert_sorted (x : float) (l : Vec) : Vec :=
  match l with
  | [] => [x]
  | y :: l' => if (x <=? y)%float then x :: l else y :: insert_sorted x l'
  end.

Definition np_sort (v : Vec) : Vec :=
  fold_right insert_sorted [] (filter (fun x => negb (is_nan x)) v)
  ++ filter is_nan v.

Fixpoint count_runs (l : Vec) : list (float * nat) :=
  match l with
  | [] => []
  | x :: l' =>
      match count_runs l' with
      | (y, c) :: r => if (x =? y)%float then (x, S c) :: r else (x, 1) :: (y, c) :: r
      | [] => [(x, 1)]
      end
  end.

Definition np_unique_counts (v : Vec) : list (float * nat) :=
  let sorted := np_sort v in
  count_runs (filter (fun x => negb (is_nan x)) sorted)
  ++ match filter is_nan sorted with
     | [] => []
     | x :: nans => [(x, S (length nans))]
     end.

(** [unique_values[n > min_points]]. *)
Definition filter_counts (uc : list (float * nat)) (min_points : Z) : Vec :=
  map fst (filter (fun vc => (Z.of_nat (snd vc) >? min_points)%Z) uc).

(** Three-vectors. *)
Definition Vec3 : Set := (float * float * float)%type.

Definition v3_list (v : Vec3) : Vec := let '(x, y, z) := v in [x; y; z].
Definition v3_of (v : Vec) : Vec3 :=
  (nth 0 v 0%float, nth 1 v 0%float, nth 2 v 0%float).
Definition v3_add (a b : Vec3) : Vec3 :=
  let '(ax, ay, az) := a in let '(bx, by_, bz) := b in
  (ax + bx, ay + by_, az + bz)%float.
Definition v3_sub (a b : Vec3) : Vec3 :=
  let '(ax, ay, az) := a in let '(bx, by_, bz) := b in
  (ax - bx, ay - by_, az - bz)%float.
Definition v3_scale (t : float) (a : Vec3) : Vec3 :=
  let '(ax, ay, az) := a in (t * ax, t * ay, t * az)%float.
Definition v3_mul (a b : Vec3) : Vec3 :=
  let '(ax, ay, az) := a in let '(bx, by_, bz) := b in
  (ax * bx, ay * by_, az * bz)%float.
Definition v3_opp (a : Vec3) : Vec3 :=
  let '(ax, ay, az) := a in (- ax, - ay, - az)%float.
Definition np_dot (a b : Vec3) : float :=
  let '(ax, ay, az) := a in let '(bx, by_, bz) := b in
  (ax * bx + ay * by_ + az * bz)%float.
(** [np.linalg.norm]. *)
Definition np_norm (a : Vec3) : float := sqrt (np_dot a a).

(** ** Collaborators' data *)

(** What a fitted [PCA(n_components=3)] exposes: the three principal
    directions (rows of [components_]) and the mean of the fitted points. *)
Record PCA : Set := {
  components_ : Vec3 * Vec3 * Vec3;
  mean_ : Vec3
}.

(** [pca.transform(X)] for one row of [X]: [(x - mean_) @ components_.T]. *)
Definition pca_transform (p : PCA) (x : Vec3) : Vec3 :=
  let '(c0, c1, c2) := components_ p in
  let d := v3_sub x (mean_ p) in
  (np_dot d c0, np_dot d c1, np_dot d c2).

(** The positions of the fields in a row of the cloud. *)
Record Fields : Set := {
  X_field : Z;
  Y_field : Z;
  Z_field : Z;
  Z0_field : Z;
  tree_id_field : Z
}.

(** The defaults of [individualize_trees]. *)
Definition canonical_fields : Fields :=
  {| X_field := 0; Y_field := 1; Z_field := 2; Z0_field := 3; tree_id_field := -1 |}.

(** The three arrays both [compute_axes_*] return. *)
Record Axes : Set := {
  detected_trees : Matrix;
  dist_to_axis : Vec;
  tree_id_vector : Vec
}.

(** [np.degrees(x)] is [x * (180 / pi)]. *)
Definition np_pi : float := 0x1.921fb54442d18p+1%float.
Definition np_degrees (x : float) : float := (x * (180 / np_pi))%float.

(** [EPS = 1.0e-06], as the nearest binary64. *)
Definition EPS : float := 0x1.0c6f7a0b5ed8dp-20%float.

(** [detected_trees[~np.all(detected_trees == 0, axis=1)]]. *)
Definition drop_zero_rows (m : Matrix) : Matrix :=
  filter (fun row => negb (forallb (fun x => (x =? 0)%float) row)) m.

(** [np.argmax]: the first index of the maximum, a NaN counting as one. *)
Fixpoint argmax_from (best : nat) (bv : float) (k : nat) (v : Vec) : nat :=
  match v with
  | [] => best
  | x :: v' =>
      if (is_nan x && negb (is_nan bv)) || (bv <? x)%float
      then argmax_from k x (S k) v'
      else argmax_from best bv (S k) v'
  end.

Definition np_argmax (v : Vec) : Result nat :=
  match v with
  | [] => Raise ValueError
  | x :: v' => Ok (argmax_from 0 x 1 v')
  end.

(** [np.append(m, np.expand_dims(c, axis=1), axis=1)]: the two must have the
    same number of rows. *)
Fixpoint append_column (m : Matrix) (c : Vec) : Result Matrix :=
  match m, c with
  | [], [] => Ok []
  | row :: m', x :: c' =>
      r <- append_column m' c' ;;
      Ok ((row ++ [x]) :: r)
  | _, _ => Raise ValueError
  end.

(** [np.unique(labels, return_counts=True)] on integer labels. *)
Fixpoint insert_sorted_Z (x : Z) (l : list Z) : list Z :=
  match l with
  | [] => [x]
  | y :: l' => if (x <=? y)%Z then x :: l else y :: insert_sorted_Z x l'
  end.

Fixpoint count_runs_Z (l : list Z) : list (Z * nat) :=
  match l with
  | [] => []
  | x :: l' =>
      match count_runs_Z l' with
      | (y, c) :: r => if (x =? y)%Z then (x, S c) :: r else (x, 1) :: (y, c) :: r
      | [] => [(x, 1)]
      end
  end.

Definition np_unique_counts_Z (v : list Z) : list (Z * nat) :=
  count_runs_Z (fold_right insert_sorted_Z [] v).

(** ** The module *)

(** The collaborators of the module. *)
Class Collaborators : Type := {
  (** libm, through numpy. *)
  hypot : float -> float -> float;
  arctan : float -> float;
  (** [PCA(n_components=3).fit(X)]. *)
  PCA_fit : Matrix -> Result PCA;
  (** [KDTree(data).query(x, 1)]: distance to, and index of, the nearest row
      of [data]. *)
  KDTree_query : list Vec3 -> Vec3 -> float * nat;
  (** [voxelate(cloud, resolution_z, resolution_xy, n_digits, X_field, Y_field,
      Z_field, with_n_points=False)]: the voxelated cloud and, for every row of
      [cloud], the index of its voxel. *)
  voxelate : Matrix -> float -> float -> Z -> Z -> Z -> Z -> Result (Matrix * list nat);
  (** [DBSCAN(eps, min_samples).fit(X).labels_]. *)
  DBSCAN_labels : float -> nat -> Matrix -> Result (list Z)
}.

Section Individualize.

Context {ext : Collaborators}.

(** The state a progress hook acts on.  A call of the hook returns, with a
    new state, or raises; the calls are not guarded, so what the hook raises
    leaves the function.  The hook is given two numbers and nothing else: a
    hook that writes into the arrays the function was called with is outside
    this model. *)
Variable HookState : Type.

Definition Hook : Type := nat -> nat -> HookState -> Result HookState.

(** [if progress_hook is not None: progress_hook(done, total)]. *)
Definition call_hook (progress_hook : option Hook) (done total : nat)
  (h : HookState) : Result HookState :=
  match progress_hook with
  | Some hook => hook done total h
  | None => Ok h
  end.

(** [for x in l: body], on a loop state and the hook's state. *)
Fixpoint for_each {S A : Type}
  (body : S -> A -> HookState -> Result (S * HookState))
  (l : list A) (st : S) (h : HookState) : Result (S * HookState) :=
  match l with
  | [] => Ok (st, h)
  | a :: l' =>
      '(st', h') <- body st a h ;;
      for_each body l' st' h'
  end.

(** *** Fitting one stem (lines 123-151 and 391-421, the same text) *)

(** [np.abs(np.degrees(np.arctan(np.hypot(vx, vy) / vz)))]. *)
Definition deviation (v : Vec3) : float :=
  let '(vx, vy, vz) := v in
  abs (np_degrees (arctan (hypot vx vy / vz))).

Record Stem : Set := {
  stem_row : Vec;        (* the row written to detected_trees *)
  stem_pca : PCA;        (* pca_out *)
  stem_centroid : Vec3   (* centroid *)
}.

Definition fit_stem (clust_stripe : Matrix) (fld : Fields)
  (h_range_value : float) (i : float) : Result (option Stem) :=
  ids <- column clust_stripe (tree_id_field fld) ;;
  let tree_mask := map (fun x => (x =? i)%float) ids in
  rows <- boolean_index clust_stripe tree_mask ;;
  stem_i <- columns rows [X_field fld; Y_field fld; Z_field fld] ;;
  zz0 <- columns rows [Z_field fld; Z0_field fld] ;;
  let z_z0 := np_mean0 2 zz0 in
  let diff_z_z0 := (nth 0 z_z0 0 - nth 1 z_z0 0)%float in
  zs <- column stem_i (Z_field fld) ;;
  extent <- np_ptp zs ;;
  if (h_range_value <? extent)%float then
    pca_out <- PCA_fit stem_i ;;
    let centroid := np_mean0 3 stem_i in
    let '(pc1, _, _) := components_ pca_out in
    Ok (Some {| stem_row := [i] ++ v3_list pc1 ++ centroid
                                ++ [diff_z_z0; deviation pc1];
                stem_pca := pca_out;
                stem_centroid := v3_of centroid |})
  else Ok None.

(** *** compute_axes_exact *)

Record ExactState : Set := {
  axes : Axes;
  id_valid : nat;
  id_progress : nat
}.

(** [pca_out.transform] refuses an array without rows. *)
Definition transform_cloud (pca_out : PCA) (cloud_xyz : Matrix) : Result (list Vec3) :=
  match cloud_xyz with
  | [] => Raise ValueError
  | _ => Ok (map (fun p => pca_transform pca_out (v3_of p)) cloud_xyz)
  end.

(** Lines 163-165. *)
Definition reassign (d_max i : float) (axis_dist : Vec) (a : Axes) : Axes :=
  let valid_points :=
    zip_with (fun ad d => (ad <? d_max)%float && (ad <? d)%float)
             axis_dist (dist_to_axis a) in
  {| detected_trees := detected_trees a;
     dist_to_axis := mask_copy (dist_to_axis a) valid_points axis_dist;
     tree_id_vector := mask_fill (tree_id_vector a) valid_points i |}.

(** Lines 123-158: the stem fitted for cluster [i], if it is tall enough,
    and the distance of every point of the cloud to its axis. *)
Definition stem_axis (voxelated_cloud clust_stripe : Matrix)
  (h_range_value : float) (fld : Fields) (i : float)
  : Result (option (Stem * Vec)) :=
  s <- fit_stem clust_stripe fld h_range_value i ;;
  match s with
  | Some stem =>
      cloud_xyz <- columns voxelated_cloud [X_field fld; Y_field fld; Z_field fld] ;;
      cloud_pca_coords <- transform_cloud (stem_pca stem) cloud_xyz ;;
      let axis_dist := map (fun c => let '(_, c1, c2) := c in hypot c1 c2)
                           cloud_pca_coords in
      Ok (Some (stem, axis_dist))
  | None => Ok None
  end.

Definition exact_body (voxelated_cloud clust_stripe : Matrix)
  (h_range_value d_max : float) (fld : Fields)
  (progress_hook : option Hook) (n_values : nat)
  (st : ExactState) (i : float) (h : HookState)
  : Result (ExactState * HookState) :=
  s <- stem_axis voxelated_cloud clust_stripe h_range_value fld i ;;
  match s with
  | Some (stem, axis_dist) =>
      let a0 := axes st in
      let a1 := reassign d_max i axis_dist
                  {| detected_trees :=
                       set_row (detected_trees a0) (id_valid st) (stem_row stem);
                     dist_to_axis := dist_to_axis a0;
                     tree_id_vector := tree_id_vector a0 |} in
      let st' := {| axes := a1;
                    id_valid := S (id_valid st);
                    id_progress := S (id_progress st) |} in
      h' <- call_hook progress_hook (id_progress st') n_values h ;;
      Ok (st', h')
  | None =>
      let st' := {| axes := axes st;
                    id_valid := id_valid st;
                    id_progress := S (id_progress st) |} in
      h' <- call_hook progress_hook (id_progress st') n_values h ;;
      Ok (st', h')
  end.

(** Lines 89-112: the state the loop is entered with, for a cloud of [n]
    points and [n_values] candidate stems. *)
Definition exact_start (n n_values : nat) : ExactState :=
  {| axes := {| detected_trees := repeat (repeat 0%float 9) n_values;
                dist_to_axis := repeat 100000%float n;
                tree_id_vector := repeat 100000%float n |};
     id_valid := 0;
     id_progress := 0 |}.

Definition compute_axes_exact (voxelated_cloud clust_stripe : Matrix)
  (stripe_lower_limit stripe_upper_limit h_range : float) (min_points : Z)
  (d_max : float) (fld : Fields) (progress_hook : option Hook)
  (h : HookState) : Result (Axes * HookState) :=
  ids <- column clust_stripe (tree_id_field fld) ;;
  let filt_unique_values := filter_counts (np_unique_counts ids) min_points in
  let n_values := length filt_unique_values in
  let h_range_value := ((stripe_upper_limit - stripe_lower_limit) * h_range)%float in
  h0 <- call_hook progress_hook 0 n_values h ;;
  '(st, h') <- for_each (exact_body voxelated_cloud clust_stripe h_range_value
                                    d_max fld progress_hook n_values)
                        filt_unique_values
                        (exact_start (length voxelated_cloud) n_values) h0 ;;
  Ok ({| detected_trees := drop_zero_rows (detected_trees (axes st));
         dist_to_axis := dist_to_axis (axes st);
         tree_id_vector := tree_id_vector (axes st) |}, h').

(** *** compute_axes_approximate *)

Definition _vector_plane_intersection
  (axis_pos axis_norm plane_pos plane_norm : Vec3) : option Vec3 :=
  let denom := np_dot axis_norm plane_norm in
  if (abs denom <? EPS)%float then None
  else
    let t := (np_dot plane_norm (v3_sub plane_pos axis_pos) / denom)%float in
    Some (v3_add axis_pos (v3_scale t axis_norm)).

Definition _axis_bb_inter (axis_pos axis_norm tp_pos bp_pos : Vec3)
  : Result (Vec3 * Vec3) :=
  let top_limit :=
    _vector_plane_intersection axis_pos axis_norm tp_pos (0, 0, -1)%float in
  let bottom_limit :=
    _vector_plane_intersection axis_pos axis_norm bp_pos (0, 0, 1)%float in
  match top_limit, bottom_limit with
  | Some top, Some bottom => Ok (bottom, top)
  | _, _ => Raise RuntimeError
  end.

(** [np.arange(0, num_samples)]. *)
Definition np_arange (num_samples : Z) : list Z :=
  map Z.of_nat (seq 0 (Z.to_nat num_samples)).

(** Lines 423-432: the sample points of one axis. *)
Definition sample_axis (centroid pc1 bb_max bb_min : Vec3) (SAMPLE_STEP : float)
  : Result (list Vec3) :=
  '(min_point, max_point) <- _axis_bb_inter centroid pc1 bb_max bb_min ;;
  let distance := np_norm (v3_sub max_point min_point) in
  num_samples <- py_int (distance / SAMPLE_STEP)%float ;;
  let point_range := np_arange num_samples in
  let vector := if (snd pc1 <? 0)%float then v3_opp pc1 else pc1 in
  Ok (map (fun k =>
             let r := float_of_Z k in
             v3_add (v3_scale SAMPLE_STEP (v3_mul (r, r, r) vector)) min_point)
          point_range).

Record ApproxState : Set := {
  trees : Matrix;                   (* detected_trees *)
  n_valid : nat;                    (* id_valid *)
  n_progress : nat;                 (* id_progress *)
  axes_points_list : list (list Vec3);
  valid_tree_ids : Vec
}.

Definition approximate_body (clust_stripe : Matrix)
  (h_range_value SAMPLE_STEP : float) (bb_max bb_min : Vec3) (fld : Fields)
  (progress_hook : option Hook) (n_values : nat)
  (st : ApproxState) (i : float) (h : HookState)
  : Result (ApproxState * HookState) :=
  s <- fit_stem clust_stripe fld h_range_value i ;;
  match s with
  | Some stem =>
      let '(pc1, _, _) := components_ (stem_pca stem) in
      axis_points <- sample_axis (stem_centroid stem) pc1 bb_max bb_min SAMPLE_STEP ;;
      let st' := {| trees := set_row (trees st) (n_valid st) (stem_row stem);
                    n_valid := S (n_valid st);
                    n_progress := S (n_progress st);
                    axes_points_list := axes_points_list st ++ [axis_points];
                    valid_tree_ids := valid_tree_ids st ++ [i] |} in
      h' <- call_hook progress_hook (n_progress st') n_values h ;;
      Ok (st', h')
  | None =>
      let st' := {| trees := trees st;
                    n_valid := n_valid st;
                    n_progress := S (n_progress st);
                    axes_points_list := axes_points_list st;
                    valid_tree_ids := valid_tree_ids st |} in
      h' <- call_hook progress_hook (n_progress st') n_values h ;;
      Ok (st', h')
  end.

(** [np.concatenate(arrays)] needs at least one array. *)
Definition np_concatenate {A : Type} (arrays : list (list A)) : Result (list A) :=
  match arrays with
  | [] => Raise ValueError
  | _ => Ok (concat arrays)
  end.

(** Lines 457-462: the loop filling [tree_cluster]. *)
Fixpoint fill_tree_cluster (tree_cluster : Vec) (min_id : nat)
  (axes_points : list (list Vec3)) (ids : Vec) : Vec :=
  match axes_points, ids with
  | axis_points :: rest, id :: ids' =>
      let num_points := length axis_points in
      fill_tree_cluster (slice_fill tree_cluster min_id (min_id + num_points) id)
                        (min_id + num_points) rest ids'
  | _, _ => tree_cluster
  end.

(** Lines 449-465: the nearest sample of every point, its distance clamped
    to [d_max], and the tree id looked up for it; [n_points] is
    [voxelated_cloud.shape[0]]. *)
Definition assign_nearest (n_points : nat) (cloud_xyz : Matrix) (d_max : float)
  (axes_points : list (list Vec3)) (tree_ids : Vec) : Result (Vec * Vec) :=
  axes_cloud <- np_concatenate axes_points ;;
  let nearest := map (fun p => KDTree_query axes_cloud (v3_of p)) cloud_xyz in
  let indexes := map snd nearest in
  let dist := map (fun d => if (d_max <? d)%float then d_max else d)
                  (map fst nearest) in
  let tree_cluster :=
    fill_tree_cluster (repeat 0%float n_points) 0 axes_points tree_ids in
  picked <- take tree_cluster indexes ;;
  Ok (dist, mask_fill picked (map (fun d => (d_max <? d)%float) dist) NO_ID).

(** Lines 366-383: the state the loop is entered with. *)
Definition approximate_start (n_values : nat) : ApproxState :=
  {| trees := repeat (repeat 0%float 9) n_values;
     n_valid := 0;
     n_progress := 0;
     axes_points_list := [];
     valid_tree_ids := [] |}.

Definition compute_axes_approximate (voxelated_cloud clust_stripe : Matrix)
  (stripe_lower_limit stripe_upper_limit h_range : float) (min_points : Z)
  (voxel_resolution d_max : float) (fld : Fields)
  (progress_hook : option Hook) (h : HookState) : Result (Axes * HookState) :=
  let SAMPLE_STEP := voxel_resolution in
  ids <- column clust_stripe (tree_id_field fld) ;;
  let filt_unique_values := filter_counts (np_unique_counts ids) min_points in
  let n_values := length filt_unique_values in
  let h_range_value := ((stripe_upper_limit - stripe_lower_limit) * h_range)%float in
  cloud_xyz <- columns voxelated_cloud [X_field fld; Y_field fld; Z_field fld] ;;
  bb_min <- np_min0 3 cloud_xyz ;;
  bb_max <- np_max0 3 cloud_xyz ;;
  h0 <- call_hook progress_hook 0 n_values h ;;
  '(st, h') <- for_each (approximate_body clust_stripe h_range_value SAMPLE_STEP
                                          (v3_of bb_max) (v3_of bb_min) fld
                                          progress_hook n_values)
                        filt_unique_values (approximate_start n_values) h0 ;;
  '(dist, tree_ids) <- assign_nearest (length voxelated_cloud) cloud_xyz d_max
                                      (axes_points_list st) (valid_tree_ids st) ;;
  Ok ({| detected_trees := drop_zero_rows (trees st);
         dist_to_axis := dist;
         tree_id_vector := tree_ids |}, h').

(** *** compute_heights *)

(** [eps_heights = resolution_heights * 1.9], with 1.9 as the nearest
    binary64. *)
Definition eps_factor : float := 0x1.e666666666666p+0%float.

(** The body of the loop over the detected trees (lines 584-596). *)
Definition tree_height (cloud detected : Matrix) (max_dev : float) (i : nat)
  : Result Vec :=
  tree <- item detected (Z.of_nat i) ;;
  valid_id <- item tree 0%Z ;;
  ids <- column cloud (-1)%Z ;;
  rows <- boolean_index cloud (map (fun t => (t =? valid_id)%float) ids) ;;
  let single_tree := map (firstn 3) rows in
  zs <- column single_tree 2%Z ;;
  which_z_max <- np_argmax zs ;;
  highest_point <- item single_tree (Z.of_nat which_z_max) ;;
  z <- item highest_point 2%Z ;;
  offset <- item tree 7%Z ;;
  dev <- item tree (-1)%Z ;;
  Ok (highest_point ++ [(z - offset)%float;
                        if (max_dev <? dev)%float then 0%float else 1%float]).

(** Lines 538-577: the cloud with its two added columns (cluster label,
    tree id), after the distance filter and the cluster filter. *)
Definition surviving_cloud (voxelated_cloud : Matrix) (dist tree_ids : Vec)
  (d resolution_heights : float) (n_digits : Z) (X Y Z_ : Z) : Result Matrix :=
  '(large_voxels_cloud, large_vox_to_cloud_ind) <-
    voxelate voxelated_cloud resolution_heights resolution_heights n_digits X Y Z_ ;;
  let eps_heights := (resolution_heights * eps_factor)%float in
  labels_ <- DBSCAN_labels eps_heights 2 large_voxels_cloud ;;
  fine_labels <- take labels_ large_vox_to_cloud_ind ;;
  cloud1 <- append_column voxelated_cloud (map float_of_Z fine_labels) ;;
  cloud2 <- append_column cloud1 tree_ids ;;
  cloud3 <- boolean_index cloud2 (map (fun x => (x <? d)%float) dist) ;;
  let large_clusters :=
    map fst (filter (fun ck => (3 <? snd ck) && negb (fst ck =? -1)%Z)
                    (np_unique_counts_Z labels_)) in
  labs <- column cloud3 (-2)%Z ;;
  boolean_index cloud3
    (map (fun l => existsb (fun c => (l =? float_of_Z c)%float) large_clusters)
         labs).

Definition compute_heights (voxelated_cloud detected : Matrix)
  (dist tree_ids : Vec) (d max_dev resolution_heights : float) (n_digits : Z)
  (X Y Z_ : Z) : Result Matrix :=
  cloud <- surviving_cloud voxelated_cloud dist tree_ids d resolution_heights
                           n_digits X Y Z_ ;;
  mapM (tree_height cloud detected max_dev) (seq 0 (length detected)).

End Individualize.

(** *** individualize_trees *)

Section Orchestration.

Context {ext : Collaborators}.
Variable HookState : Type.

(** [np.hstack([cloud, ids[:, np.newaxis], dists[:, np.newaxis]])]: the
    three must have the same number of rows. *)
Definition np_hstack (cloud : Matrix) (ids dists : Vec) : Result Matrix :=
  with_ids <- append_column cloud ids ;;
  append_column with_ids dists.

(** What [individualize_trees] returns. *)
Record Individualized : Set := {
  assigned_cloud : Matrix;
  trees_found : Matrix;      (* detected_trees *)
  tree_heights : Matrix
}.

(** Lines 710-762, every argument given. *)
Definition individualize_trees (cloud clust_stripe : Matrix)
  (resolution_z resolution_xy stripe_lower_limit stripe_upper_limit h_range
   d_max : float) (min_points : Z) (d max_dev resolution_heights : float)
  (n_digits : Z) (fld : Fields) (progress_hook : option (Hook HookState))
  (h : HookState) : Result (Individualized * HookState) :=
  '(voxelated_cloud, vox_to_cloud_ind) <-
    voxelate cloud resolution_z resolution_xy n_digits
             (X_field fld) (Y_field fld) (Z_field fld) ;;
  '(a, h') <- compute_axes_approximate voxelated_cloud clust_stripe
                stripe_lower_limit stripe_upper_limit h_range min_points
                resolution_xy d_max fld progress_hook h ;;
  heights <- compute_heights voxelated_cloud (detected_trees a) (dist_to_axis a)
               (tree_id_vector a) d max_dev resolution_heights n_digits
               (X_field fld) (Y_field fld) (Z_field fld) ;;
  ids <- take (tree_id_vector a) vox_to_cloud_ind ;;
  dists <- take (dist_to_axis a) vox_to_cloud_ind ;;
  assigned <- np_hstack cloud ids dists ;;
  Ok ({| assigned_cloud := assigned;
         trees_found := detected_trees a;
         tree_heights := heights |}, h').

End Orchestration.

(** ** Executable collaborators

    Stand-ins for the collaborators on the inputs of the concrete runs below:
    stems whose points lie on a vertical line, so that the first principal
    direction is the vertical one and the other two span the horizontal
    plane; coordinates whose squares and roots are exact. *)

Definition hypot_sqrt (x y : float) : float := sqrt (x * x + y * y).

(** [arctan] at the arguments where its value is known exactly. *)
Definition arctan_table (x : float) : float :=
  if (x =? 0)%float then x
  else if (x =? infinity)%float then (np_pi / 2)%float
  else if (x =? neg_infinity)%float then (- (np_pi / 2))%float
  else nan.

(** [PCA(n_components=3)] needs three samples at least. *)
Definition PCA_upright (x : Matrix) : Result PCA :=
  if (length x <? 3)%nat then Raise ValueError
  else Ok {| components_ := ((0, 0, 1), (1, 0, 0), (0, 1, 0))%float;
             mean_ := v3_of (np_mean0 3 x) |}.

(** Nearest neighbour by exhaustive search; the lowest index wins a tie. *)
Fixpoint nearest_from (best : nat) (bd : float) (k : nat) (data : list Vec3)
  (x : Vec3) : float * nat :=
  match data with
  | [] => (bd, best)
  | p :: data' =>
      let d := np_norm (v3_sub p x) in
      if (d <? bd)%float then nearest_from k d (S k) data' x
      else nearest_from best bd (S k) data' x
  end.

Definition KDTree_brute (data : list Vec3) (x : Vec3) : float * nat :=
  nearest_from (length data) infinity 0 data x.

(** Every point a voxel of its own and all voxels in one cluster, as for
    points a resolution or more apart along each axis and chained within
    [eps]. *)
Definition voxelate_each (cloud : Matrix) (rz rxy : float) (n_digits X Y Z_ : Z)
  : Result (Matrix * list nat) :=
  Ok (cloud, seq 0 (length cloud)).

Definition DBSCAN_one (eps : float) (min_samples : nat) (x : Matrix)
  : Result (list Z) :=
  Ok (map (fun _ => 0%Z) x).

(** Voxels of points that lie on the grid of the resolution, one point per
    voxel and in the order of the voxels ([z], then [y], then [x]): a voxel
    is given by its centre, half a resolution from its point, and every
    point is mapped to the voxel of its own index. *)
Definition voxelate_centres (cloud : Matrix) (rz rxy : float) (n_digits X Y Z_ : Z)
  : Result (Matrix * list nat) :=
  voxels <- mapM (fun row =>
                    x <- item row X ;;
                    y <- item row Y ;;
                    z <- item row Z_ ;;
                    Ok [x + rxy / 2; y + rxy / 2; z + rz / 2]%float) cloud ;;
  Ok (voxels, seq 0 (length cloud)).

Definition reference : Collaborators := {|
  hypot := hypot_sqrt;
  arctan := arctan_table;
  PCA_fit := PCA_upright;
  KDTree_query := KDTree_brute;
  voxelate := voxelate_each;
  DBSCAN_labels := DBSCAN_one
|}.

(** The same with the voxels given by their centres. *)
Definition gridded : Collaborators := {|
  hypot := hypot_sqrt;
  arctan := arctan_table;
  PCA_fit := PCA_upright;
  KDTree_query := KDTree_brute;
  voxelate := voxelate_centres;
  DBSCAN_labels := DBSCAN_one
|}.

(** A stand-in for stems lying along the x axis: points spread along [x],
    with [y] and [z] uncorrelated to it, so that the first principal
    direction is the x axis. *)
Definition PCA_level (x : Matrix) : Result PCA :=
  if (length x <? 3)%nat then Raise ValueError
  else Ok {| components_ := ((1, 0, 0), (0, 1, 0), (0, 0, 1))%float;
             mean_ := v3_of (np_mean0 3 x) |}.

Definition level : Collaborators := {|
  hypot := hypot_sqrt;
  arctan := arctan_table;
  PCA_fit := PCA_level;
  KDTree_query := KDTree_brute;
  voxelate := voxelate_each;
  DBSCAN_labels := DBSCAN_one
|}.

(** ** Concrete inputs

    Rows of a stripe are [x, y, z, z0, cluster id]; rows of a voxelated cloud
    are [x, y, z, z0]. *)

(** One upright stem of three points, cluster 1, at the origin. *)
Definition stripe_one : Matrix :=
  [[0; 0; 0; 0; 1]; [0; 0; 1; 1; 1]; [0; 0; 2; 2; 1]]%float.

(** The same stem with its fields in the order [z, x, y, z0, cluster id]. *)
Definition stripe_one_zxy : Matrix :=
  [[0; 0; 0; 0; 1]; [1; 0; 0; 1; 1]; [2; 0; 0; 2; 1]]%float.

Definition fields_zxy : Fields :=
  {| X_field := 1; Y_field := 2; Z_field := 0; Z0_field := 3; tree_id_field := -1 |}.

(** Two upright stems, cluster 1 at [x = 0] and cluster 2 at [x = 2]. *)
Definition stripe_two : Matrix :=
  [[0; 0; 0; 0; 1]; [0; 0; 1; 1; 1]; [0; 0; 2; 2; 1];
   [2; 0; 0; 0; 2]; [2; 0; 1; 1; 2]; [2; 0; 2; 2; 2]]%float.

(** The same two stems with their labels exchanged. *)
Definition stripe_two_swapped : Matrix :=
  [[0; 0; 0; 0; 2]; [0; 0; 1; 1; 2]; [0; 0; 2; 2; 2];
   [2; 0; 0; 0; 1]; [2; 0; 1; 1; 1]; [2; 0; 2; 2; 1]]%float.

(** A log lying along the x axis, cluster 1: four points, 20 units long and
    2 units thick. *)
Definition stripe_level : Matrix :=
  [[-10; 0; 0; 0; 1]; [-10; 0; 2; 2; 1]; [10; 0; 0; 0; 1]; [10; 0; 2; 2; 1]]%float.

(** Four voxels: two on the stem, one five units away, one a unit away. *)
Definition cloud_far : Matrix :=
  [[0; 0; 0; 0]; [0; 0; 2; 2]; [5; 0; 1; 1]; [1; 0; 1; 1]]%float.

Definition cloud_far_zxy : Matrix :=
  [[0; 0; 0; 0]; [2; 0; 0; 2]; [1; 5; 0; 1]; [1; 1; 0; 1]]%float.

(** Two voxels, four units apart in height. *)
Definition cloud_sparse : Matrix :=
  [[0; 0; 0; 0]; [0; 0; 4; 4]]%float.

(** One voxel half way between the two stems of [stripe_two]. *)
Definition cloud_between : Matrix :=
  [[1; 0; 1; 1]]%float.

(** One voxel 150000 units away from the stem. *)
Definition cloud_remote : Matrix :=
  [[150000; 0; 1; 1]]%float.

(** Four voxels of one tree; the second has the largest [y], the last the
    largest [z]. *)
Definition cloud_crown : Matrix :=
  [[0; 0; 0; 0]; [0; 1; 1; 1]; [0; 0; 2; 2]; [0; 0; 3; 3]]%float.

Definition cloud_crown_zxy : Matrix :=
  [[0; 0; 0; 0]; [1; 0; 1; 1]; [2; 0; 0; 2]; [3; 0; 0; 3]]%float.

(** A detected tree: id, axis, centroid, height offset, deviation. *)
Definition tree_row (id dev : float) : Vec :=
  [id; 0; 0; 1; 0; 0; 1; 0; dev]%float.

(** A hook that records its calls, the latest first. *)
Definition log_hook : Hook (list (nat * nat)) :=
  fun done total log => Ok ((done, total) :: log).


(** ** Vocabulary of the statements *)

(** What a call returns or raises, the hook's state left out. *)
Definition outcome {A H : Type} (r : Result (A * H)) : Result A :=
  match r with
  | Ok (a, _) => Ok a
  | Raise e => Raise e
  end.


(** [a] is the distance from point [j] of the cloud to the axis fitted to
    cluster [i], a cluster that passes the height filter. *)
Definition axis_distance {ext : Collaborators} (voxelated_cloud clust_stripe : Matrix)
  (h_range_value : float) (fld : Fields) (i : float) (j : nat) (a : float) : Prop :=
  exists stem axis_dist,
    stem_axis voxelated_cloud clust_stripe h_range_value fld i = Ok (Some (stem, axis_dist))
    /\ nth_error axis_dist j = Some a.

(** [d] and [t] are the distance and the tree id of the closest axis to point
    [j] among the clusters [ids]: either no axis is closer than both [d_max]
    and the initial 100000, and both are 100000; or [d] is the distance to the
    axis of cluster [t], below [d_max] and below 100000, and no axis is
    strictly closer. *)
Definition closest_axis {ext : Collaborators} (voxelated_cloud clust_stripe : Matrix)
  (h_range_value : float) (fld : Fields) (d_max : float) (ids : Vec)
  (j : nat) (d t : float) : Prop :=
  (d = 100000%float /\ t = 100000%float
   /\ forall i a, In i ids ->
        axis_distance voxelated_cloud clust_stripe h_range_value fld i j a ->
        ((a <? d_max) && (a <? 100000))%float = false)
  \/ (In t ids
      /\ axis_distance voxelated_cloud clust_stripe h_range_value fld t j d
      /\ (d <? d_max)%float = true /\ (d <? 100000)%float = true
      /\ forall i a, In i ids ->
           axis_distance voxelated_cloud clust_stripe h_range_value fld i j a ->
           (a <? d)%float = false).

(** A number that is neither a NaN nor an infinity. *)
Definition finite (x : float) : Prop := (abs x <? infinity)%float = true.

(** The calls a progress hook receives for [n] candidate clusters:
    [(0, n)], [(1, n)], ..., [(n, n)]. *)
Definition progress_calls (n : nat) : list (nat * nat) :=
  map (fun k => (k, n)) (seq 0 (S n)).

(** What a hook makes of a list of calls, from the state [h]: the state
    after the last call, or what the first failing call raises. *)
Fixpoint report {H : Type} (progress_hook : option (Hook H))
  (calls : list (nat * nat)) (h : H) : Result H :=
  match calls with
  | [] => Ok h
  | c :: rest =>
      h' <- call_hook progress_hook (fst c) (snd c) h ;;
      report progress_hook rest h'
  end.

(** A hook none of whose calls raises. *)
Definition never_raises {H : Type} (progress_hook : option (Hook H)) : Prop :=
  forall done total h, exists h', call_hook progress_hook done total h = Ok h'.

(** * Properties *)

Unset Implicit Arguments.

(** ** The order of binary64 numbers *)

Section FloatOrder.

Lemma SFcompare_swap (x y : spec_float) :
  SFcompare y x = option_map CompOpp (SFcompare x y).
Proof.
  destruct x as [sx|sx| |sx mx ex], y as [sy|sy| |sy my ey]; simpl;
    try reflexivity;
    try (destruct sx; reflexivity); try (destruct sy; reflexivity);
    try (destruct sx, sy; reflexivity).
  destruct sx, sy; try reflexivity;
    rewrite (Z.compare_antisym ex ey);
    destruct (ex ?= ey)%Z; simpl; try reflexivity;
    change (Pos.compare_cont Eq my mx) with (Pos.compare my mx);
    change (Pos.compare_cont Eq mx my) with (Pos.compare mx my);
    rewrite (Pos.compare_antisym mx my); try reflexivity;
    now rewrite CompOpp_involutive.
Qed.

Lemma SFcompare_lt_trans (x y z : spec_float) :
  SFcompare x y = Some Lt -> SFcompare y z = Some Lt -> SFcompare x z = Some Lt.
Proof.
  destruct x as [sx|sx| |sx mx ex], y as [sy|sy| |sy my ey], z as [sz|sz| |sz mz ez];
    simpl; try discriminate; try (intros _ _; reflexivity);
    try (destruct sx; try discriminate; try reflexivity);
    try (destruct sy; try discriminate; try reflexivity);
    try (destruct sz; try discriminate; try reflexivity);
    try (intros _ _; reflexivity); try (intros H _; exact H); try (intros _ H; exact H).
  all: change (Pos.compare_cont Eq mx my) with (Pos.compare mx my);
       change (Pos.compare_cont Eq my mz) with (Pos.compare my mz);
       change (Pos.compare_cont Eq mx mz) with (Pos.compare mx mz);
       destruct (Z.compare_spec ex ey), (Z.compare_spec ey ez), (Z.compare_spec ex ez);
       try discriminate; try lia; try (intros _ _; reflexivity); subst;
       destruct (Pos.compare_spec mx my), (Pos.compare_spec my mz), (Pos.compare_spec mx mz);
       simpl; try discriminate; try lia; try (intros _ _; reflexivity).
Qed.

Lemma SFcompare_refl (x : spec_float) : SFcompare x x <> Some Lt.
Proof.
  destruct x as [s|s| |s m e]; simpl; try discriminate; try (destruct s; discriminate).
  change (Pos.compare_cont Eq m m) with (Pos.compare m m).
  rewrite Z.compare_refl, Pos.compare_refl. destruct s; discriminate.
Qed.

Open Scope float_scope.

Lemma ltb_compare (x y : float) :
  (x <? y) = true <-> SFcompare (Prim2SF x) (Prim2SF y) = Some Lt.
Proof.
  rewrite ltb_spec. unfold SFltb.
  destruct (SFcompare (Prim2SF x) (Prim2SF y)) as [[ | | ]|]; split; congruence.
Qed.

Lemma ltb_irrefl (x : float) : (x <? x) = false.
Proof.
  destruct (x <? x) eqn:E; [|reflexivity].
  apply ltb_compare in E. now apply SFcompare_refl in E.
Qed.

Lemma ltb_trans (x y z : float) :
  (x <? y) = true -> (y <? z) = true -> (x <? z) = true.
Proof.
  rewrite !ltb_compare. apply SFcompare_lt_trans.
Qed.

Lemma ltb_asym (x y : float) : (x <? y) = true -> (y <? x) = false.
Proof.
  intros H. destruct (y <? x) eqn:E; [|reflexivity].
  pose proof (ltb_trans _ _ _ H E) as K. now rewrite ltb_irrefl in K.
Qed.

Lemma leb_not_gt (x y : float) : (x <=? y) = true -> (y <? x) = false.
Proof.
  rewrite leb_spec, ltb_spec. unfold SFleb, SFltb.
  rewrite (SFcompare_swap (Prim2SF x) (Prim2SF y)).
  destruct (SFcompare (Prim2SF x) (Prim2SF y)) as [[ | | ]|]; simpl; congruence.
Qed.

(** Two numbers, each below some bound and neither below the other, are equal
    as numbers. *)
Lemma ltb_neither_eqb (x y u v : float) :
  (x <? u) = true -> (y <? v) = true ->
  (x <? y) = false -> (y <? x) = false -> (x =? y) = true.
Proof.
  rewrite eqb_spec, !ltb_spec. unfold SFeqb, SFltb.
  rewrite (SFcompare_swap (Prim2SF x) (Prim2SF y)).
  destruct (Prim2SF x) as [sx|sx| |sx mx ex], (Prim2SF y) as [sy|sy| |sy my ey];
    try (simpl; discriminate);
    try (destruct (Prim2SF v); simpl; discriminate);
    try (destruct (Prim2SF u); simpl; discriminate);
    intros _ _;
    destruct (SFcompare _ _) as [[ | | ]|] eqn:E; simpl; try congruence;
    simpl in E; discriminate.
Qed.

Lemma eqb_zero (x : float) : (x =? 0) = true -> x = 0 \/ x = (-0).
Proof.
  rewrite eqb_spec. unfold SFeqb.
  intros H. rewrite <- (SF2Prim_Prim2SF x).
  change (Prim2SF 0) with (S754_zero false) in H.
  destruct (Prim2SF x) as [s|s| |s m e]; simpl in H; try discriminate;
    destruct s; try discriminate; auto.
Qed.


End FloatOrder.

(** ** The error monad and the arrays *)

Lemma bind_ok {A B : Type} (r : Result A) (k : A -> Result B) (b : B) :
  bind r k = Ok b -> exists a, r = Ok a /\ k a = Ok b.
Proof.
  destruct r as [a|e]; simpl; [eauto | discriminate].
Qed.

(** A successful chain of binds, taken apart. *)
Ltac unbind H :=
  repeat (let x := fresh "x" in
          let E := fresh "E" in
          apply bind_ok in H as (x & E & H)).

Section Arrays.

Lemma mapM_length {A B : Type} (f : A -> Result B) :
  forall l bs, mapM f l = Ok bs -> length bs = length l.
Proof.
  induction l as [|a l IH]; simpl; intros bs H.
  - now inversion H.
  - apply bind_ok in H as (b & _ & H). apply bind_ok in H as (bs' & Hbs & H).
    inversion H; subst. simpl. f_equal. now apply IH.
Qed.

Lemma mapM_raises {A B : Type} (f : A -> Result B) :
  forall l a, In a l -> raises (f a) -> raises (mapM f l).
Proof.
  induction l as [|x l IH]; simpl; intros a Hin Hr; [contradiction|].
  destruct Hin as [<-|Hin].
  - destruct Hr as (e & ->). now exists e.
  - destruct (f x) as [b|e]; simpl; [|now exists e].
    destruct (IH a Hin Hr) as (e & ->). now exists e.
Qed.

Lemma mapM_nth {A B : Type} (f : A -> Result B) :
  forall l bs, mapM f l = Ok bs ->
  forall k a, nth_error l k = Some a ->
  exists b, nth_error bs k = Some b /\ f a = Ok b.
Proof.
  induction l as [|x l IH]; simpl; intros bs H k a Hk.
  - destruct k; discriminate.
  - apply bind_ok in H as (b & Hb & H). apply bind_ok in H as (bs' & Hbs & H).
    inversion H; subst. destruct k as [|k]; simpl in *.
    + inversion Hk; subst. eauto.
    + eauto.
Qed.

Lemma mask_fill_length (v : float) :
  forall a mask, length (mask_fill a mask v) = length a.
Proof.
  induction a as [|x a IH]; intros [|b mask]; simpl; auto.
Qed.

Lemma mask_copy_length :
  forall a mask src, length (mask_copy a mask src) = length a.
Proof.
  induction a as [|x a IH]; intros [|b mask] [|s src]; simpl; auto.
Qed.

Lemma zip_with_nth {A B C : Type} (f : A -> B -> C) :
  forall l l' k a b, nth_error l k = Some a -> nth_error l' k = Some b ->
  nth_error (zip_with f l l') k = Some (f a b).
Proof.
  induction l as [|x l IH]; intros [|y l'] [|k] a b Ha Hb; simpl in *;
    try discriminate.
  - now inversion Ha; inversion Hb.
  - eauto.
Qed.

Lemma mask_fill_nth (v : float) :
  forall a mask k x b, nth_error a k = Some x -> nth_error mask k = Some b ->
  nth_error (mask_fill a mask v) k = Some (if b then v else x).
Proof.
  induction a as [|y a IH]; intros [|c mask] [|k] x b Ha Hb; simpl in *;
    try discriminate.
  - now inversion Ha; inversion Hb.
  - eauto.
Qed.

Lemma mask_copy_nth :
  forall a mask src k x b s,
  nth_error a k = Some x -> nth_error mask k = Some b -> nth_error src k = Some s ->
  nth_error (mask_copy a mask src) k = Some (if b then s else x).
Proof.
  induction a as [|y a IH]; intros [|c mask] [|t src] [|k] x b s Ha Hb Hs;
    simpl in *; try discriminate.
  - now inversion Ha; inversion Hb; inversion Hs.
  - eauto.
Qed.

Lemma mask_fill_all_false (v : float) :
  forall a mask, forallb negb mask = true -> mask_fill a mask v = a.
Proof.
  induction a as [|x a IH]; intros [|b mask]; simpl; auto.
  intros H. apply andb_true_iff in H as [Hb H]. destruct b; [discriminate|].
  f_equal. now apply IH.
Qed.

Lemma nth_error_repeat {A : Type} (x : A) :
  forall n k y, nth_error (repeat x n) k = Some y -> y = x.
Proof.
  induction n as [|n IH]; intros [|k] y; simpl; try discriminate.
  - now inversion 1.
  - apply IH.
Qed.

Lemma nth_error_defined {A : Type} (l : list A) (k : nat) :
  k < length l -> exists x, nth_error l k = Some x.
Proof.
  intros H. destruct (nth_error l k) as [x|] eqn:E; [eauto|].
  apply nth_error_None in E. lia.
Qed.

End Arrays.

(** ** The progress hook *)

Section ProgressHook.

Context {ext : Collaborators}.
Variable HookState : Type.

Lemma for_each_outcome {S A : Type}
  (body body' : S -> A -> HookState -> Result (S * HookState)) :
  (forall st a h h', outcome (body st a h) = outcome (body' st a h')) ->
  forall l st h h',
    outcome (for_each body l st h) = outcome (for_each body' l st h').
Proof.
  intros Hb. induction l as [|a l IH]; intros st h h'; simpl; [reflexivity|].
  specialize (Hb st a h h').
  destruct (body st a h) as [[st1 h1]|e1], (body' st a h') as [[st2 h2]|e2];
    simpl in *; try discriminate; try assumption.
  inversion Hb; subst. apply IH.
Qed.


(** A step of either loop that returns with some hook returns the same
    state with any hook whose call returns. *)
Lemma exact_body_ok cloud stripe hrv d_max fld hook n st i (h : HookState) st' h' :
  exact_body cloud stripe hrv d_max fld hook n st i h = Ok (st', h') ->
  call_hook hook (S (id_progress st)) n h = Ok h'
  /\ forall (hook' : option (Hook HookState)) h0 h1,
       call_hook hook' (S (id_progress st)) n h0 = Ok h1 ->
       exact_body cloud stripe hrv d_max fld hook' n st i h0 = Ok (st', h1).
Proof.
  unfold exact_body.
  destruct (stem_axis cloud stripe hrv fld i) as [[[stem ad]|]|e]; simpl;
    try discriminate; intros H; apply bind_ok in H as (h2 & Hh & H);
    inversion H; subst; (split; [exact Hh|]); intros hook' h0 h1 ->; reflexivity.
Qed.

Lemma approximate_body_ok stripe hrv step bb_max bb_min fld hook n st i
  (h : HookState) st' h' :
  approximate_body stripe hrv step bb_max bb_min fld hook n st i h = Ok (st', h') ->
  call_hook hook (S (n_progress st)) n h = Ok h'
  /\ forall (hook' : option (Hook HookState)) h0 h1,
       call_hook hook' (S (n_progress st)) n h0 = Ok h1 ->
       approximate_body stripe hrv step bb_max bb_min fld hook' n st i h0
       = Ok (st', h1).
Proof.
  unfold approximate_body.
  destruct (fit_stem stripe fld hrv i) as [[stem|]|e]; simpl; try discriminate.
  - destruct (components_ (stem_pca stem)) as [[pc1 pc2] pc3].
    destruct (sample_axis _ _ _ _ _) as [pts|e]; simpl; [|discriminate].
    intros H; apply bind_ok in H as (h2 & Hh & H); inversion H; subst.
    split; [exact Hh|]. intros hook' h0 h1 ->. reflexivity.
  - intros H; apply bind_ok in H as (h2 & Hh & H); inversion H; subst.
    split; [exact Hh|]. intros hook' h0 h1 ->. reflexivity.
Qed.

(** In particular it returns the same state without a hook. *)
Lemma exact_body_plain cloud stripe hrv d_max fld hook n st i (h : HookState) st' h' :
  exact_body cloud stripe hrv d_max fld hook n st i h = Ok (st', h') ->
  exact_body cloud stripe hrv d_max fld None n st i h = Ok (st', h).
Proof.
  intros H. apply exact_body_ok in H as (_ & H). now apply H.
Qed.

Lemma approximate_body_plain stripe hrv step bb_max bb_min fld hook n st i
  (h : HookState) st' h' :
  approximate_body stripe hrv step bb_max bb_min fld hook n st i h = Ok (st', h') ->
  approximate_body stripe hrv step bb_max bb_min fld None n st i h = Ok (st', h).
Proof.
  intros H. apply approximate_body_ok in H as (_ & H). now apply H.
Qed.

Lemma for_each_plain {S A : Type}
  (body body' : S -> A -> HookState -> Result (S * HookState)) :
  (forall st a h st' h', body st a h = Ok (st', h') ->
                         forall h0, body' st a h0 = Ok (st', h0)) ->
  forall l st h st' h', for_each body l st h = Ok (st', h') ->
  forall h0, for_each body' l st h0 = Ok (st', h0).
Proof.
  intros Hb. induction l as [|a l IH]; simpl; intros st h st' h' H h0.
  - now inversion H.
  - apply bind_ok in H as ([st1 h1] & H1 & H).
    rewrite (Hb _ _ _ _ _ H1 h0). simpl. eauto.
Qed.

Lemma exact_loop_plain cloud stripe hrv d_max fld hook n ids st (h : HookState)
  st' h' :
  for_each (exact_body cloud stripe hrv d_max fld hook n) ids st h = Ok (st', h') ->
  forall h0 : HookState,
    for_each (exact_body cloud stripe hrv d_max fld None n) ids st h0 = Ok (st', h0).
Proof.
  apply for_each_plain. intros st0 a h1 st1 h2 H h0.
  apply exact_body_ok in H as (_ & H). now apply H.
Qed.

Lemma approximate_loop_plain stripe hrv step bb_max bb_min fld hook n ids st
  (h : HookState) st' h' :
  for_each (approximate_body stripe hrv step bb_max bb_min fld hook n) ids st h
  = Ok (st', h') ->
  forall h0 : HookState,
    for_each (approximate_body stripe hrv step bb_max bb_min fld None n) ids st h0
    = Ok (st', h0).
Proof.
  apply for_each_plain. intros st0 a h1 st1 h2 H h0.
  apply approximate_body_ok in H as (_ & H). now apply H.
Qed.

(** With hooks that never raise, a step returns or raises the same. *)
Lemma exact_body_outcome cloud stripe hrv d_max fld hook hook' n st i
  (h h' : HookState) :
  never_raises hook -> never_raises hook' ->
  outcome (exact_body cloud stripe hrv d_max fld hook n st i h)
  = outcome (exact_body cloud stripe hrv d_max fld hook' n st i h').
Proof.
  intros N N'. unfold exact_body.
  destruct (stem_axis cloud stripe hrv fld i) as [[[stem ad]|]|e]; simpl;
    try reflexivity;
    match goal with
    | |- context [call_hook hook ?k n h] =>
        destruct (N k n h) as (h1 & ->); destruct (N' k n h') as (h2 & ->)
    end; reflexivity.
Qed.




Lemma no_hook_never_raises : never_raises (H := HookState) None.
Proof. intros k n h. now exists h. Qed.

(** The two strategies with hooks that never raise. *)
Lemma exact_outcome voxelated_cloud clust_stripe stripe_lower_limit
  stripe_upper_limit h_range min_points d_max fld hook hook' (h h' : HookState) :
  never_raises hook -> never_raises hook' ->
  outcome (compute_axes_exact voxelated_cloud clust_stripe stripe_lower_limit
             stripe_upper_limit h_range min_points d_max fld hook h)
  = outcome (compute_axes_exact voxelated_cloud clust_stripe stripe_lower_limit
               stripe_upper_limit h_range min_points d_max fld hook' h').
Proof.
  intros N N'. unfold compute_axes_exact.
  destruct (column clust_stripe (tree_id_field fld)) as [ids|e]; simpl;
    [|reflexivity].
  match goal with
  | |- context [call_hook hook ?k ?n h] =>
      destruct (N k n h) as (h1 & ->); destruct (N' k n h') as (h2 & ->)
  end. simpl.
  match goal with
  | |- outcome (bind (for_each ?b ?l ?s ?x) _)
       = outcome (bind (for_each ?b' ?l ?s ?y) _) =>
      pose proof (for_each_outcome b b'
                    (fun st a x y => exact_body_outcome _ _ _ _ _ _ _ _ st a x y N N')
                    l s x y) as E;
      destruct (for_each b l s x) as [[st1 h1']|e1],
               (for_each b' l s y) as [[st2 h2']|e2]
  end; simpl in *; try discriminate; inversion E; reflexivity.
Qed.


(** A call that returns with a hook returns the same arrays without one. *)
Lemma exact_plain voxelated_cloud clust_stripe stripe_lower_limit
  stripe_upper_limit h_range min_points d_max fld hook (h : HookState) a h' :
  compute_axes_exact voxelated_cloud clust_stripe stripe_lower_limit
    stripe_upper_limit h_range min_points d_max fld hook h = Ok (a, h') ->
  forall h0 : HookState,
    compute_axes_exact voxelated_cloud clust_stripe stripe_lower_limit
      stripe_upper_limit h_range min_points d_max fld None h0 = Ok (a, h0).
Proof.
  unfold compute_axes_exact. intros H h0.
  apply bind_ok in H as (ids & -> & H). cbn [bind].
  apply bind_ok in H as (h1 & _ & H). cbn [call_hook bind].
  apply bind_ok in H as ([st h2] & Hloop & H).
  rewrite (exact_loop_plain _ _ _ _ _ _ _ _ _ _ _ _ Hloop h0). cbn [bind].
  now inversion H.
Qed.

Lemma approximate_plain voxelated_cloud clust_stripe stripe_lower_limit
  stripe_upper_limit h_range min_points voxel_resolution d_max fld hook
  (h : HookState) a h' :
  compute_axes_approximate voxelated_cloud clust_stripe stripe_lower_limit
    stripe_upper_limit h_range min_points voxel_resolution d_max fld hook h
  = Ok (a, h') ->
  forall h0 : HookState,
    compute_axes_approximate voxelated_cloud clust_stripe stripe_lower_limit
      stripe_upper_limit h_range min_points voxel_resolution d_max fld None h0
    = Ok (a, h0).
Proof.
  unfold compute_axes_approximate. intros H h0.
  apply bind_ok in H as (ids & -> & H). cbn [bind].
  apply bind_ok in H as (xyz & -> & H). cbn [bind].
  apply bind_ok in H as (bb_min & -> & H). cbn [bind].
  apply bind_ok in H as (bb_max & -> & H). cbn [bind].
  apply bind_ok in H as (h1 & _ & H). cbn [call_hook bind].
  apply bind_ok in H as ([st h2] & Hloop & H).
  rewrite (approximate_loop_plain _ _ _ _ _ _ _ _ _ _ _ _ _ Hloop h0). cbn [bind].
  apply bind_ok in H as ([dist tids] & -> & H). cbn [bind].
  now inversion H.
Qed.



End ProgressHook.


(** A hook, when supplied, is called once before the loop and once per
    candidate cluster, with the count done and the total. *)
Example progress_hook_calls :
  compute_axes_exact (ext := reference) cloud_between stripe_two 0 1 1 2 1.5
                     canonical_fields (Some log_hook) []
  = Ok ({| detected_trees := [tree_row 1 0; [2; 0; 0; 1; 2; 0; 1; 0; 0]%float];
           dist_to_axis := [1%float];
           tree_id_vector := [1%float] |},
        [(2, 2); (1, 2); (0, 2)]).
Proof. vm_compute. reflexivity. Qed.

(** ** The loop of [compute_axes_exact] *)

Section ExactLoop.

Context {ext : Collaborators}.
Variable HookState : Type.
Variables voxelated_cloud clust_stripe : Matrix.
Variables h_range_value d_max : float.
Variable fld : Fields.
Variable progress_hook : option (Hook HookState).
Variable n_values : nat.

Local Notation "'body'" :=
  (exact_body voxelated_cloud clust_stripe h_range_value d_max fld
              progress_hook n_values).
Local Notation "'axis_of' i" :=
  (stem_axis voxelated_cloud clust_stripe h_range_value fld i)
  (at level 10, i at level 9).
Local Notation "'dists' st" := (dist_to_axis (axes st)) (at level 10, st at level 9).
Local Notation "'ids_of' st" := (tree_id_vector (axes st)) (at level 10, st at level 9).

Open Scope float_scope.

Lemma stem_axis_length i stem axis_dist :
  axis_of i = Ok (Some (stem, axis_dist)) ->
  length axis_dist = length voxelated_cloud.
Proof.
  unfold stem_axis.
  destruct (fit_stem clust_stripe fld h_range_value i) as [[s|]|e]; simpl;
    try discriminate.
  intros H. apply bind_ok in H as (xyz & Hxyz & H).
  apply bind_ok in H as (coords & Hc & H). inversion H; subst.
  apply mapM_length in Hxyz. unfold transform_cloud in Hc.
  assert (Lc : length coords = length xyz).
  { destruct xyz; [discriminate|]. inversion Hc; subst.
    simpl. now rewrite length_map. }
  etransitivity; [apply length_map|].
  etransitivity; [exact Lc|exact Hxyz].
Qed.

(** One iteration either leaves the two arrays alone (the stem is rejected)
    or applies [reassign] with the distances to the stem's axis. *)
Lemma exact_body_step st i h st' h' :
  body st i h = Ok (st', h') ->
  (axis_of i = Ok None /\ dists st' = dists st /\ ids_of st' = ids_of st)
  \/ exists stem axis_dist,
       axis_of i = Ok (Some (stem, axis_dist))
       /\ dists st' = dist_to_axis (reassign d_max i axis_dist (axes st))
       /\ ids_of st' = tree_id_vector (reassign d_max i axis_dist (axes st)).
Proof.
  unfold exact_body.
  destruct (axis_of i) as [[[stem ad]|]|e]; simpl; try discriminate;
    intros H; apply bind_ok in H as (h2 & _ & H); inversion H; subst; simpl.
  - right. exists stem, ad. auto.
  - left. auto.
Qed.

Lemma reassign_lengths i axis_dist a :
  length (dist_to_axis (reassign d_max i axis_dist a)) = length (dist_to_axis a)
  /\ length (tree_id_vector (reassign d_max i axis_dist a)) = length (tree_id_vector a).
Proof.
  unfold reassign; simpl. now rewrite mask_copy_length, mask_fill_length.
Qed.

(** Lines 163-165 at one point. *)
Lemma reassign_at i axis_dist a j ad d t :
  nth_error axis_dist j = Some ad ->
  nth_error (dist_to_axis a) j = Some d ->
  nth_error (tree_id_vector a) j = Some t ->
  nth_error (dist_to_axis (reassign d_max i axis_dist a)) j
  = Some (if (ad <? d_max) && (ad <? d) then ad else d)
  /\ nth_error (tree_id_vector (reassign d_max i axis_dist a)) j
     = Some (if (ad <? d_max) && (ad <? d) then i else t).
Proof.
  intros Ha Hd Ht. unfold reassign; simpl.
  pose proof (zip_with_nth (fun ad d => (ad <? d_max) && (ad <? d))
                           _ _ _ _ _ Ha Hd) as Hm.
  split.
  - now rewrite (mask_copy_nth _ _ _ _ _ _ _ Hd Hm Ha).
  - now rewrite (mask_fill_nth _ _ _ _ _ _ Ht Hm).
Qed.

Lemma exact_loop_lengths ids :
  forall st h st' h',
  for_each body ids st h = Ok (st', h') ->
  length (dists st') = length (dists st)
  /\ length (ids_of st') = length (ids_of st).
Proof.
  induction ids as [|i ids IH]; simpl; intros st h st' h' H.
  - inversion H; subst. auto.
  - apply bind_ok in H as ([st1 h1] & Hb & H).
    apply IH in H as [H1 H2]. rewrite H1, H2.
    apply exact_body_step in Hb as [(_ & -> & ->)|(stem & ad & _ & -> & ->)];
      [auto|apply reassign_lengths].
Qed.

(** The invariant of the loop, at point [j]. *)
Lemma exact_loop_invariant ids :
  forall st h st' h',
  for_each body ids st h = Ok (st', h') ->
  length (dists st) = length voxelated_cloud ->
  length (ids_of st) = length voxelated_cloud ->
  forall j d t d' t',
  nth_error (dists st) j = Some d -> nth_error (ids_of st) j = Some t ->
  nth_error (dists st') j = Some d' -> nth_error (ids_of st') j = Some t' ->
  (forall x, (x <? d') = true -> (x <? d) = true)
  /\ (forall i a, In i ids ->
        axis_distance voxelated_cloud clust_stripe h_range_value fld i j a ->
        (a <? d_max) = true -> (a <? d') = false)
  /\ ((d' = d /\ t' = t)
      \/ (In t' ids
          /\ axis_distance voxelated_cloud clust_stripe h_range_value fld t' j d'
          /\ (d' <? d_max) = true /\ (d' <? d) = true)).
Proof.
  induction ids as [|i ids IH]; simpl; intros st h st' h' H Ld Lt j d t d' t' Hd Ht Hd' Ht'.
  - inversion H; subst. rewrite Hd in Hd'. rewrite Ht in Ht'.
    inversion Hd'; inversion Ht'; subst.
    repeat split; auto. intros i a [].
  - apply bind_ok in H as ([st1 h1] & Hb & H).
    apply exact_body_step in Hb as [(Hnone & E1 & E2)|(stem & ad & Hsome & E1 & E2)].
    + (* the stem is rejected *)
      rewrite <- E1 in Ld, Hd. rewrite <- E2 in Lt, Ht.
      destruct (IH _ _ _ _ H Ld Lt j d t d' t' Hd Ht Hd' Ht') as (M & L & A).
      repeat split; auto.
      * intros i0 a [<-|Hin] Hax Ha; [|exact (L i0 a Hin Hax Ha)].
        destruct Hax as (stem & ad & Hax & _). congruence.
      * destruct A as [A|(Hin & Hax & B)]; [left; exact A|right; auto].
    + (* the stem is fitted *)
      pose proof (stem_axis_length _ _ _ Hsome) as Lad.
      destruct (nth_error_defined ad j) as (a & Ha).
      { rewrite Lad, <- Ld. apply nth_error_Some. congruence. }
      destruct (reassign_at i ad (axes st) j a d t Ha Hd Ht) as (Hd1 & Ht1).
      rewrite <- E1 in Hd1. rewrite <- E2 in Ht1.
      destruct (reassign_lengths i ad (axes st)) as (L1 & L2).
      rewrite <- E1 in L1. rewrite <- E2 in L2.
      rewrite <- L1 in Ld. rewrite <- L2 in Lt.
      destruct (IH _ _ _ _ H Ld Lt j _ _ d' t' Hd1 Ht1 Hd' Ht') as (M & L & A).
      assert (M' : forall x, (x <? d') = true -> (x <? d) = true).
      { intros x Hx. apply M in Hx.
        destruct ((a <? d_max) && (a <? d)) eqn:C; [|exact Hx].
        apply andb_true_iff in C as [_ C]. exact (ltb_trans _ _ _ Hx C). }
      split; [exact M'|]. split.
      * intros i0 a0 [<-|Hin] Hax Ha0; [|exact (L i0 a0 Hin Hax Ha0)].
        destruct Hax as (stem0 & ad0 & Hax & Hnth).
        rewrite Hsome in Hax. inversion Hax; subst. rewrite Ha in Hnth.
        inversion Hnth; subst.
        destruct (a0 <? d') eqn:E; [|reflexivity].
        apply M in E. rewrite Ha0 in E. simpl in E.
        destruct (a0 <? d) eqn:C; [|congruence].
        now rewrite ltb_irrefl in E.
      * destruct A as [(-> & ->)|(Hin & Hax & B1 & B2)].
        -- destruct ((a <? d_max) && (a <? d)) eqn:C; [|left; auto].
           apply andb_true_iff in C as [C1 C2].
           right. repeat split; auto. exists stem, ad. auto.
        -- right. repeat split; auto.
           destruct ((a <? d_max) && (a <? d)) eqn:C; [|exact B2].
           apply andb_true_iff in C as [_ C]. exact (ltb_trans _ _ _ B2 C).
Qed.

(** The calls the hook receives in the loop: one per iteration, counted from
    the progress so far. *)
Lemma exact_loop_report ids :
  forall st h st' h',
  for_each body ids st h = Ok (st', h') ->
  report progress_hook
         (map (fun k => (k, n_values)) (seq (S (id_progress st)) (length ids))) h
  = Ok h'.
Proof.
  induction ids as [|i ids IH]; simpl; intros st h st' h' H.
  - now inversion H.
  - apply bind_ok in H as ([st1 h1] & Hb & H). apply IH in H.
    pose proof (exact_body_ok _ _ _ _ _ _ _ _ _ _ _ _ _ Hb) as (Hh & _).
    rewrite Hh. cbn [bind].
    assert (E : id_progress st1 = S (id_progress st)).
    { unfold exact_body in Hb.
      destruct (axis_of i) as [[[stem ad]|]|e]; simpl in Hb; try discriminate;
        apply bind_ok in Hb as (h2 & _ & Hb); now inversion Hb. }
    now rewrite <- E.
Qed.

(** The loop runs to its end exactly when no iteration raises and the hook
    returns from its calls, whatever the order of the iterations. *)
Lemma exact_loop_runs ids :
  (forall i, In i ids -> exists s, axis_of i = Ok s) ->
  forall st h h',
  report progress_hook
         (map (fun k => (k, n_values)) (seq (S (id_progress st)) (length ids))) h
  = Ok h' ->
  exists st', for_each body ids st h = Ok (st', h').
Proof.
  induction ids as [|i ids IH]; simpl; intros Hall st h h' R.
  - inversion R; subst. eauto.
  - apply bind_ok in R as (h1 & Hh & R).
    destruct (Hall i (or_introl eq_refl)) as (s & Hs).
    unfold exact_body at 1. rewrite Hs. simpl.
    destruct s as [[stem ad]|]; simpl; rewrite Hh; simpl; apply IH; auto.
Qed.

Lemma exact_loop_ok ids :
  forall st h st' h',
  for_each body ids st h = Ok (st', h') ->
  forall i, In i ids -> exists s, axis_of i = Ok s.
Proof.
  induction ids as [|i ids IH]; simpl; intros st h st' h' H i0 Hin; [contradiction|].
  apply bind_ok in H as ([st1 h1] & Hb & H).
  destruct Hin as [<-|Hin]; [|exact (IH _ _ _ _ H i0 Hin)].
  apply exact_body_step in Hb as [(Hn & _)|(stem & ad & Hs & _)]; eauto.
Qed.

(** From arrays filled with 100000, the loop leaves at every point the
    distance and the id of a closest axis. *)
Lemma exact_loop_closest ids st h st' h' :
  for_each body ids st h = Ok (st', h') ->
  dists st = repeat 100000 (length voxelated_cloud) ->
  ids_of st = repeat 100000 (length voxelated_cloud) ->
  forall j d t,
  nth_error (dists st') j = Some d -> nth_error (ids_of st') j = Some t ->
  closest_axis voxelated_cloud clust_stripe h_range_value fld d_max ids j d t.
Proof.
  intros H Ed Et j d t Hd Ht.
  assert (Ld : length (dists st) = length voxelated_cloud)
    by (rewrite Ed; apply repeat_length).
  assert (Lt : length (ids_of st) = length voxelated_cloud)
    by (rewrite Et; apply repeat_length).
  destruct (exact_loop_lengths _ _ _ _ _ H) as (L1 & L2).
  assert (Hj : j < length voxelated_cloud).
  { rewrite <- Ld, <- L1. apply nth_error_Some. congruence. }
  destruct (nth_error_defined (dists st) j) as (d0 & Hd0); [lia|].
  destruct (nth_error_defined (ids_of st) j) as (t0 & Ht0); [lia|].
  destruct (exact_loop_invariant _ _ _ _ _ H Ld Lt j d0 t0 d t Hd0 Ht0 Hd Ht)
    as (_ & L & A).
  rewrite Ed in Hd0. apply nth_error_repeat in Hd0.
  rewrite Et in Ht0. apply nth_error_repeat in Ht0. subst d0 t0.
  destruct A as [(-> & ->)|(Hin & Hax & B1 & B2)].
  - left. repeat split; auto. intros i a Hi Ha.
    destruct (a <? d_max) eqn:C; [|reflexivity].
    simpl. exact (L i a Hi Ha C).
  - right. repeat split; auto. intros i a Hi Ha.
    destruct (a <? d) eqn:C; [|reflexivity].
    rewrite <- C. apply (L i a Hi Ha). exact (ltb_trans _ _ _ C B1).
Qed.

(** Two closest axes of one point, among the same clusters, are at the same
    distance. *)
Lemma closest_axis_distance ids ids' j d t d' t' :
  (forall i, In i ids <-> In i ids') ->
  closest_axis voxelated_cloud clust_stripe h_range_value fld d_max ids j d t ->
  closest_axis voxelated_cloud clust_stripe h_range_value fld d_max ids' j d' t' ->
  (d =? d') = true.
Proof.
  intros Hsame [(-> & _ & N)|(Hin & Hax & B1 & B2 & N)]
               [(-> & _ & N')|(Hin' & Hax' & B1' & B2' & N')].
  - reflexivity.
  - apply Hsame in Hin'. specialize (N _ _ Hin' Hax').
    rewrite B1', B2' in N. discriminate.
  - apply Hsame in Hin. specialize (N' _ _ Hin Hax).
    rewrite B1, B2 in N'. discriminate.
  - apply Hsame in Hin'. apply Hsame in Hin.
    apply (ltb_neither_eqb d d' d_max d_max B1 B1').
    + exact (N' _ _ Hin Hax).
    + exact (N _ _ Hin' Hax').
Qed.

End ExactLoop.

(** C6, as amended.  In the loop of [compute_axes_exact], run over the
    clusters [ids] in any order from arrays filled with 100000:
    - a point is reassigned by an axis exactly when its distance to that axis
      is below [d_max] and strictly below the recorded distance;
    - in the end every point holds the distance and the tree id of a closest
      axis, when that distance is below [d_max] and below 100000, and 100000
      twice otherwise;
    - enumerating the clusters in another order runs too and leaves, at every
      point, a distance equal as a number; the tree id may differ when two
      axes are equally close. *)
Theorem exact_assignment_is_closest_axis
  {ext : Collaborators} (HookState : Type)
  (voxelated_cloud clust_stripe : Matrix) (h_range_value d_max : float)
  (fld : Fields) (progress_hook : option (Hook HookState)) (n_values : nat)
  (ids : Vec) (h : HookState) (st : ExactState) (h' : HookState) :
  for_each (exact_body voxelated_cloud clust_stripe h_range_value d_max fld
                       progress_hook n_values)
           ids (exact_start (length voxelated_cloud) n_values) h = Ok (st, h') ->
  (forall i axis_dist a j ad d t,
      nth_error axis_dist j = Some ad ->
      nth_error (dist_to_axis a) j = Some d ->
      nth_error (tree_id_vector a) j = Some t ->
      nth_error (dist_to_axis (reassign d_max i axis_dist a)) j
      = Some (if ((ad <? d_max) && (ad <? d))%float then ad else d)
      /\ nth_error (tree_id_vector (reassign d_max i axis_dist a)) j
         = Some (if ((ad <? d_max) && (ad <? d))%float then i else t))
  /\ (forall j, j < length voxelated_cloud ->
        exists d t,
          nth_error (dist_to_axis (axes st)) j = Some d
          /\ nth_error (tree_id_vector (axes st)) j = Some t
          /\ closest_axis voxelated_cloud clust_stripe h_range_value fld d_max
                          ids j d t)
  /\ (forall ids', Permutation ids ids' ->
        exists st2 h2,
          for_each (exact_body voxelated_cloud clust_stripe h_range_value d_max
                               fld progress_hook n_values)
                   ids' (exact_start (length voxelated_cloud) n_values) h
          = Ok (st2, h2)
          /\ forall j d d2,
               nth_error (dist_to_axis (axes st)) j = Some d ->
               nth_error (dist_to_axis (axes st2)) j = Some d2 ->
               (d =? d2)%float = true).
Proof.
  intros H.
  pose proof (exact_loop_lengths HookState _ _ _ _ _ _ _ _ _ _ _ _ H) as (L1 & L2).
  simpl in L1, L2. rewrite repeat_length in L1, L2.
  split; [|split].
  - intros i axis_dist a j ad d t. apply reassign_at.
  - intros j Hj.
    destruct (nth_error_defined (dist_to_axis (axes st)) j) as (d & Hd); [lia|].
    destruct (nth_error_defined (tree_id_vector (axes st)) j) as (t & Ht); [lia|].
    exists d, t. repeat split; auto.
    exact (exact_loop_closest HookState _ _ _ _ _ _ _ _ _ _ _ _ H eq_refl eq_refl
                              j d t Hd Ht).
  - intros ids' Hperm.
    pose proof (exact_loop_report HookState _ _ _ _ _ _ _ _ _ _ _ _ H) as R.
    rewrite (Permutation_length Hperm) in R.
    destruct (exact_loop_runs HookState voxelated_cloud clust_stripe h_range_value
                d_max fld progress_hook n_values ids')
      with (st := exact_start (length voxelated_cloud) n_values) (h := h) (h' := h')
      as (st2 & H2).
    { intros i Hi. apply (Permutation_in _ (Permutation_sym Hperm)) in Hi.
      exact (exact_loop_ok HookState _ _ _ _ _ _ _ _ _ _ _ _ H i Hi). }
    { exact R. }
    exists st2, h'. split; [exact H2|].
    pose proof (exact_loop_lengths HookState _ _ _ _ _ _ _ _ _ _ _ _ H2) as (K1 & K2).
    simpl in K1, K2. rewrite repeat_length in K1, K2.
    intros j d d2 Hd Hd2.
    assert (Hj : j < length voxelated_cloud).
    { rewrite <- L1. apply nth_error_Some. congruence. }
    destruct (nth_error_defined (tree_id_vector (axes st)) j) as (t & Ht); [lia|].
    destruct (nth_error_defined (tree_id_vector (axes st2)) j) as (t2 & Ht2); [lia|].
    apply (closest_axis_distance voxelated_cloud clust_stripe h_range_value d_max
             fld ids ids' j d t d2 t2).
    + intros i. split; intros Hi.
      * exact (Permutation_in _ Hperm Hi).
      * exact (Permutation_in _ (Permutation_sym Hperm) Hi).
    + exact (exact_loop_closest HookState _ _ _ _ _ _ _ _ _ _ _ _ H eq_refl eq_refl
                                j d t Hd Ht).
    + exact (exact_loop_closest HookState _ _ _ _ _ _ _ _ _ _ _ _ H2 eq_refl eq_refl
                                j d2 t2 Hd2 Ht2).
Qed.

(** ** compute_heights *)

Section Heights.

Context {ext : Collaborators}.

Open Scope float_scope.

Lemma item_of_nat {A : Type} (l : list A) (i : nat) (x : A) :
  nth_error l i = Some x -> item l (Z.of_nat i) = Ok x.
Proof.
  intros H. unfold item, norm_index.
  assert (Hi : i < length l) by (apply nth_error_Some; congruence).
  replace ((0 <=? Z.of_nat i)%Z && (Z.of_nat i <? Z.of_nat (length l))%Z) with true.
  - simpl. now rewrite Nat2Z.id, H.
  - symmetry. apply andb_true_iff. split; [apply Z.leb_le|apply Z.ltb_lt]; lia.
Qed.

Lemma item_last {A : Type} (l : list A) (x : A) : item (l ++ [x]) (-1) = Ok x.
Proof.
  unfold item, norm_index. rewrite length_app.
  change ((0 <=? -1)%Z) with false. change ((-1 <? 0)%Z) with true.
  assert (E : (- Z.of_nat (length l + length [x]) <=? -1)%Z = true)
    by (apply Z.leb_le; simpl; lia).
  rewrite E. cbn [andb bind].
  replace (Z.to_nat (Z.of_nat (length l + length [x]) + -1)) with (length l)
    by (simpl; lia).
  now rewrite nth_error_app2, Nat.sub_diag by lia.
Qed.

Lemma boolean_index_none {A : Type} :
  forall (a : list A) mask,
  length a = length mask -> forallb negb mask = true -> boolean_index a mask = Ok [].
Proof.
  induction a as [|x a IH]; intros [|b mask]; simpl; try discriminate; auto.
  intros L H. apply andb_true_iff in H as [Hb H]. destruct b; [discriminate|].
  rewrite IH; auto.
Qed.

Lemma forallb_negb_map {A : Type} (f : A -> bool) :
  forall l, forallb negb (map f l) = forallb (fun x => negb (f x)) l.
Proof.
  induction l as [|x l IH]; simpl; [reflexivity|now rewrite IH].
Qed.

(** The row of [tree_heights] written for tree [i] ends with the flag chosen
    at lines 593-596. *)
Lemma tree_height_flag cloud detected max_dev i tree dev row :
  nth_error detected i = Some tree ->
  item tree (-1) = Ok dev ->
  tree_height cloud detected max_dev i = Ok row ->
  item row (-1) = Ok (if max_dev <? dev then 0 else 1).
Proof.
  intros Ht Hdev. unfold tree_height, Matrix, Vec in *.
  rewrite (item_of_nat _ _ _ Ht). simpl. intros H.
  apply bind_ok in H as (valid_id & _ & H).
  apply bind_ok in H as (ids & _ & H).
  apply bind_ok in H as (rows & _ & H).
  apply bind_ok in H as (zs & _ & H).
  apply bind_ok in H as (k & _ & H).
  apply bind_ok in H as (hp & _ & H).
  apply bind_ok in H as (z & _ & H).
  apply bind_ok in H as (offset & _ & H).
  rewrite Hdev in H. simpl in H. inversion H; subst.
  change (hp ++ [z - offset; if max_dev <? dev then 0 else 1])
    with (hp ++ [z - offset] ++ [if max_dev <? dev then 0 else 1]).
  rewrite app_assoc. apply item_last.
Qed.

(** A tree without a surviving point: [np.argmax] of an empty selection. *)
Lemma tree_height_empty cloud detected max_dev i tree valid_id ids :
  nth_error detected i = Some tree ->
  item tree 0 = Ok valid_id ->
  column cloud (-1) = Ok ids ->
  forallb (fun t => negb (t =? valid_id)) ids = true ->
  tree_height cloud detected max_dev i = Raise ValueError.
Proof.
  intros Ht Hid Hids Hnone. unfold tree_height, Matrix, Vec in *.
  rewrite (item_of_nat _ _ _ Ht). simpl. rewrite Hid. simpl. rewrite Hids. simpl.
  rewrite boolean_index_none.
  - reflexivity.
  - rewrite length_map. symmetry. exact (mapM_length _ _ _ Hids).
  - rewrite forallb_negb_map. exact Hnone.
Qed.

End Heights.

(** C8.  In every row [compute_heights] returns, the validity flag is 0
    exactly when the deviation stored for the tree (the last entry of its row
    of [detected_trees]) is strictly above [max_dev], and 1 otherwise; a
    deviation equal to or below [max_dev] gives 1. *)
Theorem height_flag_is_strict_in_max_dev
  {ext : Collaborators} (voxelated_cloud detected : Matrix) (dist tree_ids : Vec)
  (d max_dev resolution_heights : float) (n_digits X Y Z_ : Z)
  (tree_heights : Matrix) :
  compute_heights voxelated_cloud detected dist tree_ids d max_dev
                  resolution_heights n_digits X Y Z_ = Ok tree_heights ->
  length tree_heights = length detected
  /\ forall i tree dev,
       nth_error detected i = Some tree ->
       item tree (-1) = Ok dev ->
       exists row,
         nth_error tree_heights i = Some row
         /\ item row (-1) = Ok (if (max_dev <? dev)%float then 0 else 1)%float
         /\ (item row (-1) = Ok 0%float <-> (max_dev <? dev)%float = true)
         /\ ((dev <=? max_dev)%float = true -> item row (-1) = Ok 1%float).
Proof.
  unfold compute_heights. intros H.
  apply bind_ok in H as (cloud & _ & H).
  split.
  - rewrite (mapM_length _ _ _ H). apply length_seq.
  - intros i tree dev Ht Hdev.
    assert (Hi : i < length detected) by (apply nth_error_Some; congruence).
    destruct (mapM_nth _ _ _ H i i) as (row & Hrow & Hth).
    { rewrite nth_error_seq. apply Nat.ltb_lt in Hi. now rewrite Hi. }
    exists row. split; [exact Hrow|].
    pose proof (tree_height_flag _ _ _ _ _ _ _ Ht Hdev Hth) as F.
    split; [exact F|]. split.
    + rewrite F. destruct (max_dev <? dev)%float; split; intros E;
        try reflexivity; discriminate.
    + intros Hle. rewrite F. now rewrite (leb_not_gt _ _ Hle).
Qed.

(** C10.  When a detected tree has no point left in the cloud after the
    distance filter and the cluster filter, the loop body of
    [compute_heights] raises at [np.argmax] (a [ValueError]) and
    [compute_heights] raises instead of returning the table of heights. *)
Theorem heights_raise_without_surviving_point
  {ext : Collaborators} (voxelated_cloud detected : Matrix) (dist tree_ids : Vec)
  (d max_dev resolution_heights : float) (n_digits X Y Z_ : Z)
  (cloud : Matrix) (i : nat) (tree : Vec) (valid_id : float) (ids : Vec) :
  surviving_cloud voxelated_cloud dist tree_ids d resolution_heights
                  n_digits X Y Z_ = Ok cloud ->
  nth_error detected i = Some tree ->
  item tree 0 = Ok valid_id ->
  column cloud (-1) = Ok ids ->
  forallb (fun t => negb (t =? valid_id)%float) ids = true ->
  tree_height cloud detected max_dev i = Raise ValueError
  /\ raises (compute_heights voxelated_cloud detected dist tree_ids d max_dev
                             resolution_heights n_digits X Y Z_).
Proof.
  intros Hc Ht Hid Hids Hnone.
  pose proof (tree_height_empty cloud detected max_dev i tree valid_id ids
                Ht Hid Hids Hnone) as E.
  split; [exact E|].
  unfold compute_heights. rewrite Hc. simpl.
  apply (mapM_raises _ _ i).
  - apply in_seq. split; [lia|]. simpl. apply nth_error_Some. congruence.
  - now exists ValueError.
Qed.

(** ** The deviation angle *)


(** In [compute_axes_approximate] such an axis is then refused by
    [_axis_bb_inter]: it meets neither bounding plane. *)
Example horizontal_axis_meets_no_plane :
  _axis_bb_inter (0, 0, 1)%float (1, 0, 0)%float (5, 0, 2)%float (0, 0, 0)%float
  = Raise RuntimeError.
Proof. reflexivity. Qed.

(** ** What the two strategies do on every input *)

Section Strategies.

Context {ext : Collaborators}.
Variable HookState : Type.

Open Scope float_scope.

Lemma set_row_in (m : Matrix) (k : nat) (r row : Vec) :
  In row (set_row m k r) -> In row m \/ row = r.
Proof.
  revert k. induction m as [|x m IH]; intros [|k]; simpl; auto.
  - intros [<-|H]; auto.
  - intros [<-|H]; auto. destruct (IH _ H); auto.
Qed.

Lemma filter_counts_in (uc : list (float * nat)) (min_points : Z) (i : float) :
  In i (filter_counts uc min_points) ->
  exists c, In (i, c) uc /\ (min_points < Z.of_nat c)%Z.
Proof.
  unfold filter_counts. rewrite in_map_iff. intros ([i' c] & <- & H).
  apply filter_In in H as [H1 H2]. simpl in *. exists c. split; [exact H1|].
  now apply Z.gtb_lt in H2.
Qed.

Lemma fit_stem_row stripe fld hrv i stem :
  fit_stem stripe fld hrv i = Ok (Some stem) -> hd_error (stem_row stem) = Some i.
Proof.
  unfold fit_stem. intros H. unbind H.
  destruct (hrv <? _); [|discriminate]. unbind H.
  destruct (components_ _) as [[pc1 pc2] pc3].
  now inversion H.
Qed.

Lemma stem_axis_fit cloud stripe hrv fld i stem axis_dist :
  stem_axis cloud stripe hrv fld i = Ok (Some (stem, axis_dist)) ->
  fit_stem stripe fld hrv i = Ok (Some stem).
Proof.
  unfold stem_axis.
  destruct (fit_stem stripe fld hrv i) as [[s|]|e]; simpl; try discriminate.
  intros H. apply bind_ok in H as (xyz & _ & H).
  apply bind_ok in H as (coords & _ & H). now inversion H.
Qed.

(** The rows of [detected_trees] are the initial ones and the rows written
    for fitted stems. *)
Lemma exact_loop_trees cloud stripe hrv d_max fld hook n ids :
  forall st (h : HookState) st' h',
  for_each (exact_body cloud stripe hrv d_max fld hook n) ids st h = Ok (st', h') ->
  forall row, In row (detected_trees (axes st')) ->
  In row (detected_trees (axes st))
  \/ exists i stem, In i ids /\ fit_stem stripe fld hrv i = Ok (Some stem)
                    /\ row = stem_row stem.
Proof.
  induction ids as [|i ids IH]; simpl; intros st h st' h' H row Hrow.
  - inversion H; subst. auto.
  - apply bind_ok in H as ([st1 h1] & Hb & H).
    destruct (IH _ _ _ _ H row Hrow) as [Hin|(i0 & stem & Hi & Hf & ->)];
      [|right; exists i0, stem; auto].
    apply exact_body_plain in Hb. unfold exact_body in Hb.
    destruct (stem_axis cloud stripe hrv fld i) as [[[stem ad]|]|e] eqn:Hs;
      simpl in Hb; try discriminate; inversion Hb; subst; simpl in Hin; auto.
    apply set_row_in in Hin as [Hin| ->]; auto.
    right. exists i, stem. split; [auto|]. split; [|reflexivity].
    exact (stem_axis_fit _ _ _ _ _ _ _ Hs).
Qed.

Lemma approximate_loop_trees stripe hrv step bb_max bb_min fld hook n ids :
  forall st (h : HookState) st' h',
  for_each (approximate_body stripe hrv step bb_max bb_min fld hook n) ids st h
  = Ok (st', h') ->
  forall row, In row (trees st') ->
  In row (trees st)
  \/ exists i stem, In i ids /\ fit_stem stripe fld hrv i = Ok (Some stem)
                    /\ row = stem_row stem.
Proof.
  induction ids as [|i ids IH]; simpl; intros st h st' h' H row Hrow.
  - inversion H; subst. auto.
  - apply bind_ok in H as ([st1 h1] & Hb & H).
    destruct (IH _ _ _ _ H row Hrow) as [Hin|(i0 & stem & Hi & Hf & ->)];
      [|right; exists i0, stem; auto].
    apply approximate_body_plain in Hb. unfold approximate_body in Hb.
    destruct (fit_stem stripe fld hrv i) as [[stem|]|e] eqn:Hs;
      simpl in Hb; try discriminate.
    + destruct (components_ (stem_pca stem)) as [[pc1 pc2] pc3].
      destruct (sample_axis _ _ _ _ _) as [pts|e]; simpl in Hb; [|discriminate].
      inversion Hb; subst; simpl in Hin.
      apply set_row_in in Hin as [Hin| ->]; auto.
      right. exists i, stem. auto.
    + inversion Hb; subst; simpl in Hin; auto.
Qed.

Lemma drop_zero_rows_start (n : nat) (row : Vec) :
  In row (drop_zero_rows (repeat (repeat 0 9) n)) -> False.
Proof.
  unfold drop_zero_rows. rewrite filter_In. intros [H1 H2].
  apply repeat_spec in H1. subst. discriminate H2.
Qed.

(** When every candidate is rejected, the loop of [compute_axes_approximate]
    ends, if the hook lets it, with the list of sampled axes it started
    with. *)
Lemma approximate_loop_all_rejected stripe hrv step bb_max bb_min fld hook n ids :
  (forall i, In i ids -> fit_stem stripe fld hrv i = Ok None) ->
  forall st (h : HookState) st' h',
    for_each (approximate_body stripe hrv step bb_max bb_min fld hook n) ids st h
    = Ok (st', h') ->
    axes_points_list st' = axes_points_list st.
Proof.
  induction ids as [|i ids IH]; simpl; intros Hall st h st' h' H.
  - now inversion H.
  - apply bind_ok in H as ([st1 h1] & Hb & H).
    apply (IH (fun i Hi => Hall i (or_intror Hi))) in H. rewrite H.
    apply approximate_body_plain in Hb. unfold approximate_body in Hb.
    rewrite (Hall i (or_introl eq_refl)) in Hb. simpl in Hb.
    now inversion Hb.
Qed.

(** After line 454 no distance is above [d_max], so the mask of line 465 is
    empty. *)
Lemma clamped_mask_is_empty (d_max : float) (dist : Vec) :
  forallb negb
    (map (fun d => (d_max <? d))
         (map (fun d => if (d_max <? d) then d_max else d) dist))
  = true.
Proof.
  induction dist as [|d dist IH]; simpl; [reflexivity|].
  rewrite IH, andb_true_r.
  destruct (d_max <? d) eqn:E; [now rewrite ltb_irrefl|now rewrite E].
Qed.

End Strategies.

(** X1.  Lines 449-465 never write [NO_ID]: no returned distance is above
    [d_max], and the returned tree ids are [tree_cluster[indexes]] as looked
    up, also for the points whose nearest sample is farther than [d_max]. *)
Theorem approximate_never_writes_no_id
  {ext : Collaborators} (n_points : nat) (cloud_xyz : Matrix) (d_max : float)
  (axes_points : list (list Vec3)) (tree_ids dist ids : Vec) :
  assign_nearest n_points cloud_xyz d_max axes_points tree_ids = Ok (dist, ids) ->
  Forall (fun d => (d_max <? d)%float = false) dist
  /\ take (fill_tree_cluster (repeat 0%float n_points) 0 axes_points tree_ids)
          (map (fun p => snd (KDTree_query (concat axes_points) (v3_of p))) cloud_xyz)
     = Ok ids.
Proof.
  unfold assign_nearest. intros H.
  apply bind_ok in H as (axes_cloud & Hc & H).
  assert (axes_cloud = concat axes_points) as ->
    by (destruct axes_points; [discriminate|now inversion Hc]).
  apply bind_ok in H as (picked & Hp & H). inversion H; subst. split.
  - apply Forall_forall. intros d Hd. apply in_map_iff in Hd as (x & <- & _).
    destruct (d_max <? x)%float eqn:E; [apply ltb_irrefl|exact E].
  - rewrite mask_fill_all_false by apply clamped_mask_is_empty.
    rewrite map_map in Hp. exact Hp.
Qed.

(** The cloud of four points and the two samples of the only axis. *)
Lemma approximate_never_writes_no_id_witness :
  assign_nearest (ext := reference) 4 [[0; 0; 0]; [0; 0; 2]; [5; 0; 1]; [1; 0; 1]]%float
    1.5 [[(0, 0, 0); (0, 0, 1)]%float] [1%float]
  = Ok ([0; 1; 1.5; 1], [1; 1; 1; 1])%float
  /\ Forall (fun d => (1.5 <? d)%float = false) [0; 1; 1.5; 1]%float.
Proof.
  assert (H : assign_nearest (ext := reference) 4
                [[0; 0; 0]; [0; 0; 2]; [5; 0; 1]; [1; 0; 1]]%float
                1.5 [[(0, 0, 0); (0, 0, 1)]%float] [1%float]
              = Ok ([0; 1; 1.5; 1], [1; 1; 1; 1])%float)
    by (vm_compute; reflexivity).
  split; [exact H|].
  exact (proj1 (approximate_never_writes_no_id _ _ _ _ _ _ _ H)).
Defined.

(** X2.  After [compute_axes_exact]: a point whose distance is 100000 has
    tree id 100000; a point whose tree id is 100000 has distance 100000,
    unless 100000 is itself the id of a candidate cluster; and a point with
    another tree id has a distance below [d_max] and below 100000. *)
Theorem exact_sentinel_invariant
  {ext : Collaborators} (HookState : Type)
  (voxelated_cloud clust_stripe : Matrix)
  (stripe_lower_limit stripe_upper_limit h_range : float) (min_points : Z)
  (d_max : float) (fld : Fields) (progress_hook : option (Hook HookState))
  (h : HookState) (col : Vec) (a : Axes) (h' : HookState) :
  column clust_stripe (tree_id_field fld) = Ok col ->
  compute_axes_exact voxelated_cloud clust_stripe stripe_lower_limit
    stripe_upper_limit h_range min_points d_max fld progress_hook h = Ok (a, h') ->
  forall j d t,
    nth_error (dist_to_axis a) j = Some d ->
    nth_error (tree_id_vector a) j = Some t ->
    (d = 100000%float -> t = 100000%float)
    /\ (t = 100000%float ->
        d = 100000%float
        \/ In 100000%float (filter_counts (np_unique_counts col) min_points))
    /\ (t <> 100000%float ->
        (d <? d_max)%float = true /\ (d <? 100000)%float = true).
Proof.
  intros Hcol H. apply exact_plain with (h0 := h) in H.
  unfold compute_axes_exact in H. rewrite Hcol in H. simpl in H.
  apply bind_ok in H as ([st h1] & Hloop & H). inversion H; subst. simpl.
  intros j d t Hd Ht.
  destruct (exact_loop_closest HookState _ _ _ _ _ _ _ _ _ _ _ _
              Hloop eq_refl eq_refl j d t Hd Ht)
    as [(-> & -> & _)|(Hin & _ & B1 & B2 & _)].
  - split; [auto|]. split; [auto|]. intros N. now contradiction N.
  - split; [|split].
    + intros ->. now rewrite ltb_irrefl in B2.
    + intros ->. now right.
    + intros _. auto.
Qed.

(** The fourth point of the cloud: tree id 1, distance 1. *)
Lemma exact_sentinel_invariant_witness :
  (column stripe_one (tree_id_field canonical_fields) = Ok [1; 1; 1]%float
   /\ compute_axes_exact (ext := reference) (HookState := unit)
        cloud_far stripe_one 0 1 1 2 1.5 canonical_fields None tt
      = Ok ({| detected_trees := [tree_row 1 0];
               dist_to_axis := [0; 0; 100000; 1]%float;
               tree_id_vector := [1; 1; 100000; 1]%float |}, tt))
  /\ (1%float <> 100000%float ->
      (1 <? 1.5)%float = true /\ (1 <? 100000)%float = true).
Proof.
  assert (Hc : column stripe_one (tree_id_field canonical_fields) = Ok [1; 1; 1]%float)
    by reflexivity.
  assert (H : compute_axes_exact (ext := reference) (HookState := unit)
                cloud_far stripe_one 0 1 1 2 1.5 canonical_fields None tt
              = Ok ({| detected_trees := [tree_row 1 0];
                       dist_to_axis := [0; 0; 100000; 1]%float;
                       tree_id_vector := [1; 1; 100000; 1]%float |}, tt))
    by (vm_compute; reflexivity).
  split; [split; [exact Hc|exact H]|].
  exact (proj2 (proj2 (exact_sentinel_invariant unit _ _ _ _ _ _ _ _ _ _ _ _ _ Hc H
                         3 1%float 1%float eq_refl eq_refl))).
Defined.

(** X3.  When every candidate cluster is rejected by the height filter (or
    none passes the size filter), [compute_axes_approximate] raises. *)
Theorem approximate_needs_a_valid_stem
  {ext : Collaborators} (HookState : Type)
  (voxelated_cloud clust_stripe : Matrix)
  (stripe_lower_limit stripe_upper_limit h_range : float) (min_points : Z)
  (voxel_resolution d_max : float) (fld : Fields)
  (progress_hook : option (Hook HookState)) (h : HookState) (col : Vec) :
  column clust_stripe (tree_id_field fld) = Ok col ->
  (forall i, In i (filter_counts (np_unique_counts col) min_points) ->
             fit_stem clust_stripe fld
               ((stripe_upper_limit - stripe_lower_limit) * h_range)%float i
             = Ok None) ->
  raises (compute_axes_approximate voxelated_cloud clust_stripe stripe_lower_limit
            stripe_upper_limit h_range min_points voxel_resolution d_max fld
            progress_hook h).
Proof.
  intros Hcol Hall. unfold compute_axes_approximate. rewrite Hcol. simpl.
  destruct (columns voxelated_cloud _) as [xyz|e]; simpl; [|now exists e].
  destruct (np_min0 3 xyz) as [bb_min|e]; simpl; [|now exists e].
  destruct (np_max0 3 xyz) as [bb_max|e]; simpl; [|now exists e].
  destruct (call_hook progress_hook 0 _ h) as [h0|e]; simpl; [|now exists e].
  match goal with
  | |- raises (bind (for_each ?b ?l ?s ?h1) _) =>
      pose proof (approximate_loop_all_rejected HookState clust_stripe _
                    voxel_resolution (v3_of bb_max) (v3_of bb_min) fld
                    progress_hook (length l) l Hall s h1) as E;
      destruct (for_each b l s h1) as [[st' h']|e]; simpl; [|now exists e]
  end.
  rewrite (E _ _ eq_refl). simpl. now exists ValueError.
Qed.

(** A single cluster of 3 points and [min_points = 20]. *)
Lemma approximate_needs_a_valid_stem_witness :
  column stripe_one (tree_id_field canonical_fields) = Ok [1; 1; 1]%float
  /\ filter_counts (np_unique_counts [1; 1; 1]%float) 20 = []
  /\ raises (compute_axes_approximate (ext := reference) (HookState := unit)
               cloud_far stripe_one 0 1 1 20 1 1.5 canonical_fields None tt).
Proof.
  split; [reflexivity|]. split; [reflexivity|].
  apply (approximate_needs_a_valid_stem (ext := reference) unit _ _ _ _ _ _ _ _ _ _ _
           [1; 1; 1]%float); [reflexivity|].
  intros i Hi. vm_compute in Hi. contradiction.
Defined.

(** X4.  Every row of the [detected_trees] returned by either strategy is
    the row written for a cluster that has more than [min_points] members
    and passes the height filter; its first entry is the cluster's id. *)
Theorem detected_trees_come_from_counted_clusters
  {ext : Collaborators} (HookState : Type)
  (voxelated_cloud clust_stripe : Matrix)
  (stripe_lower_limit stripe_upper_limit h_range : float) (min_points : Z)
  (voxel_resolution d_max : float) (fld : Fields)
  (progress_hook : option (Hook HookState)) (h : HookState)
  (col : Vec) (a : Axes) (h' : HookState) :
  column clust_stripe (tree_id_field fld) = Ok col ->
  compute_axes_exact voxelated_cloud clust_stripe stripe_lower_limit
    stripe_upper_limit h_range min_points d_max fld progress_hook h = Ok (a, h')
  \/ compute_axes_approximate voxelated_cloud clust_stripe stripe_lower_limit
       stripe_upper_limit h_range min_points voxel_resolution d_max fld
       progress_hook h = Ok (a, h') ->
  forall row, In row (detected_trees a) ->
  exists i c stem,
    In (i, c) (np_unique_counts col)
    /\ (min_points < Z.of_nat c)%Z
    /\ fit_stem clust_stripe fld
         ((stripe_upper_limit - stripe_lower_limit) * h_range)%float i
       = Ok (Some stem)
    /\ row = stem_row stem
    /\ hd_error row = Some i.
Proof.
  intros Hcol H row Hrow.
  assert (K : exists i stem,
             In i (filter_counts (np_unique_counts col) min_points)
             /\ fit_stem clust_stripe fld
                  ((stripe_upper_limit - stripe_lower_limit) * h_range)%float i
                = Ok (Some stem)
             /\ row = stem_row stem).
  { destruct H as [H|H].
    - apply exact_plain with (h0 := h) in H.
    unfold compute_axes_exact in H. rewrite Hcol in H. simpl in H.
      apply bind_ok in H as ([st h1] & Hloop & H). inversion H; subst.
      simpl in Hrow. unfold drop_zero_rows in Hrow.
      apply filter_In in Hrow as [Hrow Hnz].
      destruct (exact_loop_trees HookState _ _ _ _ _ _ _ _ _ _ _ _ Hloop row Hrow)
        as [Hin|K]; [|exact K].
      simpl in Hin. apply repeat_spec in Hin. subst. discriminate Hnz.
    - apply approximate_plain with (h0 := h) in H.
    unfold compute_axes_approximate in H. rewrite Hcol in H. simpl in H.
      apply bind_ok in H as (xyz & _ & H).
      apply bind_ok in H as (bb_min & _ & H).
      apply bind_ok in H as (bb_max & _ & H).
      apply bind_ok in H as ([st h1] & Hloop & H).
      apply bind_ok in H as ([dist tids] & _ & H). inversion H; subst.
      simpl in Hrow. unfold drop_zero_rows in Hrow.
      apply filter_In in Hrow as [Hrow Hnz].
      destruct (approximate_loop_trees HookState _ _ _ _ _ _ _ _ _ _ _ _ _
                  Hloop row Hrow) as [Hin|K]; [|exact K].
      simpl in Hin. apply repeat_spec in Hin. subst. discriminate Hnz. }
  destruct K as (i & stem & Hi & Hf & ->).
  apply filter_counts_in in Hi as (c & Hc & Hm).
  exists i, c, stem. repeat split; auto.
  exact (fit_stem_row _ _ _ _ _ Hf).
Qed.

(** The only detected tree is the row written for cluster 1, counted 3
    times, with [min_points = 2]. *)
Lemma detected_trees_come_from_counted_clusters_witness :
  (column stripe_one (tree_id_field canonical_fields) = Ok [1; 1; 1]%float
   /\ compute_axes_exact (ext := reference) (HookState := unit)
        cloud_far stripe_one 0 1 1 2 1.5 canonical_fields None tt
      = Ok ({| detected_trees := [tree_row 1 0];
               dist_to_axis := [0; 0; 100000; 1]%float;
               tree_id_vector := [1; 1; 100000; 1]%float |}, tt))
  /\ exists i c stem,
       In (i, c) (np_unique_counts [1; 1; 1]%float)
       /\ (2 < Z.of_nat c)%Z
       /\ fit_stem (ext := reference) stripe_one canonical_fields ((1 - 0) * 1)%float i
          = Ok (Some stem)
       /\ tree_row 1 0 = stem_row stem
       /\ hd_error (tree_row 1 0) = Some i.
Proof.
  assert (Hc : column stripe_one (tree_id_field canonical_fields) = Ok [1; 1; 1]%float)
    by reflexivity.
  assert (H : compute_axes_exact (ext := reference) (HookState := unit)
                cloud_far stripe_one 0 1 1 2 1.5 canonical_fields None tt
              = Ok ({| detected_trees := [tree_row 1 0];
                       dist_to_axis := [0; 0; 100000; 1]%float;
                       tree_id_vector := [1; 1; 100000; 1]%float |}, tt))
    by (vm_compute; reflexivity).
  split; [split; [exact Hc|exact H]|].
  exact (detected_trees_come_from_counted_clusters unit _ _ _ _ _ _ 1 _ _ _ _ _ _ _
           Hc (or_introl H) (tree_row 1 0) (or_introl eq_refl)).
Defined.

(** ** The tags of the pooled samples *)

Section Tags.

Lemma slice_fill_length (v : float) :
  forall a lo hi, length (slice_fill a lo hi v) = length a.
Proof.
  induction a as [|x a IH]; intros lo hi; simpl; [reflexivity|].
  destruct lo, hi; simpl; auto.
Qed.



Lemma fill_tree_cluster_length :
  forall axes_points ids tc min_id,
  length (fill_tree_cluster tc min_id axes_points ids) = length tc.
Proof.
  induction axes_points as [|pts rest IH]; intros [|id ids] tc min_id; simpl; auto.
  now rewrite IH, slice_fill_length.
Qed.




End Tags.



(** ** The shape of the results *)

Section Shapes.

Context {ext : Collaborators}.
Variable HookState : Type.

Lemma set_row_length (m : Matrix) (k : nat) (r : Vec) :
  length (set_row m k r) = length m.
Proof.
  revert k. induction m as [|x m IH]; intros [|k]; simpl; auto.
Qed.

Lemma fit_stem_row_length stripe fld hrv i stem :
  fit_stem stripe fld hrv i = Ok (Some stem) -> length (stem_row stem) = 9.
Proof.
  unfold fit_stem. intros H. unbind H.
  destruct (hrv <? _)%float; [|discriminate]. unbind H.
  destruct (components_ _) as [[[[vx vy] vz] pc2] pc3].
  inversion H. reflexivity.
Qed.

Lemma exact_loop_tree_count cloud stripe hrv d_max fld hook n ids :
  forall st (h : HookState) st' h',
  for_each (exact_body cloud stripe hrv d_max fld hook n) ids st h = Ok (st', h') ->
  length (detected_trees (axes st')) = length (detected_trees (axes st)).
Proof.
  induction ids as [|i ids IH]; simpl; intros st h st' h' H.
  - now inversion H.
  - apply bind_ok in H as ([st1 h1] & Hb & H). rewrite (IH _ _ _ _ H).
    apply exact_body_plain in Hb. unfold exact_body in Hb.
    destruct (stem_axis cloud stripe hrv fld i) as [[[stem ad]|]|e];
      simpl in Hb; try discriminate; inversion Hb; subst; simpl; auto.
    apply set_row_length.
Qed.

Lemma approximate_loop_tree_count stripe hrv step bb_max bb_min fld hook n ids :
  forall st (h : HookState) st' h',
  for_each (approximate_body stripe hrv step bb_max bb_min fld hook n) ids st h
  = Ok (st', h') ->
  length (trees st') = length (trees st).
Proof.
  induction ids as [|i ids IH]; simpl; intros st h st' h' H.
  - now inversion H.
  - apply bind_ok in H as ([st1 h1] & Hb & H). rewrite (IH _ _ _ _ H).
    apply approximate_body_plain in Hb. unfold approximate_body in Hb.
    destruct (fit_stem stripe fld hrv i) as [[stem|]|e];
      simpl in Hb; try discriminate.
    + destruct (components_ (stem_pca stem)) as [[pc1 pc2] pc3].
      destruct (sample_axis _ _ _ _ _) as [pts|e]; simpl in Hb; [|discriminate].
      inversion Hb; subst; simpl. apply set_row_length.
    + now inversion Hb.
Qed.

Lemma drop_zero_rows_length (m : Matrix) : length (drop_zero_rows m) <= length m.
Proof. apply filter_length_le. Qed.

Lemma assign_nearest_lengths n_points cloud_xyz d_max axes_points tree_ids dist ids :
  assign_nearest n_points cloud_xyz d_max axes_points tree_ids = Ok (dist, ids) ->
  length dist = length cloud_xyz /\ length ids = length cloud_xyz.
Proof.
  unfold assign_nearest. intros H.
  apply bind_ok in H as (axes_cloud & _ & H).
  apply bind_ok in H as (picked & Hp & H). inversion H; subst.
  apply mapM_length in Hp. rewrite mask_fill_length, Hp.
  now rewrite !length_map.
Qed.

Lemma stem_axis_rejected cloud stripe hrv fld i :
  stem_axis cloud stripe hrv fld i = Ok None -> fit_stem stripe fld hrv i = Ok None.
Proof.
  unfold stem_axis.
  destruct (fit_stem stripe fld hrv i) as [[s|]|e]; simpl; try discriminate; auto.
  intros H. unbind H. discriminate.
Qed.

(** The two loops write the same rows at the same places. *)
Lemma loops_write_the_same_trees cloud stripe hrv d_max step bb_max bb_min fld
  hook hook' n ids :
  forall st_e (h : HookState) st_e' h1 st_a (h' : HookState) st_a' h2,
  detected_trees (axes st_e) = trees st_a ->
  id_valid st_e = n_valid st_a ->
  for_each (exact_body cloud stripe hrv d_max fld hook n) ids st_e h
  = Ok (st_e', h1) ->
  for_each (approximate_body stripe hrv step bb_max bb_min fld hook' n) ids st_a h'
  = Ok (st_a', h2) ->
  detected_trees (axes st_e') = trees st_a'.
Proof.
  induction ids as [|i ids IH]; simpl;
    intros st_e h st_e' h1 st_a h' st_a' h2 Et Ev He Ha.
  - inversion He; inversion Ha; subst. exact Et.
  - apply bind_ok in He as ([se he] & Hbe & He).
    apply bind_ok in Ha as ([sa ha] & Hba & Ha).
    apply (IH _ _ _ _ _ _ _ _) with (3 := He) (4 := Ha);
      apply exact_body_plain in Hbe; apply approximate_body_plain in Hba;
      unfold exact_body in Hbe; unfold approximate_body in Hba;
      destruct (stem_axis cloud stripe hrv fld i) as [[[stem ad]|]|e] eqn:Hs;
      simpl in Hbe; try discriminate.
    + rewrite (stem_axis_fit _ _ _ _ _ _ _ Hs) in Hba. simpl in Hba.
      destruct (components_ (stem_pca stem)) as [[pc1 pc2] pc3].
      destruct (sample_axis _ _ _ _ _) as [pts|e]; simpl in Hba; [|discriminate].
      inversion Hbe; inversion Hba; subst; simpl. now rewrite Et, Ev.
    + rewrite (stem_axis_rejected _ _ _ _ _ Hs) in Hba. simpl in Hba.
      inversion Hbe; inversion Hba; subst; simpl. exact Et.
    + rewrite (stem_axis_fit _ _ _ _ _ _ _ Hs) in Hba. simpl in Hba.
      destruct (components_ (stem_pca stem)) as [[pc1 pc2] pc3].
      destruct (sample_axis _ _ _ _ _) as [pts|e]; simpl in Hba; [|discriminate].
      inversion Hbe; inversion Hba; subst; simpl. now rewrite Ev.
    + rewrite (stem_axis_rejected _ _ _ _ _ Hs) in Hba. simpl in Hba.
      inversion Hbe; inversion Hba; subst; simpl. exact Ev.
Qed.

(** The loop of the approximate strategy calls the hook once per candidate,
    counted from the progress so far. *)
Lemma approximate_loop_report stripe hrv step bb_max bb_min fld hook n ids :
  forall st (h : HookState) st' h',
  for_each (approximate_body stripe hrv step bb_max bb_min fld hook n) ids st h
  = Ok (st', h') ->
  report hook (map (fun k => (k, n)) (seq (S (n_progress st)) (length ids))) h
  = Ok h'.
Proof.
  induction ids as [|i ids IH]; simpl; intros st h st' h' H.
  - now inversion H.
  - apply bind_ok in H as ([st1 h1] & Hb & H). apply IH in H.
    pose proof (approximate_body_ok _ _ _ _ _ _ _ _ _ _ _ _ _ _ Hb) as (Hh & _).
    rewrite Hh. cbn [bind].
    assert (E : n_progress st1 = S (n_progress st)).
    { apply approximate_body_plain in Hb. unfold approximate_body in Hb.
      destruct (fit_stem stripe fld hrv i) as [[stem|]|e];
        simpl in Hb; try discriminate.
      - destruct (components_ (stem_pca stem)) as [[pc1 pc2] pc3].
        destruct (sample_axis _ _ _ _ _) as [pts|e]; simpl in Hb; [|discriminate].
        now inversion Hb.
      - now inversion Hb. }
    now rewrite <- E.
Qed.

Lemma exact_calls voxelated_cloud clust_stripe stripe_lower_limit
  stripe_upper_limit h_range min_points d_max fld hook (h : HookState) col a h' :
  column clust_stripe (tree_id_field fld) = Ok col ->
  compute_axes_exact voxelated_cloud clust_stripe stripe_lower_limit
    stripe_upper_limit h_range min_points d_max fld hook h = Ok (a, h') ->
  report hook
    (progress_calls (length (filter_counts (np_unique_counts col) min_points))) h
  = Ok h'.
Proof.
  intros Hcol H. unfold compute_axes_exact in H. rewrite Hcol in H.
  cbn [bind] in H.
  apply bind_ok in H as (h0 & Hh0 & H).
  apply bind_ok in H as ([st h1] & Hloop & H). inversion H; subst.
  apply exact_loop_report in Hloop.
  unfold progress_calls. simpl. rewrite Hh0. simpl. exact Hloop.
Qed.

Lemma approximate_calls voxelated_cloud clust_stripe stripe_lower_limit
  stripe_upper_limit h_range min_points voxel_resolution d_max fld hook
  (h : HookState) col a h' :
  column clust_stripe (tree_id_field fld) = Ok col ->
  compute_axes_approximate voxelated_cloud clust_stripe stripe_lower_limit
    stripe_upper_limit h_range min_points voxel_resolution d_max fld hook h
  = Ok (a, h') ->
  report hook
    (progress_calls (length (filter_counts (np_unique_counts col) min_points))) h
  = Ok h'.
Proof.
  intros Hcol H. unfold compute_axes_approximate in H. rewrite Hcol in H.
  cbn [bind] in H.
  apply bind_ok in H as (xyz & _ & H).
  apply bind_ok in H as (bb_min & _ & H).
  apply bind_ok in H as (bb_max & _ & H).
  apply bind_ok in H as (h0 & Hh0 & H).
  apply bind_ok in H as ([st h1] & Hloop & H).
  apply bind_ok in H as ([dist tids] & _ & H). inversion H; subst.
  apply approximate_loop_report in Hloop.
  unfold progress_calls. simpl. rewrite Hh0. simpl. exact Hloop.
Qed.

End Shapes.

(** X6.  The arrays either strategy returns are aligned with its inputs:
    [dist_to_axis] and [tree_id_vector] have one entry per point of the
    voxelated cloud, [detected_trees] has at most one row per cluster that
    passes the size filter, and every row of it has nine entries. *)
Theorem axes_results_are_aligned_with_the_cloud
  {ext : Collaborators} (HookState : Type)
  (voxelated_cloud clust_stripe : Matrix)
  (stripe_lower_limit stripe_upper_limit h_range : float) (min_points : Z)
  (voxel_resolution d_max : float) (fld : Fields)
  (progress_hook : option (Hook HookState)) (h : HookState)
  (col : Vec) (a : Axes) (h' : HookState) :
  column clust_stripe (tree_id_field fld) = Ok col ->
  compute_axes_exact voxelated_cloud clust_stripe stripe_lower_limit
    stripe_upper_limit h_range min_points d_max fld progress_hook h = Ok (a, h')
  \/ compute_axes_approximate voxelated_cloud clust_stripe stripe_lower_limit
       stripe_upper_limit h_range min_points voxel_resolution d_max fld
       progress_hook h = Ok (a, h') ->
  length (dist_to_axis a) = length voxelated_cloud
  /\ length (tree_id_vector a) = length voxelated_cloud
  /\ length (detected_trees a)
     <= length (filter_counts (np_unique_counts col) min_points)
  /\ Forall (fun row => length row = 9) (detected_trees a).
Proof.
  intros Hcol [H|H].
  - apply exact_plain with (h0 := h) in H.
    unfold compute_axes_exact in H. rewrite Hcol in H. simpl in H.
    apply bind_ok in H as ([st h1] & Hloop & H). inversion H; subst. simpl.
    destruct (exact_loop_lengths HookState _ _ _ _ _ _ _ _ _ _ _ _ Hloop) as (L1 & L2).
    simpl in L1, L2. rewrite repeat_length in L1, L2.
    split; [exact L1|]. split; [exact L2|]. split.
    + etransitivity; [apply drop_zero_rows_length|].
      rewrite (exact_loop_tree_count HookState _ _ _ _ _ _ _ _ _ _ _ _ Hloop).
      simpl. now rewrite repeat_length.
    + apply Forall_forall. intros row Hrow. unfold drop_zero_rows in Hrow.
      apply filter_In in Hrow as [Hrow Hnz].
      destruct (exact_loop_trees HookState _ _ _ _ _ _ _ _ _ _ _ _ Hloop row Hrow)
        as [Hin|(i & stem & _ & Hf & ->)].
      * simpl in Hin. apply repeat_spec in Hin. subst. reflexivity.
      * exact (fit_stem_row_length _ _ _ _ _ Hf).
  - apply approximate_plain with (h0 := h) in H.
    unfold compute_axes_approximate in H. rewrite Hcol in H. simpl in H.
    apply bind_ok in H as (xyz & Hxyz & H).
    apply bind_ok in H as (bb_min & _ & H).
    apply bind_ok in H as (bb_max & _ & H).
    apply bind_ok in H as ([st h1] & Hloop & H).
    apply bind_ok in H as ([dist tids] & Has & H). inversion H; subst. simpl.
    apply assign_nearest_lengths in Has as (L1 & L2).
    apply mapM_length in Hxyz.
    split; [etransitivity; [exact L1|exact Hxyz]|].
    split; [etransitivity; [exact L2|exact Hxyz]|]. split.
    + etransitivity; [apply drop_zero_rows_length|].
      rewrite (approximate_loop_tree_count HookState _ _ _ _ _ _ _ _ _ _ _ _ _ Hloop).
      simpl. now rewrite repeat_length.
    + apply Forall_forall. intros row Hrow. unfold drop_zero_rows in Hrow.
      apply filter_In in Hrow as [Hrow Hnz].
      destruct (approximate_loop_trees HookState _ _ _ _ _ _ _ _ _ _ _ _ _
                  Hloop row Hrow) as [Hin|(i & stem & _ & Hf & ->)].
      * simpl in Hin. apply repeat_spec in Hin. subst. reflexivity.
      * exact (fit_stem_row_length _ _ _ _ _ Hf).
Qed.

(** The cloud of four points and the stem of cluster 1, by the approximate
    strategy. *)
Lemma axes_results_are_aligned_with_the_cloud_witness :
  (column stripe_one (tree_id_field canonical_fields) = Ok [1; 1; 1]%float
   /\ compute_axes_approximate (ext := reference) (HookState := unit)
        cloud_far stripe_one 0 1 1 2 1 1.5 canonical_fields None tt
      = Ok ({| detected_trees := [tree_row 1 0];
               dist_to_axis := [0; 1; 1.5; 1]%float;
               tree_id_vector := [1; 1; 1; 1]%float |}, tt))
  /\ length [0; 1; 1.5; 1]%float = length cloud_far
  /\ length [1; 1; 1; 1]%float = length cloud_far
  /\ (length [tree_row 1 0]
      <= length (filter_counts (np_unique_counts [1; 1; 1]%float) 2))%nat
  /\ Forall (fun row => length row = 9%nat) [tree_row 1 0].
Proof.
  assert (Hc : column stripe_one (tree_id_field canonical_fields) = Ok [1; 1; 1]%float)
    by reflexivity.
  assert (H : compute_axes_approximate (ext := reference) (HookState := unit)
                cloud_far stripe_one 0 1 1 2 1 1.5 canonical_fields None tt
              = Ok ({| detected_trees := [tree_row 1 0];
                       dist_to_axis := [0; 1; 1.5; 1]%float;
                       tree_id_vector := [1; 1; 1; 1]%float |}, tt))
    by (vm_compute; reflexivity).
  split; [split; [exact Hc|exact H]|].
  exact (axes_results_are_aligned_with_the_cloud unit _ _ _ _ _ _ _ _ _ _ _ _ _ _
           Hc (or_intror H)).
Defined.

(** X7.  On the same stripe, with the same limits and filters,
    [compute_axes_exact] and [compute_axes_approximate] return the same
    [detected_trees], whatever [d_max], the sampling step and the hook: the
    strategies differ in the distances and the tree ids only. *)
Theorem strategies_detect_the_same_trees
  {ext : Collaborators} (HookState : Type)
  (voxelated_cloud clust_stripe : Matrix)
  (stripe_lower_limit stripe_upper_limit h_range : float) (min_points : Z)
  (voxel_resolution d_max : float) (fld : Fields)
  (hook hook' : option (Hook HookState)) (h h' : HookState)
  (a a' : Axes) (h1 h2 : HookState) :
  compute_axes_exact voxelated_cloud clust_stripe stripe_lower_limit
    stripe_upper_limit h_range min_points d_max fld hook h = Ok (a, h1) ->
  compute_axes_approximate voxelated_cloud clust_stripe stripe_lower_limit
    stripe_upper_limit h_range min_points voxel_resolution d_max fld hook' h'
  = Ok (a', h2) ->
  detected_trees a = detected_trees a'.
Proof.
  intros He Ha. apply exact_plain with (h0 := h) in He.
  apply approximate_plain with (h0 := h') in Ha.
  unfold compute_axes_exact in He. unfold compute_axes_approximate in Ha.
  apply bind_ok in He as (col & Hcol & He). rewrite Hcol in Ha.
  simpl in He, Ha.
  apply bind_ok in He as ([st h3] & Hle & He).
  apply bind_ok in Ha as (xyz & _ & Ha).
  apply bind_ok in Ha as (bb_min & _ & Ha).
  apply bind_ok in Ha as (bb_max & _ & Ha).
  apply bind_ok in Ha as ([st' h4] & Hla & Ha).
  apply bind_ok in Ha as ([dist tids] & _ & Ha).
  inversion He; inversion Ha; subst; simpl. f_equal.
  eapply (loops_write_the_same_trees HookState);
    [| | exact Hle | exact Hla]; reflexivity.
Qed.

(** The same cloud and stem by both strategies: the distances and the tree
    ids differ, the detected tree does not. *)
Lemma strategies_detect_the_same_trees_witness :
  (compute_axes_exact (ext := reference) (HookState := unit)
     cloud_far stripe_one 0 1 1 2 1.5 canonical_fields None tt
   = Ok ({| detected_trees := [tree_row 1 0];
            dist_to_axis := [0; 0; 100000; 1]%float;
            tree_id_vector := [1; 1; 100000; 1]%float |}, tt)
   /\ compute_axes_approximate (ext := reference) (HookState := unit)
        cloud_far stripe_one 0 1 1 2 1 1.5 canonical_fields None tt
      = Ok ({| detected_trees := [tree_row 1 0];
               dist_to_axis := [0; 1; 1.5; 1]%float;
               tree_id_vector := [1; 1; 1; 1]%float |}, tt))
  /\ [tree_row 1 0] = [tree_row 1 0].
Proof.
  assert (He : compute_axes_exact (ext := reference) (HookState := unit)
                 cloud_far stripe_one 0 1 1 2 1.5 canonical_fields None tt
               = Ok ({| detected_trees := [tree_row 1 0];
                        dist_to_axis := [0; 0; 100000; 1]%float;
                        tree_id_vector := [1; 1; 100000; 1]%float |}, tt))
    by (vm_compute; reflexivity).
  assert (Ha : compute_axes_approximate (ext := reference) (HookState := unit)
                 cloud_far stripe_one 0 1 1 2 1 1.5 canonical_fields None tt
               = Ok ({| detected_trees := [tree_row 1 0];
                        dist_to_axis := [0; 1; 1.5; 1]%float;
                        tree_id_vector := [1; 1; 1; 1]%float |}, tt))
    by (vm_compute; reflexivity).
  split; [split; [exact He|exact Ha]|].
  exact (strategies_detect_the_same_trees unit _ _ _ _ _ _ _ _ _ _ _ _ _ _ _ _ _
           He Ha).
Defined.

(** X8.  A hook supplied to either strategy receives the calls [(0, n)],
    [(1, n)], ..., [(n, n)], in this order and no other, [n] being the number
    of clusters that pass the size filter: one call before the loop and one
    per candidate, whether its stem is kept or not. *)
Theorem progress_is_reported_for_every_candidate
  {ext : Collaborators} (HookState : Type)
  (voxelated_cloud clust_stripe : Matrix)
  (stripe_lower_limit stripe_upper_limit h_range : float) (min_points : Z)
  (voxel_resolution d_max : float) (fld : Fields)
  (hook : Hook HookState) (h : HookState)
  (col : Vec) (a : Axes) (h' : HookState) :
  column clust_stripe (tree_id_field fld) = Ok col ->
  compute_axes_exact voxelated_cloud clust_stripe stripe_lower_limit
    stripe_upper_limit h_range min_points d_max fld (Some hook) h = Ok (a, h')
  \/ compute_axes_approximate voxelated_cloud clust_stripe stripe_lower_limit
       stripe_upper_limit h_range min_points voxel_resolution d_max fld
       (Some hook) h = Ok (a, h') ->
  report (Some hook)
    (progress_calls (length (filter_counts (np_unique_counts col) min_points))) h
  = Ok h'.
Proof.
  intros Hcol [H|H].
  - exact (exact_calls HookState _ _ _ _ _ _ _ _ _ _ _ _ _ Hcol H).
  - exact (approximate_calls HookState _ _ _ _ _ _ _ _ _ _ _ _ _ _ Hcol H).
Qed.

(** Two candidate clusters and the recording hook: three calls. *)
Lemma progress_is_reported_for_every_candidate_witness :
  (column stripe_two (tree_id_field canonical_fields)
   = Ok [1; 1; 1; 2; 2; 2]%float
   /\ compute_axes_approximate (ext := reference)
        cloud_far stripe_two 0 1 1 2 1 1.5 canonical_fields (Some log_hook) []
      = Ok ({| detected_trees := [tree_row 1 0; [2; 0; 0; 1; 2; 0; 1; 0; 0]%float];
               dist_to_axis := [0; 1; 1.5; 1]%float;
               tree_id_vector := [1; 1; 2; 1]%float |},
            [(2, 2); (1, 2); (0, 2)]%nat))
  /\ report (Some log_hook)
       (progress_calls
          (length (filter_counts (np_unique_counts [1; 1; 1; 2; 2; 2]%float) 2)))
       []
     = Ok [(2, 2); (1, 2); (0, 2)]%nat.
Proof.
  assert (Hc : column stripe_two (tree_id_field canonical_fields)
               = Ok [1; 1; 1; 2; 2; 2]%float) by reflexivity.
  assert (H : compute_axes_approximate (ext := reference)
                cloud_far stripe_two 0 1 1 2 1 1.5 canonical_fields
                (Some log_hook) []
              = Ok ({| detected_trees :=
                         [tree_row 1 0; [2; 0; 0; 1; 2; 0; 1; 0; 0]%float];
                       dist_to_axis := [0; 1; 1.5; 1]%float;
                       tree_id_vector := [1; 1; 2; 1]%float |},
                    [(2, 2); (1, 2); (0, 2)]%nat))
    by (vm_compute; reflexivity).
  split; [split; [exact Hc|exact H]|].
  exact (progress_is_reported_for_every_candidate _ _ _ _ _ _ _ _ _ _ _ _ _ _ _
           Hc (or_intror H)).
Defined.

(** ** Stems without a vertical component *)

Section FlatAxis.

Open Scope float_scope.

(** The product of a finite number and a zero is a zero. *)
Lemma finite_classes (x : float) :
  finite x ->
  (exists s, Prim2SF x = S754_zero s) \/ (exists s m e, Prim2SF x = S754_finite s m e).
Proof.
  unfold finite. rewrite ltb_spec, abs_spec.
  change (Prim2SF infinity) with (S754_infinity false).
  destruct (Prim2SF x) as [s|s| |s m e]; simpl; try discriminate; eauto.
Qed.

Lemma mul_finite_zero (x y : float) (sy : bool) :
  finite x -> Prim2SF y = S754_zero sy -> exists s, Prim2SF (x * y) = S754_zero s.
Proof.
  intros Hx Hy. rewrite mul_spec, Hy.
  destruct (finite_classes x Hx) as [(s & ->)|(s & m & e & ->)]; simpl; eauto.
Qed.

Lemma add_zero_zero (x y : float) (sx sy : bool) :
  Prim2SF x = S754_zero sx -> Prim2SF y = S754_zero sy ->
  exists s, Prim2SF (x + y) = S754_zero s.
Proof.
  intros Hx Hy. rewrite add_spec, Hx, Hy. simpl.
  destruct sx, sy; simpl; eauto.
Qed.

Lemma abs_of_zero (x : float) (s : bool) : Prim2SF x = S754_zero s -> abs x = 0.
Proof.
  intros Hx. rewrite <- (SF2Prim_Prim2SF (abs x)), abs_spec, Hx. reflexivity.
Qed.

(** An axis without a vertical component is orthogonal to the normals of the
    two horizontal planes. *)
Lemma flat_axis_dot (vx vy vz nz : float) :
  finite vx -> finite vy -> (vz =? 0) = true -> finite nz ->
  abs (np_dot (vx, vy, vz) (0, 0, nz)) = 0.
Proof.
  intros Hx Hy Hz Hn. unfold np_dot.
  destruct (mul_finite_zero vx 0 false Hx eq_refl) as (s1 & E1).
  destruct (mul_finite_zero vy 0 false Hy eq_refl) as (s2 & E2).
  destruct (add_zero_zero _ _ _ _ E1 E2) as (s3 & E3).
  assert (exists s, Prim2SF (vz * nz) = S754_zero s) as (s4 & E4).
  { rewrite mul_spec.
    destruct (finite_classes nz Hn) as [(s & ->)|(s & m & e & ->)];
      destruct (eqb_zero _ Hz) as [-> | ->]; simpl; eauto. }
  destruct (add_zero_zero _ _ _ _ E3 E4) as (s5 & E5).
  exact (abs_of_zero _ _ E5).
Qed.

Lemma flat_axis_bb_inter (axis_pos tp_pos bp_pos : Vec3) (vx vy vz : float) :
  finite vx -> finite vy -> (vz =? 0) = true ->
  _axis_bb_inter axis_pos (vx, vy, vz) tp_pos bp_pos = Raise RuntimeError.
Proof.
  intros Hx Hy Hz. unfold _axis_bb_inter, _vector_plane_intersection.
  rewrite (flat_axis_dot vx vy vz (-1) Hx Hy Hz eq_refl).
  reflexivity.
Qed.

End FlatAxis.

Section Stops.

Context {ext : Collaborators}.
Variable HookState : Type.

Open Scope float_scope.

Lemma for_each_raises {S A : Type}
  (body : S -> A -> HookState -> Result (S * HookState)) (a : A) :
  (forall st h, raises (body st a h)) ->
  forall l, In a l -> forall st h, raises (for_each body l st h).
Proof.
  intros Hb. induction l as [|x l IH]; simpl; intros Hin st h; [contradiction|].
  destruct Hin as [->|Hin].
  - destruct (Hb st h) as (e & ->). now exists e.
  - destruct (body st x h) as [[st1 h1]|e]; simpl; [|now exists e].
    now apply IH.
Qed.

Lemma flat_stem_body stripe hrv step bb_max bb_min fld hook n st i
  (h : HookState) stem vx vy vz pc2 pc3 :
  fit_stem stripe fld hrv i = Ok (Some stem) ->
  components_ (stem_pca stem) = (vx, vy, vz, pc2, pc3) ->
  finite vx -> finite vy -> (vz =? 0) = true ->
  approximate_body stripe hrv step bb_max bb_min fld hook n st i h
  = Raise RuntimeError.
Proof.
  intros Hfit Hc Hx Hy Hz. unfold approximate_body. rewrite Hfit. simpl.
  rewrite Hc. unfold sample_axis.
  rewrite (flat_axis_bb_inter _ _ _ vx vy vz Hx Hy Hz). reflexivity.
Qed.

Lemma flat_stem_approximate voxelated_cloud clust_stripe
  stripe_lower_limit stripe_upper_limit h_range min_points voxel_resolution d_max
  fld hook (h : HookState) col i stem vx vy vz pc2 pc3 :
  column clust_stripe (tree_id_field fld) = Ok col ->
  In i (filter_counts (np_unique_counts col) min_points) ->
  fit_stem clust_stripe fld ((stripe_upper_limit - stripe_lower_limit) * h_range) i
  = Ok (Some stem) ->
  components_ (stem_pca stem) = (vx, vy, vz, pc2, pc3) ->
  finite vx -> finite vy -> (vz =? 0) = true ->
  raises (compute_axes_approximate voxelated_cloud clust_stripe stripe_lower_limit
            stripe_upper_limit h_range min_points voxel_resolution d_max fld hook h).
Proof.
  intros Hcol Hin Hfit Hc Hx Hy Hz. unfold compute_axes_approximate.
  rewrite Hcol. simpl.
  destruct (columns voxelated_cloud _) as [xyz|e]; simpl; [|now exists e].
  destruct (np_min0 3 xyz) as [bb_min|e]; simpl; [|now exists e].
  destruct (np_max0 3 xyz) as [bb_max|e]; simpl; [|now exists e].
  destruct (call_hook hook 0 _ h) as [h0|e]; simpl; [|now exists e].
  match goal with
  | |- raises (bind (for_each ?b ?l ?s ?x) _) =>
      assert (Hb : forall st h1, raises (b st i h1))
        by (intros st h1; exists RuntimeError; eapply flat_stem_body; eauto);
      destruct (for_each_raises b i Hb l Hin s x) as (e & ->)
  end.
  now exists e.
Qed.

End Stops.

(** X9.  A candidate stem whose fitted axis has no vertical component
    ([vz] a zero of either sign, [vx] and [vy] finite) meets neither
    bounding plane, and [_axis_bb_inter] raises (line 309).  So
    [compute_axes_approximate] raises whenever such a stem is among the
    clusters that pass both filters, and [individualize_trees] with it. *)
Theorem level_stem_stops_the_approximate_strategy
  {ext : Collaborators} (HookState : Type)
  (cloud voxelated_cloud clust_stripe : Matrix)
  (resolution_z resolution_xy stripe_lower_limit stripe_upper_limit h_range
   d_max : float) (min_points : Z) (d max_dev resolution_heights : float)
  (n_digits : Z) (fld : Fields) (progress_hook : option (Hook HookState))
  (h : HookState) (col : Vec) (i : float) (stem : Stem)
  (vx vy vz : float) (pc2 pc3 : Vec3) :
  column clust_stripe (tree_id_field fld) = Ok col ->
  In i (filter_counts (np_unique_counts col) min_points) ->
  fit_stem clust_stripe fld
    ((stripe_upper_limit - stripe_lower_limit) * h_range)%float i
  = Ok (Some stem) ->
  components_ (stem_pca stem) = (vx, vy, vz, pc2, pc3) ->
  finite vx -> finite vy -> (vz =? 0)%float = true ->
  raises (compute_axes_approximate voxelated_cloud clust_stripe stripe_lower_limit
            stripe_upper_limit h_range min_points resolution_xy d_max fld
            progress_hook h)
  /\ raises (individualize_trees cloud clust_stripe resolution_z
               resolution_xy stripe_lower_limit stripe_upper_limit h_range d_max
               min_points d max_dev resolution_heights n_digits fld
               progress_hook h).
Proof.
  intros Hcol Hin Hfit Hc Hx Hy Hz. split.
  - eapply flat_stem_approximate; eauto.
  - unfold individualize_trees.
    destruct (voxelate cloud _ _ _ _ _ _) as [[vc ind]|e]; simpl; [|now exists e].
    destruct (flat_stem_approximate HookState vc clust_stripe stripe_lower_limit
                stripe_upper_limit h_range min_points resolution_xy d_max fld
                progress_hook h col i stem vx vy vz pc2 pc3
                Hcol Hin Hfit Hc Hx Hy Hz) as (e & ->).
    now exists e.
Qed.

(** A stem lying along the x axis: cluster 1 of [stripe_level]. *)
Lemma level_stem_stops_the_approximate_strategy_witness :
  (column stripe_level (tree_id_field canonical_fields) = Ok [1; 1; 1; 1]%float
   /\ In 1%float (filter_counts (np_unique_counts [1; 1; 1; 1]%float) 2)
   /\ fit_stem (ext := level) stripe_level canonical_fields ((1 - 0) * 1)%float 1
      = Ok (Some {| stem_row := [1; 1; 0; 0; 0; 0; 1; 0; 90]%float;
                    stem_pca := {| components_ := ((1, 0, 0), (0, 1, 0), (0, 0, 1))%float;
                                   mean_ := (0, 0, 1)%float |};
                    stem_centroid := (0, 0, 1)%float |})
   /\ finite 1 /\ finite 0 /\ (0 =? 0)%float = true)
  /\ raises (compute_axes_approximate (ext := level) (HookState := unit)
               cloud_far stripe_level 0 1 1 2 1 1.5 canonical_fields None tt)
  /\ raises (individualize_trees (ext := level) (HookState := unit)
               cloud_far stripe_level 1 1 0 1 1 1.5 2 15 25 1 5
               canonical_fields None tt).
Proof.
  assert (Hc : column stripe_level (tree_id_field canonical_fields)
               = Ok [1; 1; 1; 1]%float) by reflexivity.
  assert (Hin : In 1%float (filter_counts (np_unique_counts [1; 1; 1; 1]%float) 2))
    by (vm_compute; auto).
  assert (Hf : fit_stem (ext := level) stripe_level canonical_fields
                 ((1 - 0) * 1)%float 1
               = Ok (Some {| stem_row := [1; 1; 0; 0; 0; 0; 1; 0; 90]%float;
                             stem_pca :=
                               {| components_ := ((1, 0, 0), (0, 1, 0), (0, 0, 1))%float;
                                  mean_ := (0, 0, 1)%float |};
                             stem_centroid := (0, 0, 1)%float |}))
    by (vm_compute; reflexivity).
  split; [repeat split; try assumption; reflexivity|].
  exact (level_stem_stops_the_approximate_strategy (ext := level) unit
           cloud_far cloud_far stripe_level 1 1 0 1 1 1.5 2 15 25 1 5
           canonical_fields None tt _ _ _ _ _ _ _ _ Hc Hin Hf eq_refl
           eq_refl eq_refl eq_refl).
Defined.

(** ** The deviation recorded for a level stem *)

Section Recorded.

Context {ext : Collaborators}.
Variable HookState : Type.

Open Scope float_scope.







End Recorded.



(** ** The highest point of a tree *)

Section Selections.

Open Scope float_scope.

Lemma nan_not_below (x y : float) : is_nan x = true -> (x <? y) = false.
Proof.
  unfold is_nan. rewrite eqb_spec, ltb_spec. unfold SFeqb, SFltb.
  destruct (Prim2SF x) as [s|s| |s m e]; simpl; try reflexivity.
  - destruct s; discriminate.
  - destruct s; discriminate.
  - change (Pos.compare_cont Eq m m) with (Pos.compare m m).
    rewrite Z.compare_refl, Pos.compare_refl. destruct s; discriminate.
Qed.

(** [np.argmax]: the entry at the index returned is below no entry. *)
Lemma argmax_from_max :
  forall v pre best bv,
  nth_error pre best = Some bv ->
  (forall e, In e pre -> (bv <? e) = false) ->
  exists zr, nth_error (pre ++ v) (argmax_from best bv (length pre) v) = Some zr
             /\ forall e, In e (pre ++ v) -> (zr <? e) = false.
Proof.
  induction v as [|x v IH]; simpl; intros pre best bv Hb Hmax.
  - rewrite app_nil_r. eauto.
  - replace (pre ++ x :: v) with ((pre ++ [x]) ++ v) by now rewrite <- app_assoc.
    replace (S (length pre)) with (length (pre ++ [x]))
      by (rewrite length_app; simpl; lia).
    destruct ((is_nan x && negb (is_nan bv)) || (bv <? x)) eqn:C.
    + apply IH.
      * now rewrite nth_error_app2, Nat.sub_diag by lia.
      * intros e He. apply in_app_or in He as [He|[<-|[]]]; [|apply ltb_irrefl].
        apply orb_true_iff in C as [C|C].
        -- apply andb_true_iff in C as [C _]. now apply nan_not_below.
        -- destruct (x <? e) eqn:E; [|reflexivity].
           rewrite <- (Hmax e He). symmetry. exact (ltb_trans _ _ _ C E).
    + apply IH.
      * rewrite nth_error_app1; [exact Hb|]. apply nth_error_Some. congruence.
      * intros e He. apply in_app_or in He as [He|[<-|[]]]; [now apply Hmax|].
        now apply orb_false_iff in C as [_ C].
Qed.

Lemma np_argmax_max (v : Vec) (k : nat) :
  np_argmax v = Ok k ->
  exists zk, nth_error v k = Some zk /\ forall e, In e v -> (zk <? e) = false.
Proof.
  destruct v as [|x v]; simpl; [discriminate|]. intros H. inversion H; subst.
  apply (argmax_from_max v [x] O x); [reflexivity|].
  intros e [<-|[]]. apply ltb_irrefl.
Qed.

Lemma boolean_index_in {A : Type} :
  forall (a : list A) mask r x,
  boolean_index a mask = Ok r -> In x r ->
  exists k, nth_error a k = Some x /\ nth_error mask k = Some true.
Proof.
  induction a as [|y a IH]; intros [|b mask] r x H Hin; simpl in H;
    try discriminate.
  - inversion H; subst. contradiction.
  - apply bind_ok in H as (r' & Hr & H). inversion H; subst.
    destruct b.
    + destruct Hin as [<-|Hin]; [now exists O|].
      destruct (IH _ _ _ Hr Hin) as (k & ? & ?). now exists (S k).
    + destruct (IH _ _ _ Hr Hin) as (k & ? & ?). now exists (S k).
Qed.

Lemma boolean_index_keeps {A : Type} :
  forall (a : list A) mask r k x,
  boolean_index a mask = Ok r ->
  nth_error a k = Some x -> nth_error mask k = Some true -> In x r.
Proof.
  induction a as [|y a IH]; intros [|b mask] r k x H Ha Hm; simpl in H;
    try discriminate.
  - destruct k; discriminate.
  - apply bind_ok in H as (r' & Hr & H). inversion H; subst.
    destruct k as [|k]; simpl in Ha, Hm.
    + inversion Ha; inversion Hm; subst. now left.
    + pose proof (IH _ _ _ _ Hr Ha Hm). destruct b; [now right|assumption].
Qed.

Lemma item_nat_inv {A : Type} (l : list A) (i : nat) (x : A) :
  item l (Z.of_nat i) = Ok x -> nth_error l i = Some x.
Proof.
  unfold item, norm_index.
  destruct ((0 <=? Z.of_nat i)%Z && (Z.of_nat i <? Z.of_nat (length l))%Z).
  - simpl. rewrite Nat2Z.id. destruct (nth_error l i); [congruence|discriminate].
  - replace (Z.of_nat i <? 0)%Z with false by (symmetry; apply Z.ltb_ge; lia).
    discriminate.
Qed.

Lemma mapM_in {A B : Type} (f : A -> Result B) :
  forall l bs, mapM f l = Ok bs ->
  forall a, In a l -> exists b, In b bs /\ f a = Ok b.
Proof.
  intros l bs H a Hin. apply In_nth_error in Hin as (k & Hk).
  destruct (mapM_nth f l bs H k a Hk) as (b & Hb & Hf).
  exists b. split; [now apply nth_error_In in Hb|exact Hf].
Qed.

End Selections.

Section Highest.

Context {ext : Collaborators}.

Open Scope float_scope.

(** The row [tree_height] writes for tree [i]: the first three fields of a
    point of the cloud carrying the tree's id, below which no other such point
    lies; the height of that point above the stem's offset; the flag. *)
Lemma tree_height_highest cloud detected max_dev i tree row :
  nth_error detected i = Some tree ->
  tree_height cloud detected max_dev i = Ok row ->
  exists valid_id offset dev point z,
    item tree 0 = Ok valid_id /\ item tree 7 = Ok offset /\ item tree (-1) = Ok dev
    /\ In point cloud
    /\ (exists t, item point (-1) = Ok t /\ (t =? valid_id) = true)
    /\ nth_error point 2 = Some z
    /\ row = firstn 3 point ++ [z - offset; if max_dev <? dev then 0 else 1]
    /\ forall p t z', In p cloud -> item p (-1) = Ok t -> (t =? valid_id) = true ->
         nth_error p 2 = Some z' -> (z <? z') = false.
Proof.
  intros Ht H. unfold tree_height, Matrix, Vec in *.
  rewrite (item_of_nat _ _ _ Ht) in H. cbn [bind] in H.
  apply bind_ok in H as (valid_id & Hid & H).
  apply bind_ok in H as (ids & Hids & H).
  apply bind_ok in H as (rows & Hrows & H).
  apply bind_ok in H as (zs & Hzs & H).
  apply bind_ok in H as (k & Hk & H).
  apply bind_ok in H as (hp & Hhp & H).
  apply bind_ok in H as (z & Hz & H).
  apply bind_ok in H as (offset & Hoff & H).
  apply bind_ok in H as (dev & Hdev & H).
  injection H as <-.
  apply item_nat_inv in Hhp. rewrite nth_error_map in Hhp.
  destruct (nth_error rows k) as [point|] eqn:Hpoint; [|discriminate].
  cbn [option_map] in Hhp.
  assert (Ehp : hp = firstn 3 point) by congruence. clear Hhp. subst hp.
  pose proof Hz as Hz2. change 2%Z with (Z.of_nat 2) in Hz2.
  apply item_nat_inv in Hz2. rewrite nth_error_firstn in Hz2.
  change (Nat.ltb 2 3) with true in Hz2. cbv iota in Hz2.
  destruct (np_argmax_max _ _ Hk) as (zk & Hzk & Hmax).
  assert (Hsel : nth_error (map (firstn 3) rows) k = Some (firstn 3 point))
    by now rewrite nth_error_map, Hpoint.
  destruct (mapM_nth _ _ _ Hzs k _ Hsel) as (z0 & Hz0 & Hi0). cbv beta in Hi0.
  assert (z0 = z) by congruence. assert (zk = z) by congruence. subst z0 zk.
  destruct (boolean_index_in _ _ _ point Hrows (nth_error_In _ _ Hpoint))
    as (j & Hj & Hmask).
  rewrite nth_error_map in Hmask.
  destruct (mapM_nth _ _ _ Hids j _ Hj) as (t & Ht' & Hit). cbv beta in Hit.
  rewrite Ht' in Hmask. simpl in Hmask. inversion Hmask as [Hm].
  exists valid_id, offset, dev, point, z.
  repeat split; try assumption.
  - now apply nth_error_In in Hj.
  - eauto.
  - intros p t' z' Hp Hpt Hpm Hpz.
    apply In_nth_error in Hp as (j' & Hj').
    destruct (mapM_nth _ _ _ Hids j' _ Hj') as (t2 & Ht2 & Hit2). cbv beta in Hit2.
    assert (t2 = t') by congruence. subst t2.
    assert (Hin : In p rows).
    { apply (boolean_index_keeps _ _ _ j' p Hrows Hj').
      now rewrite nth_error_map, Ht2; simpl; rewrite Hpm. }
    assert (Hin3 : In (firstn 3 p) (map (firstn 3) rows)) by now apply in_map.
    destruct (mapM_in _ _ _ Hzs _ Hin3) as (z2 & Hz2in & Hz2i). cbv beta in Hz2i.
    change 2%Z with (Z.of_nat 2) in Hz2i. apply item_nat_inv in Hz2i.
    rewrite nth_error_firstn in Hz2i.
    change (Nat.ltb 2 3) with true in Hz2i. cbv iota in Hz2i.
    assert (z2 = z') by congruence. subst z2. now apply Hmax.
Qed.

End Highest.

(** X10.  Each row [compute_heights] returns is read off one surviving
    point that carries the tree's id (the first entry of the tree's row):
    the first three fields of that point, then its third field less the
    offset stored at index 7 of the tree's row, then the flag; and no
    surviving point with the same id has a larger third field. *)
Theorem height_is_taken_at_the_highest_survivor
  {ext : Collaborators} (voxelated_cloud detected : Matrix)
  (dist tree_ids : Vec) (d max_dev resolution_heights : float) (n_digits : Z)
  (X Y Z_ : Z) (heights : Matrix) :
  compute_heights voxelated_cloud detected dist tree_ids d max_dev
                  resolution_heights n_digits X Y Z_ = Ok heights ->
  exists cloud,
    surviving_cloud voxelated_cloud dist tree_ids d resolution_heights
                    n_digits X Y Z_ = Ok cloud
    /\ forall i tree, nth_error detected i = Some tree ->
       exists row valid_id offset dev point z,
         nth_error heights i = Some row
         /\ item tree 0 = Ok valid_id /\ item tree 7 = Ok offset
         /\ item tree (-1) = Ok dev
         /\ In point cloud
         /\ (exists t, item point (-1) = Ok t /\ (t =? valid_id)%float = true)
         /\ nth_error point 2 = Some z
         /\ row = firstn 3 point
                 ++ [(z - offset)%float;
                     if (max_dev <? dev)%float then 0%float else 1%float]
         /\ forall p t z', In p cloud -> item p (-1) = Ok t ->
              (t =? valid_id)%float = true -> nth_error p 2 = Some z' ->
              (z <? z')%float = false.
Proof.
  unfold compute_heights. intros H.
  apply bind_ok in H as (cloud & Hc & H). exists cloud. split; [exact Hc|].
  intros i tree Ht.
  assert (Hi : nth_error (seq 0 (length detected)) i = Some i).
  { rewrite nth_error_seq.
    assert (i < length detected)%nat by (apply nth_error_Some; congruence).
    destruct (Nat.ltb_spec i (length detected)); [reflexivity|lia]. }
  destruct (mapM_nth _ _ _ H i i Hi) as (row & Hrow & Hth).
  destruct (tree_height_highest _ _ _ _ _ _ Ht Hth)
    as (valid_id & offset & dev & point & z & H0 & H7 & Hd & Hin & Htag & Hz & E & Hmax).
  exists row, valid_id, offset, dev, point, z.
  repeat split; assumption.
Qed.

(** The crown of four voxels: the height is read at the last one, the
    highest, not at the second, which has the largest [y]. *)
Lemma height_is_taken_at_the_highest_survivor_witness :
  compute_heights (ext := reference) cloud_crown [tree_row 1 25]
    [0; 0; 0; 0]%float [1; 1; 1; 1]%float 15 25 1 5 0 1 2
  = Ok [[0; 0; 3; 3; 1]]%float
  /\ exists cloud,
       surviving_cloud (ext := reference) cloud_crown [0; 0; 0; 0]%float
         [1; 1; 1; 1]%float 15 1 5 0 1 2 = Ok cloud
       /\ forall i tree, nth_error [tree_row 1 25] i = Some tree ->
          exists row valid_id offset dev point z,
            nth_error [[0; 0; 3; 3; 1]]%float i = Some row
            /\ item tree 0 = Ok valid_id /\ item tree 7 = Ok offset
            /\ item tree (-1) = Ok dev
            /\ In point cloud
            /\ (exists t, item point (-1) = Ok t /\ (t =? valid_id)%float = true)
            /\ nth_error point 2 = Some z
            /\ row = firstn 3 point
                       ++ [(z - offset)%float;
                           if (25 <? dev)%float then 0%float else 1%float]
            /\ forall p t z', In p cloud -> item p (-1) = Ok t ->
                 (t =? valid_id)%float = true -> nth_error p 2 = Some z' ->
                 (z <? z')%float = false.
Proof.
  assert (H : compute_heights (ext := reference) cloud_crown [tree_row 1 25]
                [0; 0; 0; 0]%float [1; 1; 1; 1]%float 15 25 1 5 0 1 2
              = Ok [[0; 0; 3; 3; 1]]%float)
    by (vm_compute; reflexivity).
  split; [exact H|].
  exact (height_is_taken_at_the_highest_survivor _ _ _ _ _ _ _ _ _ _ _ _ H).
Defined.

(** ** The points the heights are measured on *)

Section Columns.

Open Scope float_scope.

Lemma append_column_length :
  forall m c r, append_column m c = Ok r ->
  length c = length m /\ length r = length m.
Proof.
  induction m as [|row m IH]; intros [|x c] r H; simpl in H; try discriminate.
  - now inversion H.
  - apply bind_ok in H as (r' & Hr & H). inversion H; subst.
    destruct (IH _ _ Hr). simpl. lia.
Qed.

Lemma append_column_nth :
  forall m c r, append_column m c = Ok r ->
  forall k row x, nth_error m k = Some row -> nth_error c k = Some x ->
  nth_error r k = Some (row ++ [x]).
Proof.
  induction m as [|row0 m IH]; intros [|x0 c] r H k row x Hm Hc; simpl in H;
    try discriminate.
  - destruct k; discriminate.
  - apply bind_ok in H as (r' & Hr & H). inversion H; subst.
    destruct k as [|k]; simpl in *.
    + now inversion Hm; inversion Hc.
    + eauto.
Qed.

Lemma append_column_row :
  forall m c r, append_column m c = Ok r ->
  forall k p, nth_error r k = Some p ->
  exists row x, nth_error m k = Some row /\ nth_error c k = Some x /\ p = row ++ [x].
Proof.
  intros m c r H k p Hp.
  destruct (append_column_length _ _ _ H) as (Lc & Lr).
  assert (Hk : (k < length r)%nat) by (apply nth_error_Some; congruence).
  destruct (nth_error_defined m k) as (row & Hrow); [lia|].
  destruct (nth_error_defined c k) as (x & Hx); [lia|].
  exists row, x. repeat split; try assumption.
  pose proof (append_column_nth _ _ _ H _ _ _ Hrow Hx). congruence.
Qed.

Lemma take_nth {A : Type} (a : list A) (indexes : list nat) (r : list A) :
  take a indexes = Ok r ->
  forall k v, nth_error indexes k = Some v ->
  exists x, nth_error r k = Some x /\ nth_error a v = Some x.
Proof.
  intros H k v Hk. destruct (mapM_nth _ _ _ H k v Hk) as (x & Hx & Hf).
  exists x. split; [exact Hx|].
  destruct (nth_error a v); [congruence|discriminate].
Qed.

Lemma take_length {A : Type} (a : list A) (indexes : list nat) (r : list A) :
  take a indexes = Ok r -> length r = length indexes.
Proof. apply mapM_length. Qed.

Lemma item_second_last {A : Type} (l : list A) (x y : A) :
  item ((l ++ [x]) ++ [y]) (-2) = Ok x.
Proof.
  unfold item, norm_index. rewrite !length_app.
  change ((0 <=? -2)%Z) with false. change ((-2 <? 0)%Z) with true.
  assert (E : (- Z.of_nat (length l + length [x] + length [y]) <=? -2)%Z = true)
    by (apply Z.leb_le; simpl; lia).
  rewrite E. cbn [andb bind].
  replace (Z.to_nat (Z.of_nat (length l + length [x] + length [y]) + -2))
    with (length l) by (simpl; lia).
  rewrite <- app_assoc.
  now rewrite nth_error_app2, Nat.sub_diag by lia.
Qed.

End Columns.

(** X11.  The points that take part in the height measurement (lines
    538-577) are exactly the points of the voxelated cloud whose distance to
    the axis is below [d] and whose large voxel has a label that counts more
    than 3 large voxels and is not the noise label -1; each is the input row
    followed by the cluster label and the tree id. *)
Theorem survivors_pass_both_filters
  {ext : Collaborators} (voxelated_cloud : Matrix) (dist tree_ids : Vec)
  (d resolution_heights : float) (n_digits : Z) (X Y Z_ : Z)
  (large_voxels_cloud : Matrix) (large_vox_to_cloud_ind : list nat)
  (labels_ : list Z) (cloud : Matrix) :
  voxelate voxelated_cloud resolution_heights resolution_heights n_digits X Y Z_
  = Ok (large_voxels_cloud, large_vox_to_cloud_ind) ->
  DBSCAN_labels (resolution_heights * eps_factor)%float 2 large_voxels_cloud
  = Ok labels_ ->
  surviving_cloud voxelated_cloud dist tree_ids d resolution_heights
                  n_digits X Y Z_ = Ok cloud ->
  forall p, In p cloud <->
    exists k row t dk v l c cnt,
      nth_error voxelated_cloud k = Some row
      /\ nth_error tree_ids k = Some t
      /\ nth_error dist k = Some dk
      /\ nth_error large_vox_to_cloud_ind k = Some v
      /\ nth_error labels_ v = Some l
      /\ p = (row ++ [float_of_Z l]) ++ [t]
      /\ (dk <? d)%float = true
      /\ In (c, cnt) (np_unique_counts_Z labels_)
      /\ (3 < cnt)%nat /\ c <> (-1)%Z
      /\ (float_of_Z l =? float_of_Z c)%float = true.
Proof.
  intros Hv Hl H. unfold surviving_cloud in H. rewrite Hv in H. cbn [bind] in H.
  rewrite Hl in H. cbn [bind] in H.
  apply bind_ok in H as (fine & Hfine & H).
  apply bind_ok in H as (cloud1 & H1 & H).
  apply bind_ok in H as (cloud2 & H2 & H).
  apply bind_ok in H as (cloud3 & H3 & H).
  apply bind_ok in H as (labs & Hlabs & H4).
  assert (Hlarge : forall c,
            In c (map fst (filter (fun ck => (3 <? snd ck)%nat && negb (fst ck =? -1)%Z)
                                  (np_unique_counts_Z labels_)))
            <-> exists cnt, In (c, cnt) (np_unique_counts_Z labels_)
                            /\ (3 < cnt)%nat /\ c <> (-1)%Z).
  { intros c. rewrite in_map_iff. split.
    - intros ([c' cnt] & <- & Hin). apply filter_In in Hin as (Hin & Hf).
      apply andb_true_iff in Hf as (Hc & Hn). simpl in *.
      exists cnt. repeat split; [exact Hin|now apply Nat.ltb_lt|].
      intros ->. discriminate.
    - intros (cnt & Hin & Hc & Hn). exists (c, cnt). split; [reflexivity|].
      apply filter_In. split; [exact Hin|]. simpl.
      apply andb_true_iff. split; [now apply Nat.ltb_lt|].
      apply negb_true_iff. now apply Z.eqb_neq. }
  intros p. split.
  - intros Hp.
    destruct (boolean_index_in _ _ _ p H4 Hp) as (j & Hj & Hmj).
    destruct (boolean_index_in _ _ _ p H3 (nth_error_In _ _ Hj)) as (k & Hk & Hmk).
    rewrite nth_error_map in Hmk.
    destruct (nth_error dist k) as [dk|] eqn:Hdk; [|discriminate].
    cbn [option_map] in Hmk.
    destruct (append_column_row _ _ _ H2 _ _ Hk) as (p1 & t & Hp1 & Ht & ->).
    destruct (append_column_row _ _ _ H1 _ _ Hp1) as (row & fl & Hrow & Hfl & ->).
    rewrite nth_error_map in Hfl.
    destruct (nth_error fine k) as [l|] eqn:Hfk; [|discriminate].
    cbn [option_map] in Hfl.
    assert (Efl : fl = float_of_Z l) by congruence. subst fl.
    destruct (nth_error_defined large_vox_to_cloud_ind k) as (v & Hvk).
    { rewrite <- (take_length _ _ _ Hfine). apply nth_error_Some. congruence. }
    destruct (take_nth _ _ _ Hfine _ _ Hvk) as (l' & Hl' & Hlv).
    assert (l' = l) by congruence. subst l'.
    rewrite nth_error_map in Hmj.
    destruct (mapM_nth _ _ _ Hlabs j _ Hj) as (lab & Hlab & Hitem).
    cbv beta in Hitem. rewrite item_second_last in Hitem.
    assert (Elab : lab = float_of_Z l) by congruence. subst lab.
    rewrite Hlab in Hmj. cbn [option_map] in Hmj.
    assert (Hex : existsb (fun c => (float_of_Z l =? float_of_Z c)%float)
                    (map fst (filter (fun ck => (3 <? snd ck)%nat && negb (fst ck =? -1)%Z)
                                     (np_unique_counts_Z labels_))) = true)
      by congruence.
    apply existsb_exists in Hex as (c & Hc & Heq).
    apply Hlarge in Hc as (cnt & Hin & Hcnt & Hne).
    exists k, row, t, dk, v, l, c, cnt.
    repeat split; try assumption. congruence.
  - intros (k & row & t & dk & v & l & c & cnt & Hrow & Ht & Hdk & Hvk & Hlv & -> &
            Hd & Hin & Hcnt & Hne & Heq).
    destruct (take_nth _ _ _ Hfine _ _ Hvk) as (l' & Hl' & Hlv').
    assert (l' = l) by congruence. subst l'.
    assert (Hfl : nth_error (map float_of_Z fine) k = Some (float_of_Z l))
      by now rewrite nth_error_map, Hl'.
    pose proof (append_column_nth _ _ _ H1 _ _ _ Hrow Hfl) as Hp1.
    pose proof (append_column_nth _ _ _ H2 _ _ _ Hp1 Ht) as Hp2.
    assert (Hin3 : In ((row ++ [float_of_Z l]) ++ [t]) cloud3).
    { apply (boolean_index_keeps _ _ _ k _ H3 Hp2).
      now rewrite nth_error_map, Hdk; cbn [option_map]; rewrite Hd. }
    apply In_nth_error in Hin3 as (j & Hj).
    destruct (mapM_nth _ _ _ Hlabs j _ Hj) as (lab & Hlab & Hitem).
    cbv beta in Hitem. rewrite item_second_last in Hitem.
    assert (Elab : lab = float_of_Z l) by congruence. subst lab.
    apply (boolean_index_keeps _ _ _ j _ H4 Hj).
    rewrite nth_error_map, Hlab. cbn [option_map]. f_equal.
    apply existsb_exists. exists c. split; [|exact Heq].
    apply Hlarge. eauto.
Qed.

(** The crown with its third voxel 20 units from the axis and [d = 15]: the
    last voxel survives, as row 3 of the cloud. *)
Lemma survivors_pass_both_filters_witness :
  (voxelate (Collaborators := reference) cloud_crown 1 1 5 0 1 2
   = Ok (cloud_crown, [0; 1; 2; 3]%nat)
   /\ DBSCAN_labels (Collaborators := reference) (1 * eps_factor) 2 cloud_crown
      = Ok [0; 0; 0; 0]%Z
   /\ surviving_cloud (ext := reference) cloud_crown [0; 0; 20; 0]%float
        [1; 1; 1; 1]%float 15 1 5 0 1 2
      = Ok [[0; 0; 0; 0; 0; 1]; [0; 1; 1; 1; 0; 1]; [0; 0; 3; 3; 0; 1]]%float)
  /\ (In [0; 0; 3; 3; 0; 1]%float
         [[0; 0; 0; 0; 0; 1]; [0; 1; 1; 1; 0; 1]; [0; 0; 3; 3; 0; 1]]%float
      <-> exists k row t dk v l c cnt,
            nth_error cloud_crown k = Some row
            /\ nth_error [1; 1; 1; 1]%float k = Some t
            /\ nth_error [0; 0; 20; 0]%float k = Some dk
            /\ nth_error [0; 1; 2; 3]%nat k = Some v
            /\ nth_error [0; 0; 0; 0]%Z v = Some l
            /\ [0; 0; 3; 3; 0; 1]%float = (row ++ [float_of_Z l]) ++ [t]
            /\ (dk <? 15)%float = true
            /\ In (c, cnt) (np_unique_counts_Z [0; 0; 0; 0]%Z)
            /\ (3 < cnt)%nat /\ c <> (-1)%Z
            /\ (float_of_Z l =? float_of_Z c)%float = true).
Proof.
  assert (H : surviving_cloud (ext := reference) cloud_crown [0; 0; 20; 0]%float
                [1; 1; 1; 1]%float 15 1 5 0 1 2
              = Ok [[0; 0; 0; 0; 0; 1]; [0; 1; 1; 1; 0; 1];
                    [0; 0; 3; 3; 0; 1]]%float)
    by (vm_compute; reflexivity).
  split; [repeat split; try reflexivity; exact H|].
  exact (survivors_pass_both_filters (ext := reference) cloud_crown
           [0; 0; 20; 0]%float [1; 1; 1; 1]%float 15 1 5 0 1 2
           cloud_crown [0; 1; 2; 3]%nat [0; 0; 0; 0]%Z _ eq_refl eq_refl H
           [0; 0; 3; 3; 0; 1]%float).
Defined.

(** ** The whole pipeline *)

Section Whole.

Context {ext : Collaborators}.
Variable HookState : Type.

Open Scope float_scope.

Lemma assign_nearest_clamped n_points cloud_xyz d_max axes_points tree_ids dist ids :
  assign_nearest n_points cloud_xyz d_max axes_points tree_ids = Ok (dist, ids) ->
  Forall (fun x => (d_max <? x) = false) dist.
Proof.
  unfold assign_nearest. intros H.
  apply bind_ok in H as (axes_cloud & _ & H).
  apply bind_ok in H as (picked & _ & H). inversion H; subst.
  apply Forall_forall. intros x Hx. apply in_map_iff in Hx as (y & <- & _).
  destruct (d_max <? y) eqn:E; [apply ltb_irrefl|exact E].
Qed.

Lemma approximate_clamped voxelated_cloud clust_stripe stripe_lower_limit
  stripe_upper_limit h_range min_points voxel_resolution d_max fld hook
  (h : HookState) a h' :
  compute_axes_approximate voxelated_cloud clust_stripe stripe_lower_limit
    stripe_upper_limit h_range min_points voxel_resolution d_max fld hook h
  = Ok (a, h') ->
  Forall (fun x => (d_max <? x) = false) (dist_to_axis a).
Proof.
  unfold compute_axes_approximate. intros H.
  apply bind_ok in H as (col & _ & H).
  apply bind_ok in H as (xyz & _ & H).
  apply bind_ok in H as (bb_min & _ & H).
  apply bind_ok in H as (bb_max & _ & H).
  apply bind_ok in H as (h0 & _ & H).
  apply bind_ok in H as ([st h1] & _ & H).
  apply bind_ok in H as ([dist tids] & Has & H). inversion H; subst. simpl.
  exact (assign_nearest_clamped _ _ _ _ _ _ _ Has).
Qed.

End Whole.

(** X12.  [individualize_trees] returns every row of the input cloud, in
    the input order, followed by the tree id and the distance found for the
    voxel the row belongs to; and no distance returned is above [d_max]. *)
Theorem assigned_cloud_extends_every_point
  {ext : Collaborators} (HookState : Type)
  (cloud clust_stripe : Matrix)
  (resolution_z resolution_xy stripe_lower_limit stripe_upper_limit h_range
   d_max : float) (min_points : Z) (d max_dev resolution_heights : float)
  (n_digits : Z) (fld : Fields) (progress_hook : option (Hook HookState))
  (h : HookState) (r : Individualized) (h' : HookState) :
  individualize_trees cloud clust_stripe resolution_z resolution_xy
    stripe_lower_limit stripe_upper_limit h_range d_max min_points d max_dev
    resolution_heights n_digits fld progress_hook h = Ok (r, h') ->
  exists voxelated_cloud vox_to_cloud_ind a,
    voxelate cloud resolution_z resolution_xy n_digits
             (X_field fld) (Y_field fld) (Z_field fld)
    = Ok (voxelated_cloud, vox_to_cloud_ind)
    /\ compute_axes_approximate voxelated_cloud clust_stripe stripe_lower_limit
         stripe_upper_limit h_range min_points resolution_xy d_max fld
         progress_hook h = Ok (a, h')
    /\ length (assigned_cloud r) = length cloud
    /\ forall k row, nth_error cloud k = Some row ->
       exists v t dd,
         nth_error vox_to_cloud_ind k = Some v
         /\ nth_error (tree_id_vector a) v = Some t
         /\ nth_error (dist_to_axis a) v = Some dd
         /\ nth_error (assigned_cloud r) k = Some ((row ++ [t]) ++ [dd])
         /\ (d_max <? dd)%float = false.
Proof.
  unfold individualize_trees, np_hstack. intros H.
  apply bind_ok in H as ([vc ind] & Hv & H).
  apply bind_ok in H as ([a h1] & Ha & H).
  apply bind_ok in H as (heights & Hh & H).
  apply bind_ok in H as (ids & Hids & H).
  apply bind_ok in H as (dists & Hdists & H).
  apply bind_ok in H as (assigned & Has & H).
  apply bind_ok in Has as (with_ids & Hw & Has).
  inversion H; subst; clear H. simpl.
  exists vc, ind, a. split; [exact Hv|]. split; [exact Ha|].
  destruct (append_column_length _ _ _ Hw) as (Li & Lw).
  destruct (append_column_length _ _ _ Has) as (Ld & Lr).
  split; [lia|].
  intros k row Hrow.
  assert (Hk : (k < length ind)%nat).
  { rewrite <- (take_length _ _ _ Hids), Li. apply nth_error_Some. congruence. }
  destruct (nth_error_defined ind k Hk) as (v & Hvk).
  destruct (take_nth _ _ _ Hids _ _ Hvk) as (t & Ht & Htv).
  destruct (take_nth _ _ _ Hdists _ _ Hvk) as (dd & Hdd & Hdv).
  exists v, t, dd. repeat split; try assumption.
  - pose proof (append_column_nth _ _ _ Hw _ _ _ Hrow Ht) as Hp.
    exact (append_column_nth _ _ _ Has _ _ _ Hp Hdd).
  - pose proof (approximate_clamped HookState _ _ _ _ _ _ _ _ _ _ _ _ _ Ha) as F.
    rewrite Forall_forall in F. apply F. exact (nth_error_In _ _ Hdv).
Qed.

(** The crown of four points, one per voxel, and the stem of cluster 1: the
    second point, whose voxel is more than 1.5 from the nearest sample of the
    axis, is returned with tree id 1 and the distance 1.5. *)
Lemma assigned_cloud_extends_every_point_witness :
  individualize_trees (ext := gridded) (HookState := unit)
    cloud_crown stripe_one 1 1 0 1 1 1.5 2 15 25 1 5 canonical_fields None tt
  = Ok ({| assigned_cloud :=
             [[0; 0; 0; 0; 1; sqrt 0.5]; [0; 1; 1; 1; 1; 1.5];
              [0; 0; 2; 2; 1; sqrt 0.5]; [0; 0; 3; 3; 1; sqrt 1.5]]%float;
           trees_found := [tree_row 1 0];
           tree_heights := [[0.5; 0.5; 3.5; 3.5; 1]]%float |}, tt)
  /\ exists voxelated_cloud vox_to_cloud_ind a,
       voxelate (Collaborators := gridded) cloud_crown 1 1 5 0 1 2
       = Ok (voxelated_cloud, vox_to_cloud_ind)
       /\ compute_axes_approximate (ext := gridded) voxelated_cloud stripe_one
            0 1 1 2 1 1.5 canonical_fields None tt = Ok (a, tt)
       /\ length [[0; 0; 0; 0; 1; sqrt 0.5]; [0; 1; 1; 1; 1; 1.5];
                  [0; 0; 2; 2; 1; sqrt 0.5]; [0; 0; 3; 3; 1; sqrt 1.5]]%float
          = length cloud_crown
       /\ forall k row, nth_error cloud_crown k = Some row ->
          exists v t dd,
            nth_error vox_to_cloud_ind k = Some v
            /\ nth_error (tree_id_vector a) v = Some t
            /\ nth_error (dist_to_axis a) v = Some dd
            /\ nth_error [[0; 0; 0; 0; 1; sqrt 0.5]; [0; 1; 1; 1; 1; 1.5];
                          [0; 0; 2; 2; 1; sqrt 0.5]; [0; 0; 3; 3; 1; sqrt 1.5]]%float
                         k
               = Some ((row ++ [t]) ++ [dd])
            /\ (1.5 <? dd)%float = false.
Proof.
  assert (H : individualize_trees (ext := gridded) (HookState := unit)
                cloud_crown stripe_one 1 1 0 1 1 1.5 2 15 25 1 5 canonical_fields
                None tt
              = Ok ({| assigned_cloud :=
             [[0; 0; 0; 0; 1; sqrt 0.5]; [0; 1; 1; 1; 1; 1.5];
              [0; 0; 2; 2; 1; sqrt 0.5]; [0; 0; 3; 3; 1; sqrt 1.5]]%float;
           trees_found := [tree_row 1 0];
           tree_heights := [[0.5; 0.5; 3.5; 3.5; 1]]%float |}, tt))
    by (vm_compute; reflexivity).
  split; [exact H|].
  exact (assigned_cloud_extends_every_point unit _ _ _ _ _ _ _ _ _ _ _ _ _ _ _ _
           _ _ H).
Defined.

(** X13.  [individualize_trees] raises when every cluster that passes the
    size filter is rejected by the height filter, or none passes the size
    filter. *)
Theorem individualize_trees_needs_a_valid_stem
  {ext : Collaborators} (HookState : Type)
  (cloud clust_stripe : Matrix)
  (resolution_z resolution_xy stripe_lower_limit stripe_upper_limit h_range
   d_max : float) (min_points : Z) (d max_dev resolution_heights : float)
  (n_digits : Z) (fld : Fields) (progress_hook : option (Hook HookState))
  (h : HookState) (col : Vec) :
  column clust_stripe (tree_id_field fld) = Ok col ->
  (forall i, In i (filter_counts (np_unique_counts col) min_points) ->
             fit_stem clust_stripe fld
               ((stripe_upper_limit - stripe_lower_limit) * h_range)%float i
             = Ok None) ->
  raises (individualize_trees cloud clust_stripe resolution_z resolution_xy
            stripe_lower_limit stripe_upper_limit h_range d_max min_points d
            max_dev resolution_heights n_digits fld progress_hook h).
Proof.
  intros Hcol Hall. unfold individualize_trees.
  destruct (voxelate cloud _ _ _ _ _ _) as [[vc ind]|e]; simpl; [|now exists e].
  unfold compute_axes_approximate. rewrite Hcol. simpl.
  destruct (columns vc _) as [xyz|e]; simpl; [|now exists e].
  destruct (np_min0 3 xyz) as [bb_min|e]; simpl; [|now exists e].
  destruct (np_max0 3 xyz) as [bb_max|e]; simpl; [|now exists e].
  destruct (call_hook progress_hook 0 _ h) as [h0|e]; simpl; [|now exists e].
  match goal with
  | |- raises (bind (bind (for_each ?b ?l ?s ?h1) _) _) =>
      pose proof (approximate_loop_all_rejected HookState clust_stripe _
                    resolution_xy (v3_of bb_max) (v3_of bb_min) fld
                    progress_hook (length l) l Hall s h1) as E;
      destruct (for_each b l s h1) as [[st' h']|e]; simpl; [|now exists e]
  end.
  rewrite (E _ _ eq_refl). simpl. now exists ValueError.
Qed.

(** A single cluster of 3 points and [min_points = 20]. *)
Lemma individualize_trees_needs_a_valid_stem_witness :
  column stripe_one (tree_id_field canonical_fields) = Ok [1; 1; 1]%float
  /\ filter_counts (np_unique_counts [1; 1; 1]%float) 20 = []
  /\ raises (individualize_trees (ext := reference) (HookState := unit)
               cloud_far stripe_one 1 1 0 1 1 1.5 20 15 25 1 5
               canonical_fields None tt).
Proof.
  split; [reflexivity|]. split; [reflexivity|].
  apply (individualize_trees_needs_a_valid_stem (ext := reference) unit
           _ _ _ _ _ _ _ _ _ _ _ _ _ _ _ _ [1; 1; 1]%float); [reflexivity|].
  intros i Hi. vm_compute in Hi. contradiction.
Defined.

(** X14.  The hook given to [individualize_trees] goes to
    [compute_axes_approximate] and is called nowhere else: when the call
    returns, the hook has received [(0, n)], ..., [(n, n)] for the [n]
    clusters that pass the size filter, in this order, and no other call. *)
Theorem individualize_trees_reports_progress
  {ext : Collaborators} (HookState : Type)
  (cloud clust_stripe : Matrix)
  (resolution_z resolution_xy stripe_lower_limit stripe_upper_limit h_range
   d_max : float) (min_points : Z) (d max_dev resolution_heights : float)
  (n_digits : Z) (fld : Fields) (hook : Hook HookState)
  (h : HookState) (col : Vec) (r : Individualized) (h' : HookState) :
  column clust_stripe (tree_id_field fld) = Ok col ->
  individualize_trees cloud clust_stripe resolution_z resolution_xy
    stripe_lower_limit stripe_upper_limit h_range d_max min_points d max_dev
    resolution_heights n_digits fld (Some hook) h = Ok (r, h') ->
  report (Some hook)
    (progress_calls (length (filter_counts (np_unique_counts col) min_points))) h
  = Ok h'.
Proof.
  intros Hcol H. unfold individualize_trees in H.
  apply bind_ok in H as ([vc ind] & Hv & H).
  apply bind_ok in H as ([a h1] & Ha & H).
  apply bind_ok in H as (heights & Hh & H).
  apply bind_ok in H as (ids & Hids & H).
  apply bind_ok in H as (dists & Hdists & H).
  apply bind_ok in H as (assigned & Has & H).
  inversion H; subst.
  exact (approximate_calls HookState _ _ _ _ _ _ _ _ _ _ _ _ _ _ Hcol Ha).
Qed.

(** The crown of four points, one candidate cluster and the recording hook:
    two calls. *)
Lemma individualize_trees_reports_progress_witness :
  (column stripe_one (tree_id_field canonical_fields) = Ok [1; 1; 1]%float
   /\ individualize_trees (ext := gridded)
        cloud_crown stripe_one 1 1 0 1 1 1.5 2 15 25 1 5 canonical_fields
        (Some log_hook) []
      = Ok ({| assigned_cloud :=
             [[0; 0; 0; 0; 1; sqrt 0.5]; [0; 1; 1; 1; 1; 1.5];
              [0; 0; 2; 2; 1; sqrt 0.5]; [0; 0; 3; 3; 1; sqrt 1.5]]%float;
           trees_found := [tree_row 1 0];
           tree_heights := [[0.5; 0.5; 3.5; 3.5; 1]]%float |}, [(1, 1); (0, 1)]%nat))
  /\ report (Some log_hook)
       (progress_calls
          (length (filter_counts (np_unique_counts [1; 1; 1]%float) 2))) []
     = Ok [(1, 1); (0, 1)]%nat.
Proof.
  assert (Hc : column stripe_one (tree_id_field canonical_fields)
               = Ok [1; 1; 1]%float) by reflexivity.
  assert (H : individualize_trees (ext := gridded)
                cloud_crown stripe_one 1 1 0 1 1 1.5 2 15 25 1 5 canonical_fields
                (Some log_hook) []
              = Ok ({| assigned_cloud :=
             [[0; 0; 0; 0; 1; sqrt 0.5]; [0; 1; 1; 1; 1; 1.5];
              [0; 0; 2; 2; 1; sqrt 0.5]; [0; 0; 3; 3; 1; sqrt 1.5]]%float;
           trees_found := [tree_row 1 0];
           tree_heights := [[0.5; 0.5; 3.5; 3.5; 1]]%float |}, [(1, 1); (0, 1)]%nat))
    by (vm_compute; reflexivity).
  split; [split; [exact Hc|exact H]|].
  exact (individualize_trees_reports_progress _ _ _ _ _ _ _ _ _ _ _ _ _ _ _ _ _ _
           _ _ Hc H).
Defined.

(** ** The tree ids of the approximate strategy *)

Section Identifiers.

Context {ext : Collaborators}.
Variable HookState : Type.

Open Scope float_scope.

Lemma slice_fill_in (v : float) :
  forall a lo hi x, In x (slice_fill a lo hi v) -> In x a \/ x = v.
Proof.
  induction a as [|y a IH]; intros lo hi x; simpl; [auto|].
  destruct lo, hi; simpl; auto.
  - intros [<-|H]; [auto|]. destruct (IH _ _ _ H); auto.
  - intros [<-|H]; [auto|]. destruct (IH _ _ _ H); auto.
Qed.

Lemma fill_tree_cluster_in :
  forall axes_points ids tree_cluster min_id x,
  In x (fill_tree_cluster tree_cluster min_id axes_points ids) ->
  In x tree_cluster \/ In x ids.
Proof.
  induction axes_points as [|pts rest IH]; intros [|id ids] tc m x; simpl; auto.
  intros H. apply IH in H as [H|H]; [|auto].
  apply slice_fill_in in H as [H| ->]; auto.
Qed.

Lemma take_in {A : Type} (a : list A) (indexes : list nat) (r : list A) (x : A) :
  take a indexes = Ok r -> In x r -> In x a.
Proof.
  intros H Hx. apply In_nth_error in Hx as (k & Hk).
  destruct (nth_error_defined indexes k) as (v & Hv).
  { rewrite <- (take_length _ _ _ H). apply nth_error_Some. congruence. }
  destruct (take_nth _ _ _ H _ _ Hv) as (y & Hy & Hay).
  assert (y = x) by congruence. subst y. exact (nth_error_In _ _ Hay).
Qed.

Lemma approximate_loop_ids stripe hrv step bb_max bb_min fld hook n ids :
  forall st (h : HookState) st' h',
  for_each (approximate_body stripe hrv step bb_max bb_min fld hook n) ids st h
  = Ok (st', h') ->
  forall t, In t (valid_tree_ids st') ->
  In t (valid_tree_ids st)
  \/ (In t ids /\ exists stem, fit_stem stripe fld hrv t = Ok (Some stem)).
Proof.
  induction ids as [|i ids IH]; simpl; intros st h st' h' H t Ht.
  - inversion H; subst. auto.
  - apply bind_ok in H as ([st1 h1] & Hb & H).
    destruct (IH _ _ _ _ H t Ht) as [H1|(Hin & Hs)]; [|now right; auto].
    apply approximate_body_plain in Hb. unfold approximate_body in Hb.
    destruct (fit_stem stripe fld hrv i) as [[stem|]|e] eqn:Hf;
      simpl in Hb; try discriminate.
    + destruct (components_ (stem_pca stem)) as [[pc1 pc2] pc3].
      destruct (sample_axis _ _ _ _ _) as [pts|e]; simpl in Hb; [|discriminate].
      inversion Hb; subst; clear Hb. simpl in H1.
      apply in_app_or in H1 as [H1|[<-|[]]]; [auto|].
      right. split; [now left|eauto].
    + inversion Hb; subst. auto.
Qed.

Lemma assign_nearest_ids n_points cloud_xyz d_max axes_points tree_ids dist ids t :
  assign_nearest n_points cloud_xyz d_max axes_points tree_ids = Ok (dist, ids) ->
  In t ids -> t = 0 \/ In t tree_ids.
Proof.
  unfold assign_nearest. intros H Ht.
  apply bind_ok in H as (axes_cloud & _ & H).
  apply bind_ok in H as (picked & Hp & H). inversion H; subst; clear H.
  rewrite mask_fill_all_false in Ht by apply clamped_mask_is_empty.
  apply (take_in _ _ _ _ Hp) in Ht.
  apply fill_tree_cluster_in in Ht as [Ht|Ht]; [|auto].
  apply repeat_spec in Ht. auto.
Qed.

End Identifiers.

(** X15.  Every tree id [compute_axes_approximate] returns is 0, the value
    [tree_cluster] is created with at line 457, or the id of a cluster that
    passes the size filter and the height filter. *)
Theorem approximate_ids_are_zero_or_valid
  {ext : Collaborators} (HookState : Type)
  (voxelated_cloud clust_stripe : Matrix)
  (stripe_lower_limit stripe_upper_limit h_range : float) (min_points : Z)
  (voxel_resolution d_max : float) (fld : Fields)
  (progress_hook : option (Hook HookState)) (h : HookState)
  (col : Vec) (a : Axes) (h' : HookState) :
  column clust_stripe (tree_id_field fld) = Ok col ->
  compute_axes_approximate voxelated_cloud clust_stripe stripe_lower_limit
    stripe_upper_limit h_range min_points voxel_resolution d_max fld
    progress_hook h = Ok (a, h') ->
  forall t, In t (tree_id_vector a) ->
    t = 0%float
    \/ (In t (filter_counts (np_unique_counts col) min_points)
        /\ exists stem,
             fit_stem clust_stripe fld
               ((stripe_upper_limit - stripe_lower_limit) * h_range)%float t
             = Ok (Some stem)).
Proof.
  intros Hcol H t Ht. apply approximate_plain with (h0 := h) in H.
  unfold compute_axes_approximate in H. rewrite Hcol in H. simpl in H.
  apply bind_ok in H as (xyz & _ & H).
  apply bind_ok in H as (bb_min & _ & H).
  apply bind_ok in H as (bb_max & _ & H).
  apply bind_ok in H as ([st h1] & Hloop & H).
  apply bind_ok in H as ([dist tids] & Has & H). inversion H; subst; clear H.
  simpl in Ht.
  destruct (assign_nearest_ids _ _ _ _ _ _ _ _ Has Ht) as [E|Hin]; [auto|].
  destruct (approximate_loop_ids HookState _ _ _ _ _ _ _ _ _ _ _ _ _ Hloop t Hin)
    as [[]|K].
  now right.
Qed.

(** Two stems and a cloud of four points: the ids returned are 1, 1, 2, 1. *)
Lemma approximate_ids_are_zero_or_valid_witness :
  (column stripe_two (tree_id_field canonical_fields)
   = Ok [1; 1; 1; 2; 2; 2]%float
   /\ compute_axes_approximate (ext := reference) (HookState := unit)
        cloud_far stripe_two 0 1 1 2 1 1.5 canonical_fields None tt
      = Ok ({| detected_trees := [tree_row 1 0; [2; 0; 0; 1; 2; 0; 1; 0; 0]%float];
               dist_to_axis := [0; 1; 1.5; 1]%float;
               tree_id_vector := [1; 1; 2; 1]%float |}, tt))
  /\ (2%float = 0%float
      \/ (In 2%float (filter_counts (np_unique_counts [1; 1; 1; 2; 2; 2]%float) 2)
          /\ exists stem,
               fit_stem (ext := reference) stripe_two canonical_fields
                 ((1 - 0) * 1)%float 2 = Ok (Some stem))).
Proof.
  assert (Hc : column stripe_two (tree_id_field canonical_fields)
               = Ok [1; 1; 1; 2; 2; 2]%float) by reflexivity.
  assert (H : compute_axes_approximate (ext := reference) (HookState := unit)
                cloud_far stripe_two 0 1 1 2 1 1.5 canonical_fields None tt
              = Ok ({| detected_trees :=
                         [tree_row 1 0; [2; 0; 0; 1; 2; 0; 1; 0; 0]%float];
                       dist_to_axis := [0; 1; 1.5; 1]%float;
                       tree_id_vector := [1; 1; 2; 1]%float |}, tt))
    by (vm_compute; reflexivity).
  split; [split; [exact Hc|exact H]|].
  refine (approximate_ids_are_zero_or_valid unit _ _ _ _ _ _ _ _ _ _ _ _ _ _
            Hc H 2%float _).
  simpl. auto.
Defined.

(** ** The exact strategy without a valid stem *)

Section Nothing.

Context {ext : Collaborators}.
Variable HookState : Type.

(** When every candidate is rejected, the loop of [compute_axes_exact] ends
    with the arrays it started with. *)
Lemma exact_loop_all_rejected cloud stripe hrv d_max fld n ids :
  (forall i, In i ids -> fit_stem stripe fld hrv i = Ok None) ->
  forall st (h : HookState), exists st',
    for_each (exact_body cloud stripe hrv d_max fld None n) ids st h = Ok (st', h)
    /\ axes st' = axes st.
Proof.
  induction ids as [|i ids IH]; simpl; intros Hall st h; [eauto|].
  unfold exact_body at 1. unfold stem_axis.
  rewrite (Hall i (or_introl eq_refl)). simpl.
  destruct (IH (fun i Hi => Hall i (or_intror Hi))
               {| axes := axes st; id_valid := id_valid st;
                  id_progress := S (id_progress st) |} h)
    as (st' & H & E).
  exists st'. auto.
Qed.

Lemma drop_zero_rows_nothing (n : nat) :
  drop_zero_rows (repeat (repeat 0%float 9) n) = [].
Proof.
  destruct (drop_zero_rows (repeat (repeat 0%float 9) n)) as [|row l] eqn:E;
    [reflexivity|].
  exfalso. apply (drop_zero_rows_start n row). rewrite E. now left.
Qed.

End Nothing.

(** X16.  When every cluster that passes the size filter is rejected by the
    height filter, or none passes the size filter, and the hook, if there is
    one, returns from its calls, [compute_axes_exact] returns: no detected
    tree, and 100000 as the distance and as the tree id of every point. *)
Theorem exact_returns_no_tree_without_a_valid_stem
  {ext : Collaborators} (HookState : Type)
  (voxelated_cloud clust_stripe : Matrix)
  (stripe_lower_limit stripe_upper_limit h_range : float) (min_points : Z)
  (d_max : float) (fld : Fields)
  (progress_hook : option (Hook HookState)) (h : HookState) (col : Vec) :
  column clust_stripe (tree_id_field fld) = Ok col ->
  (forall i, In i (filter_counts (np_unique_counts col) min_points) ->
             fit_stem clust_stripe fld
               ((stripe_upper_limit - stripe_lower_limit) * h_range)%float i
             = Ok None) ->
  never_raises progress_hook ->
  outcome (compute_axes_exact voxelated_cloud clust_stripe stripe_lower_limit
             stripe_upper_limit h_range min_points d_max fld progress_hook h)
  = Ok {| detected_trees := [];
          dist_to_axis := repeat 100000%float (length voxelated_cloud);
          tree_id_vector := repeat 100000%float (length voxelated_cloud) |}.
Proof.
  intros Hcol Hall N.
  rewrite (exact_outcome HookState _ _ _ _ _ _ _ _ progress_hook None h h N
             (no_hook_never_raises HookState)).
  unfold compute_axes_exact. rewrite Hcol. simpl.
  match goal with
  | |- outcome (bind (for_each ?b ?l ?s ?h0) _) = _ =>
      destruct (exact_loop_all_rejected HookState voxelated_cloud clust_stripe _
                  d_max fld (length l) l Hall s h0)
        as (st' & -> & E)
  end.
  simpl. rewrite E. simpl. now rewrite drop_zero_rows_nothing.
Qed.

(** A single cluster of 3 points, 2 units high, where a height of more than
    2 is asked for. *)
Lemma exact_returns_no_tree_without_a_valid_stem_witness :
  (column stripe_one (tree_id_field canonical_fields) = Ok [1; 1; 1]%float
   /\ filter_counts (np_unique_counts [1; 1; 1]%float) 2 = [1%float]
   /\ fit_stem (ext := reference) stripe_one canonical_fields ((1 - 0) * 2)%float 1
      = Ok None)
  /\ outcome (compute_axes_exact (ext := reference) (HookState := unit)
                cloud_far stripe_one 0 1 2 2 1.5 canonical_fields None tt)
     = Ok {| detected_trees := [];
             dist_to_axis := repeat 100000%float (length cloud_far);
             tree_id_vector := repeat 100000%float (length cloud_far) |}.
Proof.
  split; [repeat split; vm_compute; reflexivity|].
  apply (exact_returns_no_tree_without_a_valid_stem (ext := reference) unit
           _ _ _ _ _ _ _ _ _ _ [1; 1; 1]%float); [reflexivity| |].
  - intros i Hi. vm_compute in Hi. destruct Hi as [<-|[]].
    vm_compute. reflexivity.
  - intros done total s. now exists s.
Defined.

(** ** Concrete runs *)

(** C1 (the code departs from the claim).  One stem (cluster 1) and a cloud
    whose third point is 5 units away from the nearest sample of its axis,
    with [d_max = 1.5]: [compute_axes_approximate] returns tree id 1 and
    distance 1.5 for that point, where [compute_axes_exact] returns 100000
    twice. *)
Theorem approximate_keeps_id_beyond_d_max :
  outcome (compute_axes_approximate (ext := reference) (HookState := unit)
             cloud_far stripe_one 0 1 1 2 1 1.5 canonical_fields None tt)
  = Ok {| detected_trees := [tree_row 1 0];
          dist_to_axis := [0; 1; 1.5; 1]%float;
          tree_id_vector := [1; 1; 1; 1]%float |}
  /\ KDTree_brute [(0, 0, 0); (0, 0, 1)]%float (5, 0, 1)%float = (5%float, 1)
  /\ outcome (compute_axes_exact (ext := reference) (HookState := unit)
                cloud_far stripe_one 0 1 1 2 1.5 canonical_fields None tt)
     = Ok {| detected_trees := [tree_row 1 0];
             dist_to_axis := [0; 0; 100000; 1]%float;
             tree_id_vector := [1; 1; 100000; 1]%float |}.
Proof. repeat split; vm_compute; reflexivity. Qed.

(** C2 (the code departs from the claim).  The only cluster has 3 points and
    [min_points = 20]: no stem is valid, and [compute_axes_approximate]
    raises the [ValueError] of [np.concatenate] on an empty list, where
    [compute_axes_exact] returns no tree and two arrays of 100000. *)
Theorem approximate_raises_without_valid_stem :
  compute_axes_approximate (ext := reference) (HookState := unit)
    cloud_far stripe_one 0 1 1 20 1 1.5 canonical_fields None tt
  = Raise ValueError
  /\ outcome (compute_axes_exact (ext := reference) (HookState := unit)
                cloud_far stripe_one 0 1 1 20 1.5 canonical_fields None tt)
     = Ok {| detected_trees := [];
             dist_to_axis := [100000; 100000; 100000; 100000]%float;
             tree_id_vector := [100000; 100000; 100000; 100000]%float |}.
Proof. split; vm_compute; reflexivity. Qed.

(** C3 (the code departs from the claim).  A cloud of 2 points, 4 units
    high, and a sampling step of 1: the axis has 4 samples, [tree_cluster]
    has 2 entries, the nearest sample of the second point has index 3, and
    [tree_cluster[indexes]] raises [IndexError]. *)
Theorem approximate_raises_with_more_samples_than_points :
  compute_axes_approximate (ext := reference) (HookState := unit)
    cloud_sparse stripe_one 0 1 1 2 1 1.5 canonical_fields None tt
  = Raise IndexError
  /\ sample_axis (0, 0, 1)%float (0, 0, 1)%float (0, 0, 4)%float (0, 0, 0)%float 1
     = Ok [(0, 0, 0); (0, 0, 1); (0, 0, 2); (0, 0, 3)]%float
  /\ KDTree_brute [(0, 0, 0); (0, 0, 1); (0, 0, 2); (0, 0, 3)]%float (0, 0, 4)%float
     = (1%float, 3)
  /\ fill_tree_cluster (repeat 0%float (length cloud_sparse)) 0
       [[(0, 0, 0); (0, 0, 1); (0, 0, 2); (0, 0, 3)]%float] [1%float]
     = [1; 1]%float.
Proof. repeat split; vm_compute; reflexivity. Qed.

(** C4 (the code departs from the claim).  The cluster has exactly 3 points
    and spans more than the required height: with [min_points = 3] it is
    filtered out ([n > min_points]) by both strategies, with [min_points = 2]
    it is detected by both. *)
Theorem cluster_of_exactly_min_points_is_dropped :
  np_unique_counts [1; 1; 1]%float = [(1%float, 3)]
  /\ outcome (compute_axes_exact (ext := reference) (HookState := unit)
                cloud_far stripe_one 0 1 1 3 1.5 canonical_fields None tt)
     = Ok {| detected_trees := [];
             dist_to_axis := [100000; 100000; 100000; 100000]%float;
             tree_id_vector := [100000; 100000; 100000; 100000]%float |}
  /\ outcome (compute_axes_exact (ext := reference) (HookState := unit)
                cloud_far stripe_one 0 1 1 2 1.5 canonical_fields None tt)
     = Ok {| detected_trees := [tree_row 1 0];
             dist_to_axis := [0; 0; 100000; 1]%float;
             tree_id_vector := [1; 1; 100000; 1]%float |}
  /\ compute_axes_approximate (ext := reference) (HookState := unit)
       cloud_far stripe_one 0 1 1 3 1 1.5 canonical_fields None tt
     = Raise ValueError
  /\ outcome (compute_axes_approximate (ext := reference) (HookState := unit)
                cloud_far stripe_one 0 1 1 2 1 1.5 canonical_fields None tt)
     = Ok {| detected_trees := [tree_row 1 0];
             dist_to_axis := [0; 1; 1.5; 1]%float;
             tree_id_vector := [1; 1; 1; 1]%float |}.
Proof. repeat split; vm_compute; reflexivity. Qed.

(** C5 (the code departs from the claim).  The same stem and cloud with the
    fields in the order [z, x, y, z0, id]: line 134 reads column [Z_field] of
    the already selected [x, y, z] columns, that is [x], and the stem is
    rejected by both strategies (the approximate one then raises, having no
    axis); lines 586-590 read columns 0 to 2 as [x, y, z], and the highest
    point is the one of largest [y]. *)
Theorem field_layout_changes_the_results :
  outcome (compute_axes_exact (ext := reference) (HookState := unit)
             cloud_far stripe_one 0 1 1 2 1.5 canonical_fields None tt)
  = Ok {| detected_trees := [tree_row 1 0];
          dist_to_axis := [0; 0; 100000; 1]%float;
          tree_id_vector := [1; 1; 100000; 1]%float |}
  /\ outcome (compute_axes_exact (ext := reference) (HookState := unit)
                cloud_far_zxy stripe_one_zxy 0 1 1 2 1.5 fields_zxy None tt)
     = Ok {| detected_trees := [];
             dist_to_axis := [100000; 100000; 100000; 100000]%float;
             tree_id_vector := [100000; 100000; 100000; 100000]%float |}
  /\ compute_axes_approximate (ext := reference) (HookState := unit)
       cloud_far_zxy stripe_one_zxy 0 1 1 2 1 1.5 fields_zxy None tt
     = Raise ValueError
  /\ compute_heights (ext := reference) cloud_crown [tree_row 1 0]
       [0; 0; 0; 0]%float [1; 1; 1; 1]%float 15 25 1 5 0 1 2
     = Ok [[0; 0; 3; 3; 1]%float]
  /\ compute_heights (ext := reference) cloud_crown_zxy [tree_row 1 0]
       [0; 0; 0; 0]%float [1; 1; 1; 1]%float 15 25 1 5 1 2 0
     = Ok [[1; 0; 1; 1; 1]%float].
Proof. repeat split; vm_compute; reflexivity. Qed.




(** C6 (the claim as stated fails).  A point half way between two stems is
    given the id of whichever is enumerated first: the loop run over [1; 2]
    and over [2; 1] ends with different tree ids, and [compute_axes_exact]
    assigns the point to the stem at [x = 0] or to the stem at [x = 2]
    according to which of them carries the smaller label.  And with
    [d_max = 200000] a point 150000 units from the only axis, closer than
    [d_max], keeps 100000 as its distance. *)
Lemma exact_assignment_depends_on_order :
  (exists st st',
      for_each (exact_body (ext := reference) (HookState := unit)
                  cloud_between stripe_two 1 1.5 canonical_fields None 2)
               [1; 2]%float (exact_start 1 2) tt = Ok (st, tt)
      /\ for_each (exact_body (ext := reference) (HookState := unit)
                     cloud_between stripe_two 1 1.5 canonical_fields None 2)
                  [2; 1]%float (exact_start 1 2) tt = Ok (st', tt)
      /\ tree_id_vector (axes st) = [1%float]
      /\ tree_id_vector (axes st') = [2%float])
  /\ (outcome (compute_axes_exact (ext := reference) (HookState := unit)
                 cloud_between stripe_two 0 1 1 2 1.5 canonical_fields None tt)
      = Ok {| detected_trees := [[1; 0; 0; 1; 0; 0; 1; 0; 0];
                                 [2; 0; 0; 1; 2; 0; 1; 0; 0]]%float;
              dist_to_axis := [1%float];
              tree_id_vector := [1%float] |}
      /\ outcome (compute_axes_exact (ext := reference) (HookState := unit)
                    cloud_between stripe_two_swapped 0 1 1 2 1.5 canonical_fields
                    None tt)
         = Ok {| detected_trees := [[1; 0; 0; 1; 2; 0; 1; 0; 0];
                                    [2; 0; 0; 1; 0; 0; 1; 0; 0]]%float;
                 dist_to_axis := [1%float];
                 tree_id_vector := [1%float] |})
  /\ (axis_distance (ext := reference) cloud_remote stripe_one 1 canonical_fields
                    1 0 150000
      /\ (150000 <? 200000)%float = true
      /\ outcome (compute_axes_exact (ext := reference) (HookState := unit)
                    cloud_remote stripe_one 0 1 1 2 200000 canonical_fields None tt)
         = Ok {| detected_trees := [tree_row 1 0];
                 dist_to_axis := [100000%float];
                 tree_id_vector := [100000%float] |}).
Proof.
  split; [|split].
  - eexists. eexists. repeat split; vm_compute; reflexivity.
  - split; vm_compute; reflexivity.
  - repeat split; try (vm_compute; reflexivity).
    eexists. eexists. split; vm_compute; reflexivity.
Qed.

(** Two stems and the cloud of four points: the fourth point, a unit away
    from both axes, ends with distance 1 and the id of cluster 1. *)
Lemma exact_assignment_is_closest_axis_witness :
  for_each (exact_body (ext := reference) (HookState := unit)
              cloud_far stripe_two 1 1.5 canonical_fields None 2)
           [1; 2]%float (exact_start (length cloud_far) 2) tt
  = Ok ({| axes := {| detected_trees := [tree_row 1 0; [2; 0; 0; 1; 2; 0; 1; 0; 0]%float];
                      dist_to_axis := [0; 0; 100000; 1]%float;
                      tree_id_vector := [1; 1; 100000; 1]%float |};
           id_valid := 2;
           id_progress := 2 |}, tt)
  /\ closest_axis (ext := reference) cloud_far stripe_two 1 canonical_fields 1.5
                  [1; 2]%float 3 1 1.
Proof.
  assert (H : for_each (exact_body (ext := reference) (HookState := unit)
                          cloud_far stripe_two 1 1.5 canonical_fields None 2)
                       [1; 2]%float (exact_start (length cloud_far) 2) tt
              = Ok ({| axes := {| detected_trees :=
                                    [tree_row 1 0; [2; 0; 0; 1; 2; 0; 1; 0; 0]%float];
                                  dist_to_axis := [0; 0; 100000; 1]%float;
                                  tree_id_vector := [1; 1; 100000; 1]%float |};
                       id_valid := 2;
                       id_progress := 2 |}, tt))
    by (vm_compute; reflexivity).
  split; [exact H|].
  destruct (exact_assignment_is_closest_axis unit _ _ _ _ _ _ _ _ _ _ _ H)
    as (_ & Hmin & _).
  destruct (Hmin 3) as (d & t & Hd & Ht & Hc); [simpl; lia|].
  simpl in Hd, Ht. inversion Hd; inversion Ht; subst. exact Hc.
Defined.

(** Two trees with deviations 25 and 26 and [max_dev = 25]: flags 1 and 0. *)
Lemma height_flag_is_strict_in_max_dev_witness :
  compute_heights (ext := reference) cloud_crown [tree_row 1 25; tree_row 1 26]
    [0; 0; 0; 0]%float [1; 1; 1; 1]%float 15 25 1 5 0 1 2
  = Ok [[0; 0; 3; 3; 1]; [0; 0; 3; 3; 0]]%float
  /\ length [[0; 0; 3; 3; 1]; [0; 0; 3; 3; 0]]%float
     = length [tree_row 1 25; tree_row 1 26].
Proof.
  assert (H : compute_heights (ext := reference) cloud_crown
                [tree_row 1 25; tree_row 1 26]
                [0; 0; 0; 0]%float [1; 1; 1; 1]%float 15 25 1 5 0 1 2
              = Ok [[0; 0; 3; 3; 1]; [0; 0; 3; 3; 0]]%float)
    by (vm_compute; reflexivity).
  split; [exact H|].
  exact (proj1 (height_flag_is_strict_in_max_dev _ _ _ _ _ _ _ _ _ _ _ _ H)).
Defined.

(** A second detected tree with id 2, and no point of the cloud assigned to
    tree 2. *)
Lemma heights_raise_without_surviving_point_witness :
  (surviving_cloud (ext := reference) cloud_crown [0; 0; 0; 0]%float
     [1; 1; 1; 1]%float 15 1 5 0 1 2
   = Ok [[0; 0; 0; 0; 0; 1]; [0; 1; 1; 1; 0; 1];
         [0; 0; 2; 2; 0; 1]; [0; 0; 3; 3; 0; 1]]%float
   /\ forallb (fun t => negb (t =? 2)%float) [1; 1; 1; 1]%float = true)
  /\ raises (compute_heights (ext := reference) cloud_crown
               [tree_row 1 25; tree_row 2 26]
               [0; 0; 0; 0]%float [1; 1; 1; 1]%float 15 25 1 5 0 1 2).
Proof.
  assert (H : surviving_cloud (ext := reference) cloud_crown [0; 0; 0; 0]%float
                [1; 1; 1; 1]%float 15 1 5 0 1 2
              = Ok [[0; 0; 0; 0; 0; 1]; [0; 1; 1; 1; 0; 1];
                    [0; 0; 2; 2; 0; 1]; [0; 0; 3; 3; 0; 1]]%float)
    by (vm_compute; reflexivity).
  split; [split; [exact H|reflexivity]|].
  refine (proj2 (heights_raise_without_surviving_point
                   cloud_crown [tree_row 1 25; tree_row 2 26] _ _ _ 25 _ _ _ _ _
                   _ 1 (tree_row 2 26) 2 [1; 1; 1; 1]%float H _ _ _ _));
    reflexivity.
Defined.
